(** * Fan Engagement Agent: the progression and reward ledger

    A shallow embedding of [backend/app/memory/database.py] (the SQLite
    store), [backend/app/predictions/engine.py] (the prediction engine) and
    the quiz, progress, prediction and leaderboard handlers of
    [backend/app/main.py], followed by the properties of the ledger.  The
    reading methods of the store, the profile, history and team handlers,
    the award methods of [backend/app/tools/reward_tracker.py] and the
    keyword routing of [backend/app/agent/agent.py] follow the sample data,
    and their properties the ones of the ledger.

    Conventions.
    - A table is the list of its rows in insertion order.  A table declared
      [INTEGER PRIMARY KEY AUTOINCREMENT] carries the last id it handed out.
    - [CURRENT_TIMESTAMP] is an explicit argument [now].
    - SQLite and Python integers are [Z]; Python floats are the kernel's
      binary64 floats.  [sqlite3] binds an integer only within the signed 64
      bits of SQLite ([int64]) and a NaN as NULL: the handlers that pass an
      integer or a float of the request to the store answer 500 when it
      cannot be bound or stored, and the methods of the store are written
      for arguments that can.
    - Strings are byte strings, compared byte for byte (SQLite's BINARY
      collation, Python's [==]).  [str.strip], [str.lower] and
      [str.capitalize] are modelled on ASCII.
    - An exception is a value: code that may raise returns a [result]; a
      handler returns [Raise status] where FastAPI would answer with that
      HTTP status, and a store method that catches [sqlite3.IntegrityError]
      is written with the test of the constraint that raises it.
    - Randomness and failures of the database engine are inputs: the value
      of [random.random()], the draws of [random.sample], and the statement
      of [save_prediction] that raises, if any. *)

From Stdlib Require Import ZArith String Ascii List Lia.
From Stdlib Require Import Floats.
From stdpp Require Import base strings gmap list sorting pretty.

Local Open Scope string_scope.
Local Open Scope Z_scope.

(** ** Python values and built-ins used by the handlers *)

Module Py.

(** [int] to [float], exact below 2^53 in magnitude; the integers converted
    here are table entries and list lengths.  For such operands [a / b] on
    Python integers is the binary64 quotient of the converted operands. *)
Definition float_of_int (z : Z) : float :=
  match z with
  | Z0 => PrimFloat.of_uint63 (Uint63.of_Z 0)
  | Zpos _ => PrimFloat.of_uint63 (Uint63.of_Z z)
  | Zneg _ => PrimFloat.opp (PrimFloat.of_uint63 (Uint63.of_Z (- z)))
  end.

(** [int(x)] on a float: truncation toward zero.  [None] stands for the
    [ValueError]/[OverflowError] Python raises on NaN and infinities. *)
Definition int_of_float (x : float) : option Z :=
  match Prim2SF x with
  | SpecFloat.S754_zero _ => Some 0
  | SpecFloat.S754_finite s m e =>
      let mag := if 0 <=? e then Z.pos m * 2 ^ e else Z.pos m / 2 ^ (- e) in
      Some (if s then - mag else mag)
  | SpecFloat.S754_infinity _ => None
  | SpecFloat.S754_nan => None
  end.

(** [str(n)] for an integer. *)
Definition str_of_int (z : Z) : string := pretty z.
Definition str_of_nat (n : nat) : string := pretty n.

(** ASCII whitespace as [str.strip()] sees it: TAB, LF, VT, FF, CR,
    the separators 0x1c..0x1f and the space. *)
Definition is_space (c : ascii) : bool :=
  let n := nat_of_ascii c in
  ((9 <=? n) && (n <=? 13) || (28 <=? n) && (n <=? 32))%nat.

Fixpoint lstrip (s : string) : string :=
  match s with
  | String c s' => if is_space c then lstrip s' else s
  | EmptyString => EmptyString
  end.

Fixpoint rstrip (s : string) : string :=
  match s with
  | String c s' =>
      match rstrip s' with
      | EmptyString => if is_space c then EmptyString else String c EmptyString
      | t => String c t
      end
  | EmptyString => EmptyString
  end.

Definition strip (s : string) : string := rstrip (lstrip s).

Definition lower_char (c : ascii) : ascii :=
  let n := nat_of_ascii c in
  if ((65 <=? n) && (n <=? 90))%nat then ascii_of_nat (n + 32) else c.

Definition upper_char (c : ascii) : ascii :=
  let n := nat_of_ascii c in
  if ((97 <=? n) && (n <=? 122))%nat then ascii_of_nat (n - 32) else c.

Fixpoint lower (s : string) : string :=
  match s with
  | String c s' => String (lower_char c) (lower s')
  | EmptyString => EmptyString
  end.

Definition capitalize (s : string) : string :=
  match s with
  | String c s' => String (upper_char c) (lower s')
  | EmptyString => EmptyString
  end.

(** [l[i]] with Python's negative indices; [None] is [IndexError]. *)
Definition index {A} (l : list A) (i : Z) : option A :=
  let n := Z.of_nat (length l) in
  if (0 <=? i) && (i <? n) then l !! Z.to_nat i
  else if (- n <=? i) && (i <? 0) then l !! Z.to_nat (n + i)
  else None.

(** [d.get(k, default)] on a dict with string keys. *)
Definition get {V} (d : gmap string V) (k : string) (dflt : V) : V :=
  default dflt (d !! k).

(** [{key(x): x for x in l}]: a later entry replaces an earlier one. *)
Definition dict_of {V} (key : V → string) (l : list V) : gmap string V :=
  fold_left (λ d x, <[key x := x]> d) l ∅.

(** [random.sample(population, k)]: [k] elements at pairwise distinct
    positions.  The generator is the list [picks]: the i-th draw takes the
    element at position [pick mod remaining] of what is left.  A missing
    pick counts as 0.  ([ValueError] for [k > len(population)] cannot
    arise at the one call site, which passes [min(10, len)].) *)
Fixpoint sample {A} (population : list A) (k : nat) (picks : list nat) : list A :=
  match k with
  | O => []
  | S k' =>
      let j := (hd 0%nat picks `mod` length population)%nat in
      match population !! j with
      | Some x => x :: sample (delete j population) k' (tl picks)
      | None => []
      end
  end.

End Py.

(** ** Exceptions as values *)

(** The outcome of code that may raise: [Ok] is a normal return, [Raise] an
    exception that left the code. *)
Inductive result (E A : Type) :=
  | Ok (a : A)
  | Raise (e : E).
Arguments Ok {E A} _.
Arguments Raise {E A} _.

#[global] Instance result_ret {E} : MRet (result E) := λ A a, Ok a.
#[global] Instance result_bind {E} : MBind (result E) := λ A B f m,
  match m with
  | Ok a => f a
  | Raise e => Raise e
  end.

(** ** The store: [backend/app/memory/database.py] *)

(** The integers [sqlite3] binds to a statement: those of the signed 64 bits
    of an SQLite [INTEGER].  Outside them the binding raises
    [OverflowError] before the statement runs. *)
Definition int64 (z : Z) : bool := (- 2 ^ 63 <=? z) && (z <? 2 ^ 63).

(** Strings in the order of their bytes: SQLite's BINARY collation, and the
    order of the entries of an index on a [TEXT] column. *)
Definition bytes_le : relation string := λ a b, String.leb a b = true.

#[global] Instance bytes_le_dec : RelDecision bytes_le :=
  λ a b, decide (String.leb a b = true).

(** The value held by an [INTEGER]-affinity level column.  The progress
    handlers write Python strings there and [update_progress] writes an
    integer.  SQLite keeps an integer of the 64 bits as it is, and a text
    as text unless it spells a number, which it then stores instead (['2']
    is stored as 2); a text without a digit spells none, and the level
    names [Easy], [Medium] and [Hard] are such texts.  [LevelText s] is the
    column holding the text [s]. *)
Inductive level_value :=
  | LevelInt (n : Z)
  | LevelText (s : string).

Definition level_eqb (a b : level_value) : bool :=
  match a, b with
  | LevelInt m, LevelInt n => m =? n
  | LevelText s, LevelText t => String.eqb s t
  | _, _ => false
  end.

Module Users.
Record row := Row {
    user_id : string;
    username : string;
    favorite_team : string;
    total_points : Z;
    badges : list string;
    created_at : Z;
    last_interaction : Z }.
End Users.

Module QuizHistory.
Record row := Row {
    id : Z;
    user_id : string;
    team : string;
    difficulty : string;
    questions : string;
    answers : string;
    score : float;
    created_at : Z }.
End QuizHistory.

Module Predictions.
Record row := Row {
    id : Z;
    user_id : string;
    team1 : string;
    team2 : string;
    predicted_winner : string;
    predicted_score : string;
    explanation : string;
    actual_outcome : option string;
    points_earned : Z;
    created_at : Z }.
End Predictions.

Module ChatHistory.
Record row := Row {
    id : Z;
    user_id : string;
    message : string;
    response : string;
    tool_used : option string;
    created_at : Z }.
End ChatHistory.

Module QuizProgress.
Record row := Row {
    id : Z;
    user_id : string;
    team : string;
    current_level : level_value;
    current_question_index : Z;
    level_score : Z;
    total_correct : Z;
    started_at : Z;
    last_updated : Z }.
End QuizProgress.

Module CompletedLevels.
Record row := Row {
    id : Z;
    user_id : string;
    team : string;
    level : level_value;
    score : float;
    completed_at : Z }.
End CompletedLevels.

Module AskedQuestions.
Record row := Row {
    id : Z;
    user_id : string;
    team : string;
    question_id : string;
    asked_at : Z }.
End AskedQuestions.

(** A table with an [AUTOINCREMENT] key: its rows and the last id used. *)
Record table (R : Type) := Table { rows : list R; last_id : Z }.
Arguments Table {R} _ _.
Arguments rows {R} _.
Arguments last_id {R} _.

Definition empty_table {R} : table R := Table [] 0.

(** [INSERT]: the new row gets the next id. *)
Definition insert_row {R} (mk : Z → R) (t : table R) : table R :=
  let i := last_id t + 1 in Table (rows t ++ [mk i]) i.

(** [UPDATE ... WHERE p]: every matching row is rewritten. *)
Definition update_where {R} (p : R → bool) (f : R → R) (l : list R) : list R :=
  List.map (λ r, if p r then f r else r) l.

(** [DELETE ... WHERE p]. *)
Definition delete_where {R} (p : R → bool) (l : list R) : list R :=
  List.filter (λ r, negb (p r)) l.

(** [SELECT ... WHERE p]. *)
Definition select_where {R} (p : R → bool) (l : list R) : list R :=
  List.filter p l.

(** [cursor.fetchone()]. *)
Definition fetchone {R} (l : list R) : option R := head l.

(** The class [Database]: the connection stands for the file it opens, so a
    value of [Database.t] is the content of the seven tables. *)
Module Database.

Record t := Db {
  users : list Users.row;
  quiz_history : table QuizHistory.row;
  predictions : table Predictions.row;
  chat_history : table ChatHistory.row;
  quiz_progress : table QuizProgress.row;
  completed_levels : table CompletedLevels.row;
  asked_questions : table AskedQuestions.row }.

Definition set_users (us : list Users.row) (db : t) : t :=
  Db us (quiz_history db) (predictions db) (chat_history db)
     (quiz_progress db) (completed_levels db) (asked_questions db).
Definition set_quiz_history (tb : table QuizHistory.row) (db : t) : t :=
  Db (users db) tb (predictions db) (chat_history db)
     (quiz_progress db) (completed_levels db) (asked_questions db).
Definition set_predictions (tb : table Predictions.row) (db : t) : t :=
  Db (users db) (quiz_history db) tb (chat_history db)
     (quiz_progress db) (completed_levels db) (asked_questions db).
Definition set_chat_history (tb : table ChatHistory.row) (db : t) : t :=
  Db (users db) (quiz_history db) (predictions db) tb
     (quiz_progress db) (completed_levels db) (asked_questions db).
Definition set_quiz_progress (tb : table QuizProgress.row) (db : t) : t :=
  Db (users db) (quiz_history db) (predictions db) (chat_history db)
     tb (completed_levels db) (asked_questions db).
Definition set_completed_levels (tb : table CompletedLevels.row) (db : t) : t :=
  Db (users db) (quiz_history db) (predictions db) (chat_history db)
     (quiz_progress db) tb (asked_questions db).
Definition set_asked_questions (tb : table AskedQuestions.row) (db : t) : t :=
  Db (users db) (quiz_history db) (predictions db) (chat_history db)
     (quiz_progress db) (completed_levels db) tb.

(** [init_db] on a fresh file: seven empty tables. *)
Definition init_db : t :=
  Db [] empty_table empty_table empty_table empty_table empty_table empty_table.

(** *** Users *)

Inductive create_user_result :=
  | UserCreated (user_id : string)   (* {"success": True, "user_id": ...} *)
  | UserExists.                      (* {"success": False, "message": "User already exists"} *)

Definition user_is (user_id : string) (r : Users.row) : bool :=
  String.eqb (Users.user_id r) user_id.

(** [INSERT INTO users]; the primary key raises [IntegrityError] on a
    second row for the same [user_id]. *)
Definition create_user (db : t) (now : Z) (user_id username favorite_team : string)
  : create_user_result * t :=
  if existsb (user_is user_id) (users db) then (UserExists, db)
  else (UserCreated user_id,
        set_users (users db ++ [Users.Row user_id username favorite_team 0 [] now now]) db).

Definition get_user (db : t) (user_id : string) : option Users.row :=
  fetchone (select_where (user_is user_id) (users db)).

Definition add_points (points now : Z) (r : Users.row) : Users.row :=
  Users.Row (Users.user_id r) (Users.username r) (Users.favorite_team r)
            (Users.total_points r + points) (Users.badges r) (Users.created_at r) now.

(** [UPDATE users SET total_points = total_points + ?, last_interaction =
    CURRENT_TIMESTAMP WHERE user_id = ?] *)
Definition update_user_points (db : t) (now : Z) (user_id : string) (points : Z) : t :=
  set_users (update_where (user_is user_id) (add_points points now) (users db)) db.

Definition set_badges (bs : list string) (r : Users.row) : Users.row :=
  Users.Row (Users.user_id r) (Users.username r) (Users.favorite_team r)
            (Users.total_points r) bs (Users.created_at r) (Users.last_interaction r).

Definition add_badge (db : t) (user_id badge : string) : t :=
  match fetchone (select_where (user_is user_id) (users db)) with
  | Some row =>
      let badges := Users.badges row in
      if existsb (String.eqb badge) badges then db
      else set_users (update_where (user_is user_id) (set_badges (badges ++ [badge])) (users db)) db
  | None => db
  end.

Definition add_quiz_points (db : t) (now : Z) (user_id : string) (points : Z) : t :=
  update_user_points db now user_id points.

(** *** Quiz progress *)

Record progress := Progress {
  current_level : level_value;
  current_question_index : Z;
  level_score : Z;
  total_correct : Z;
  started_at : Z }.

Definition progress_is (user_id team : string) (r : QuizProgress.row) : bool :=
  String.eqb (QuizProgress.user_id r) user_id && String.eqb (QuizProgress.team r) team.

Definition get_quiz_progress (db : t) (user_id team : string) : option progress :=
  match fetchone (select_where (progress_is user_id team) (rows (quiz_progress db))) with
  | Some row =>
      Some (Progress (QuizProgress.current_level row)
                     (QuizProgress.current_question_index row)
                     (QuizProgress.level_score row)
                     (QuizProgress.total_correct row)
                     (QuizProgress.started_at row))
  | None => None
  end.

(** [{"success": True}], with ["existing": True] when the row was there. *)
Record create_quiz_progress_result := ProgressResult {
  success : bool;
  existing : bool }.

(** [INSERT INTO quiz_progress ... VALUES (?, ?, 1, 0, 0, 0)]; the
    constraint [UNIQUE(user_id, team)] raises [IntegrityError], which the
    method answers with success. *)
Definition create_quiz_progress (db : t) (now : Z) (user_id team : string)
  : create_quiz_progress_result * t :=
  if existsb (progress_is user_id team) (rows (quiz_progress db))
  then (ProgressResult true true, db)
  else (ProgressResult true false,
        set_quiz_progress
          (insert_row (λ i, QuizProgress.Row i user_id team (LevelInt 1) 0 0 0 now now)
                      (quiz_progress db)) db).

Definition overwrite_progress (current_level : level_value)
    (current_question_index level_score total_correct now : Z)
    (r : QuizProgress.row) : QuizProgress.row :=
  QuizProgress.Row (QuizProgress.id r) (QuizProgress.user_id r) (QuizProgress.team r)
                   current_level current_question_index level_score total_correct
                   (QuizProgress.started_at r) now.

(** [UPDATE quiz_progress SET ... WHERE user_id = ? AND team = ?], as it
    runs once its arguments are bound: the three counters, and a level that
    is an integer, within the 64 bits (the binding raises [OverflowError]
    otherwise, and nothing is written); a level that is a text, stored as
    the column stores it (see [level_value]). *)
Definition update_quiz_progress (db : t) (now : Z) (user_id team : string)
    (current_level : level_value) (current_question_index level_score total_correct : Z) : t :=
  set_quiz_progress
    (Table (update_where (progress_is user_id team)
              (overwrite_progress current_level current_question_index
                                  level_score total_correct now)
              (rows (quiz_progress db)))
           (last_id (quiz_progress db))) db.

Definition completed_is (user_id team : string) (level : level_value)
    (r : CompletedLevels.row) : bool :=
  String.eqb (CompletedLevels.user_id r) user_id
  && String.eqb (CompletedLevels.team r) team
  && level_eqb (CompletedLevels.level r) level.

(** [INSERT OR REPLACE INTO completed_levels]: a row that conflicts on
    [UNIQUE(user_id, team, level)] is deleted before the insert.  This is
    the statement as it runs for a score that is a number and a level that
    the column keeps as written (see [level_value]); a NaN is bound as NULL,
    [score REAL NOT NULL] then raises [IntegrityError] and nothing is
    written. *)
Definition complete_level (db : t) (now : Z) (user_id team : string)
    (level : level_value) (score : float) : t :=
  let kept := delete_where (completed_is user_id team level) (rows (completed_levels db)) in
  set_completed_levels
    (insert_row (λ i, CompletedLevels.Row i user_id team level score now)
                (Table kept (last_id (completed_levels db)))) db.

(** [questions] and [answers] are the JSON texts; an absent or empty list
    is stored as ["[]"]. *)
Definition add_quiz_attempt (db : t) (now : Z) (user_id team difficulty : string)
    (score : float) (questions answers : option string) : t :=
  set_quiz_history
    (insert_row (λ i, QuizHistory.Row i user_id team difficulty
                        (default "[]" questions) (default "[]" answers) score now)
                (quiz_history db)) db.

(** *** Predictions and chat *)

(** The agent's [add_prediction]: no outcome yet, [points_earned] takes its
    default 0.  Returns [cursor.lastrowid]. *)
Definition add_prediction (db : t) (now : Z)
    (user_id team1 team2 predicted_winner predicted_score explanation : string) : Z * t :=
  let tb := insert_row (λ i, Predictions.Row i user_id team1 team2 predicted_winner
                               predicted_score explanation None 0 now)
                       (predictions db) in
  (last_id tb, set_predictions tb db).

Definition add_chat_message (db : t) (now : Z) (user_id message response : string)
    (tool_used : option string) : t :=
  set_chat_history
    (insert_row (λ i, ChatHistory.Row i user_id message response tool_used now)
                (chat_history db)) db.

(** *** Leaderboard *)

Record leaderboard_entry := LeaderboardEntry {
  rank : Z;
  user_id : string;
  username : string;
  points : Z;
  team : string }.

(** [ORDER BY total_points DESC].  SQLite leaves the order of rows with
    equal keys open; a merge sort is one such order. *)
Definition points_desc (a b : Users.row) : Prop :=
  Users.total_points b ≤ Users.total_points a.

#[global] Instance points_desc_dec : RelDecision points_desc :=
  λ a b, Z_le_dec (Users.total_points b) (Users.total_points a).

#[global] Instance points_desc_total : Total points_desc.
Proof. intros a b. unfold points_desc. lia. Qed.

#[global] Instance points_desc_transitive : Transitive points_desc.
Proof. intros a b c. unfold points_desc. lia. Qed.

Definition order_by_total_points_desc (l : list Users.row) : list Users.row :=
  merge_sort points_desc l.

(** [LIMIT ?] for a limit that is bound, hence within the 64 bits (see
    [int64]): a negative limit means no limit. *)
Definition sql_limit {R} (limit : Z) (l : list R) : list R :=
  if limit <? 0 then l else take (Z.to_nat limit) l.

Definition leaderboard_entry_of (idx : nat) (row : Users.row) : leaderboard_entry :=
  LeaderboardEntry (Z.of_nat idx + 1) (Users.user_id row) (Users.username row)
                   (Users.total_points row) (Users.favorite_team row).

Definition get_leaderboard (db : t) (limit : Z) : list leaderboard_entry :=
  imap leaderboard_entry_of (sql_limit limit (order_by_total_points_desc (users db))).

(** *** Question tracking *)

Definition asked_is (user_id team : string) (r : AskedQuestions.row) : bool :=
  String.eqb (AskedQuestions.user_id r) user_id && String.eqb (AskedQuestions.team r) team.

(** [INSERT INTO asked_questions]; [UNIQUE(user_id, team, question_id)]
    raises [IntegrityError], which is ignored. *)
Definition record_asked_question (db : t) (now : Z) (user_id team question_id : string) : t :=
  if existsb (λ r, asked_is user_id team r
                   && String.eqb (AskedQuestions.question_id r) question_id)
             (rows (asked_questions db))
  then db
  else set_asked_questions
         (insert_row (λ i, AskedQuestions.Row i user_id team question_id now)
                     (asked_questions db)) db.

(** The rows of a pair, as inserted. *)
Definition asked_rows (db : t) (user_id team : string) : list AskedQuestions.row :=
  select_where (asked_is user_id team) (rows (asked_questions db)).

(** [SELECT question_id FROM asked_questions WHERE user_id = ? AND team = ?]
    has no [ORDER BY]: SQLite answers it from the index of
    [UNIQUE(user_id, team, question_id)], so the ids of a pair come in the
    order of their bytes, not in the order of their recording. *)
Definition get_asked_questions (db : t) (user_id team : string) : list string :=
  merge_sort bytes_le (List.map AskedQuestions.question_id (asked_rows db user_id team)).

(** [DELETE FROM asked_questions WHERE user_id = ? AND team = ?] *)
Definition reset_asked_questions (db : t) (user_id team : string) : t :=
  set_asked_questions
    (Table (delete_where (asked_is user_id team) (rows (asked_questions db)))
           (last_id (asked_questions db))) db.

(** *** Saving an evaluated prediction *)

(** [save_prediction] runs two statements and a commit inside [try], and
    rolls back in [except Exception].  What the engine may raise (a locked
    or full database, an I/O error) is not decided by the arguments, so it
    is an input: [fault] names the statement that raises, if any, with the
    exception's text. *)
Inductive statement := InsertPrediction | UpdatePoints | Commit.

Inductive fault :=
  | NoFault
  | Fault (at_statement : statement) (error : string).

Definition statement_eqb (a b : statement) : bool :=
  match a, b with
  | InsertPrediction, InsertPrediction | UpdatePoints, UpdatePoints | Commit, Commit => true
  | _, _ => false
  end.

(** Running statement [s] under fault [f]: [effect] happens unless [s] is
    the statement that raises. *)
Definition execute {A} (f : fault) (s : statement) (effect : A) : result string A :=
  match f with
  | Fault s' e => if statement_eqb s s' then Raise e else Ok effect
  | NoFault => Ok effect
  end.

Inductive save_prediction_result :=
  | Saved (prediction_id : Z) (points_earned : Z)   (* {"success": True, ...} *)
  | NotSaved (error : string).                      (* {"success": False, "error": ...} *)

Definition credit (points : Z) (r : Users.row) : Users.row :=
  Users.Row (Users.user_id r) (Users.username r) (Users.favorite_team r)
            (Users.total_points r + points) (Users.badges r) (Users.created_at r)
            (Users.last_interaction r).

Definition save_prediction (db : t) (now : Z)
    (user_id team1 team2 user_prediction system_outcome : string) (points : Z)
    (explanation : string) (sport : option string) (f : fault)
  : save_prediction_result * t :=
  let sport_or_empty := default "" sport in
  let transaction :=
    db1 ← execute f InsertPrediction
            (set_predictions
               (insert_row (λ i, Predictions.Row i user_id team1 team2 user_prediction
                                   sport_or_empty explanation (Some system_outcome)
                                   points now)
                           (predictions db)) db);
    db2 ← execute f UpdatePoints
            (set_users (update_where (user_is user_id) (credit points) (users db1)) db1);
    execute f Commit db2 in
  match transaction with
  | Ok db' => (Saved (last_id (predictions db')) points, db')
  | Raise e => (NotSaved e, db)     (* conn.rollback() *)
  end.

(** The integer fields of [get_prediction_stats] (its two rounded averages
    are left out). *)
Record prediction_stats := PredictionStats {
  total_predictions : Z;
  correct_predictions : Z;
  stats_total_points : Z }.

Definition prediction_is_correct (r : Predictions.row) : bool :=
  match Predictions.actual_outcome r with
  | Some outcome => String.eqb (Predictions.predicted_winner r) outcome
  | None => false
  end.

Definition get_prediction_stats (db : t) (user_id : string) : prediction_stats :=
  let rs := select_where (λ r, String.eqb (Predictions.user_id r) user_id)
                         (rows (predictions db)) in
  PredictionStats (Z.of_nat (length rs))
                  (Z.of_nat (length (List.filter prediction_is_correct rs)))
                  (fold_right (λ r acc, Predictions.points_earned r + acc) 0 rs).

End Database.

(** ** The prediction engine: [backend/app/predictions/engine.py] *)

(** The exceptions that can leave the modelled code. *)
Inductive exn :=
  | ValueError
  | IndexError
  | FileNotFoundError
  | HTTPException (status_code : Z).

Module PredictionEngine.

Record team_data := TeamData {
  ranking : Z;
  strength : Z;
  recent_form : Z;
  key_players : list string }.

Definition TEAM_RANKINGS_items : list (string * team_data) := [
  ("Real Madrid", TeamData 1 95 8 ["Kylian Mbappe"; "Vinicius Jr."; "Federico Valverde"]);
  ("Manchester City", TeamData 2 94 9 ["Erling Haaland"; "Ryan Cherki"; "John Stones"]);
  ("Barcelona", TeamData 3 92 8 ["Lewandowski"; "Pedri"; "Garcia"]);
  ("Liverpool", TeamData 4 91 8 ["Mohamed Salah"; "Hugo Ekitike"; "Virgil van Dijk"]);
  ("Bayern Munich", TeamData 5 90 8 ["Harry Kane"; "Joshua Kimmich"; "Manuel Neuer"]);
  ("Arsenal", TeamData 6 89 9 ["Bukayo Saka"; "Martinelli"; "Declan Rice"]);
  ("Juventus", TeamData 7 88 7 ["Juan Cuadrado"; "Alexis Sánchez"; "Gleison Bremer"]);
  ("Manchester United", TeamData 8 87 7 ["Bruno Fernandes"; "Bryan Mbeumo"; "Casemiro"]);
  ("Paris Saint-Germain", TeamData 9 86 8 ["Nuno Mendes"; "Ousmane Dembele"; "Vitinha"]);
  ("Inter Milan", TeamData 10 85 8 ["Lautaro Martínez"; "Nicolo Barella"; "Francesco Acerbi"]);
  ("Chelsea", TeamData 11 84 7 ["Cole Palmer"; "Moises Caicedo"; "Robert Sánchez"]);
  ("Atletico Madrid", TeamData 12 83 7 ["Giuliano Simeone"; "Julian Alvarez"; "Stefan Savic"]);
  ("Tottenham", TeamData 13 82 7 ["Richarlison "; "Xavi Simons"; "Cristian Romero"]);
  ("Borussia Dortmund", TeamData 14 81 8 ["Jobe Bellingham"; "Karim Adeyemi"; "Gregor Kobel"]);
  ("Sevilla", TeamData 15 80 6 ["Jesús Navas"; "Rafa Mir"; "Lopetegui"]);
  ("Napoli", TeamData 16 79 7 ["Victor Osimhen"; "Matteo Politano"; "Kalidou Koulibaly"]);
  ("Villarreal", TeamData 17 78 6 ["Gerard Moreno"; "Samuel Chukwueze"; "Pau Torres"]);
  ("Valencia", TeamData 18 77 6 ["Hugo Duro"; "Vinícius Souza"; "Omar Alderete"]);
  ("Lecce", TeamData 19 76 5 ["Morten Hjulmand"; "Lameck Banda"; "Wladimiro Falcone"]);
  ("Brentford", TeamData 20 75 6 ["Mathias Jensen"; "Bryan Mbeumo"; "Mark Flekken"]);
  ("Denver Nuggets", TeamData 1 96 9 ["Nikola Jokic"; "Jamal Murray"; "Michael Porter Jr."]);
  ("Boston Celtics", TeamData 2 95 9 ["Jayson Tatum"; "Jaylen Brown"; "Derrick White"]);
  ("Los Angeles Lakers", TeamData 3 94 8 ["Luka Doncic"; "LeBron James"; "Austin Reaves"]);
  ("Golden State Warriors", TeamData 4 92 8 ["Stephen Curry"; "Andrew Wiggins"; "Jonathan Kuminga"]);
  ("Phoenix Suns", TeamData 5 91 8 ["Kevin Durant"; "Devin Booker"; "Bradley Beal"]);
  ("Miami Heat", TeamData 6 89 7 ["Bam Adebayo"; "Tyler Herro"; "Jaime Jaquez Jr."]);
  ("Dallas Mavericks", TeamData 7 88 5 ["Kyrie Irving"; "Anthony Davis"; "Klay Thompson"]);
  ("Milwaukee Bucks", TeamData 8 87 7 ["Giannis Antetokounmpo"; "Damian Lillard"; "Khris Middleton"]);
  ("New York Knicks", TeamData 9 86 7 ["Jalen Brunson"; "Karl-Anthony Towns"; "Josh Hart"]);
  ("Chicago Bulls", TeamData 10 85 6 ["Coby White"; "Josh Giddey"; "Zach LaVine"]);
  ("Kansas City Chiefs", TeamData 1 95 9 ["Patrick Mahomes"; "Travis Kelce"; "Rashee Rice"]);
  ("San Francisco 49ers", TeamData 2 94 8 ["Brock Purdy"; "Christian McCaffrey"; "George Kittle"]);
  ("Buffalo Bills", TeamData 3 93 8 ["Josh Allen"; "James Cook"; "Khalil Shakir"]);
  ("Detroit Lions", TeamData 4 92 8 ["Jared Goff"; "Amon-Ra St. Brown"; "Jahmyr Gibbs"]);
  ("Dallas Cowboys", TeamData 5 90 7 ["Dak Prescott"; "George Pickens"; "CeeDee Lamb"]);
  ("Green Bay Packers", TeamData 6 89 7 ["Jordan Love"; "Josh Jacobs"; "Jayden Reed"]);
  ("New England Patriots", TeamData 7 88 6 ["Drake Maye"; "Rhamondre Stevenson"; "Christian Gonzalez"]);
  ("Miami Dolphins", TeamData 8 87 8 ["Tua Tagovailoa"; "Tyreek Hill"; "Jaylen Waddle"]);
  ("Philadelphia Eagles", TeamData 9 86 7 ["Jalen Hurts"; "Saquon Barkley"; "A.J. Brown"]);
  ("Pittsburgh Steelers", TeamData 10 85 6 ["T.J. Watt"; "Jalen Ramsey"; "Najee Harris"])
].

Definition TEAM_RANKINGS : gmap string team_data := list_to_map TEAM_RANKINGS_items.

(** The default of [TEAM_RANKINGS.get(team, {...})]. *)
Definition unknown_team : team_data := TeamData 50 50 5 ["Player 1"].

(** [strength * 0.6 + recent_form * 5 + (100 - ranking)]; the literal is
    the double nearest to 0.6. *)
Definition team_score (d : team_data) : float :=
  (Py.float_of_int (strength d) * 0x1.3333333333333p-1
   + Py.float_of_int (recent_form d * 5)
   + Py.float_of_int (100 - ranking d))%float.

Record prediction := Prediction {
  predicted_winner : string;
  predicted_loser : string;
  confidence : Z;
  explanation : string;
  winner_strength : Z;
  loser_strength : Z }.

Definition int (x : float) : result exn Z :=
  match Py.int_of_float x with
  | Some z => Ok z
  | None => Raise ValueError
  end.

Definition first {A} (l : list A) : result exn A :=
  match Py.index l 0 with
  | Some x => Ok x
  | None => Raise IndexError
  end.

Definition str_or_None (o : option Z) : string :=
  from_option Py.str_of_int "None" o.

(** [rand] is the value of [random.random()]. *)
Definition generate_prediction (team1 team2 sport : string) (rand : float)
  : result exn prediction :=
  let t1_data := Py.get TEAM_RANKINGS team1 unknown_team in
  let t2_data := Py.get TEAM_RANKINGS team2 unknown_team in
  let t1_score := team_score t1_data in
  let t2_score := team_score t2_data in
  let total := (t1_score + t2_score)%float in
  let t1_win_prob := if (0 <? total)%float then (t1_score / total)%float else 0.5%float in
  let t1_wins := (rand <? t1_win_prob)%float in
  let winner := if t1_wins then team1 else team2 in
  let loser := if t1_wins then team2 else team1 in
  confidence ← int (if t1_wins then t1_win_prob * 100 else (1 - t1_win_prob) * 100)%float;
  let winner_data := TEAM_RANKINGS !! winner in
  let loser_data := TEAM_RANKINGS !! loser in
  let winner_strength := from_option strength 50 winner_data in
  let loser_strength := from_option strength 50 loser_data in
  let explanation :=
    winner +:+ " should win with " +:+ Py.str_of_int confidence +:+ "% confidence. " in
  let explanation :=
    if loser_strength + 10 <? winner_strength then
      explanation +:+ "Superior team strength (" +:+ Py.str_of_int winner_strength
        +:+ " vs " +:+ Py.str_of_int loser_strength +:+ "). "
    else if from_option recent_form 5 loser_data + 1 <? from_option recent_form 5 winner_data then
      explanation +:+ "Better recent form. "
    else if from_option ranking 50 winner_data <? from_option ranking 50 loser_data then
      explanation +:+ "Higher ranking (" +:+ str_or_None (ranking <$> winner_data)
        +:+ " vs " +:+ str_or_None (ranking <$> loser_data) +:+ "). "
    else explanation in
  key_player ← first (from_option key_players ["Key Player"] winner_data);
  let explanation :=
    explanation +:+ "Key player " +:+ key_player +:+ " expected to perform well." in
  mret (Prediction winner loser confidence explanation winner_strength loser_strength).

(** Returns [(is_correct, points_awarded)]. *)
Definition evaluate_prediction (user_prediction system_outcome sport : string) : bool * Z :=
  if String.eqb sport "soccer" then
    if String.eqb user_prediction "Draw" then
      let is_correct := String.eqb system_outcome "Draw" in
      (is_correct, if is_correct then 50 else 0)
    else
      let is_correct := String.eqb user_prediction system_outcome in
      (is_correct, if is_correct then 30 else 0)
  else
    let is_correct := String.eqb user_prediction system_outcome in
    (is_correct, if is_correct then 25 else 0).

End PredictionEngine.

(** ** The request handlers: [backend/app/main.py] *)

Module Api.

(** A handler answers with a body or with an HTTP error status (the
    [detail] text is left out).  Each handler wraps its body in
    [try ... except Exception: raise HTTPException(status_code=500)]. *)
Definition http (A : Type) : Type := result Z A.

(** An entry of [questions.json]. *)
Record bank_question := BankQuestion {
  id : string;
  level : string;
  team : string;
  question : string;
  options : list string;
  correctAnswerIndex : option Z;
  explanation : option string }.

(** [json.load(open(questions_path))]: [None] is a missing file. *)
Definition load_questions (questions_json : option (list bank_question))
  : result exn (list bank_question) :=
  match questions_json with
  | Some l => Ok l
  | None => Raise FileNotFoundError
  end.

(** *** Quiz submission *)

(** An element of [request.questions]; [None] is a key the client left
    out, read with its [.get] default. *)
Record submitted_question := SubmittedQuestion {
  sq_question : option string;
  sq_options : option (list string);
  sq_id : option string;
  sq_explanation : option string }.

Record QuizSubmissionRequest := QuizSubmission {
  qs_user_id : string;
  qs_team : string;
  qs_level : string;
  qs_answers : gmap string string;
  qs_questions : list submitted_question }.

Record question_result := QuestionResult {
  r_question : string;
  r_user_answer : string;
  r_correct_answer : string;
  r_is_correct : bool;
  r_explanation : string }.

(** The body of the grading loop for the question at position [idx]. *)
Definition grade_question (question_lookup : gmap string bank_question)
    (answers : gmap string string) (idx : nat) (q : submitted_question)
  : result exn question_result :=
  let question_text := default "" (sq_question q) in
  let options := default [] (sq_options q) in
  let question_id := default "" (sq_id q) in
  let explanation := default "" (sq_explanation q) in
  correct_answer ←
    match question_lookup !! question_id with
    | Some q_data =>
        match correctAnswerIndex q_data with
        | Some correct_answer_idx =>
            if correct_answer_idx <? Z.of_nat (length options) then
              match Py.index options correct_answer_idx with
              | Some o => Ok o
              | None => Raise IndexError
              end
            else Ok ""
        | None => Ok ""
        end
    | None => Ok ""
    end;
  let user_answer := Py.get answers (Py.str_of_nat idx) "" in
  let is_correct :=
    String.eqb (Py.lower (Py.strip user_answer)) (Py.lower (Py.strip correct_answer)) in
  mret (QuestionResult question_text user_answer correct_answer is_correct explanation).

(** The loop [for idx, question in enumerate(request.questions)], started
    at position [idx]: the number of correct answers and the results. *)
Fixpoint grade (question_lookup : gmap string bank_question)
    (answers : gmap string string) (idx : nat) (questions : list submitted_question)
  : result exn (Z * list question_result) :=
  match questions with
  | [] => Ok (0, [])
  | q :: rest =>
      r ← grade_question question_lookup answers idx q;
      cr ← grade question_lookup answers (S idx) rest;
      mret ((if r_is_correct r then 1 else 0) + cr.1, r :: cr.2)
  end.

(** [(correct_count / total_count * 100) if total_count > 0 else 0]; the
    integer 0 of the empty quiz is the float 0.0 once stored in the [REAL]
    column. *)
Definition score_percentage (correct_count total_count : Z) : float :=
  if 0 <? total_count
  then (Py.float_of_int correct_count / Py.float_of_int total_count * 100)%float
  else 0%float.

Definition level_progression : gmap string string :=
  list_to_map [("Easy", "Medium"); ("Medium", "Hard"); ("Hard", "Hard")].

Definition points_per_question : Z := 10.

Record quiz_response := QuizResponse {
  score : float;
  correct : Z;
  total : Z;
  points_earned : Z;
  resp_level : string;
  total_points : Z;
  results : list question_result }.

(** One [now] stands for the timestamps of all statements of a request. *)
Definition submit_quiz (db : Database.t) (now : Z)
    (questions_json : option (list bank_question)) (request : QuizSubmissionRequest)
  : http quiz_response * Database.t :=
  let user_id := qs_user_id request in
  let team := qs_team request in
  let db :=
    match Database.get_quiz_progress db user_id team with
    | Some _ => db
    | None => (Database.create_quiz_progress db now user_id team).2
    end in
  let graded :=
    all_questions_list ← load_questions questions_json;
    let question_lookup := Py.dict_of id all_questions_list in
    grade question_lookup (qs_answers request) 0 (qs_questions request) in
  match graded with
  | Raise _ => (Raise 500, db)
  | Ok (correct_count, results) =>
      let total_count := Z.of_nat (length (qs_questions request)) in
      let score := score_percentage correct_count total_count in
      let points_earned := correct_count * points_per_question in
      let db := Database.add_quiz_points db now user_id points_earned in
      let db := Database.complete_level db now user_id team
                  (LevelText (qs_level request)) score in
      let next_level := Py.get level_progression (qs_level request) (qs_level request) in
      let db := Database.update_quiz_progress db now user_id team
                  (LevelText next_level) 0 0 0 in
      let db := Database.add_quiz_attempt db now user_id team
                  ("level_" +:+ qs_level request) score None None in
      let total_points :=
        match Database.get_user db user_id with
        | Some user => Users.total_points user
        | None => 0
        end in
      (Ok (QuizResponse score correct_count total_count points_earned
                        (qs_level request) total_points results), db)
  end.

(** *** Progress handlers *)

Inductive level_choice_response :=
  | Continue (next_level : string)
  | Stop (current_level : string).

(** [{"Easy": "Medium", "Medium": "Hard", "Hard": None}] *)
Definition level_choice_progression : gmap string (option string) :=
  list_to_map [("Easy", Some "Medium"); ("Medium", Some "Hard"); ("Hard", None)].

Definition handle_level_progression_choice (db : Database.t) (now : Z)
    (user_id team level : string) (continue_to_next : bool)
  : http level_choice_response * Database.t :=
  match (if continue_to_next then level_choice_progression !! level else None) with
  | Some (Some next_level) =>
      (* a non-empty string is truthy; the empty string is not a value of the dict *)
      (Ok (Continue next_level),
       Database.update_quiz_progress db now user_id team (LevelText next_level) 0 0 0)
  | _ => (Ok (Stop level), db)
  end.

Definition init_quiz_progress (db : Database.t) (now : Z) (user_id team : string)
  : http bool * Database.t :=
  let '(_, db) := Database.create_quiz_progress db now user_id team in
  (Ok true, db).

(** The four integers come from the query string, of any size; one that
    [sqlite3] cannot bind makes [update_quiz_progress] raise
    [OverflowError], which [except Exception] answers with a 500. *)
Definition update_progress (db : Database.t) (now : Z) (user_id team : string)
    (current_level current_question_index level_score total_correct : Z)
  : http bool * Database.t :=
  if int64 current_level && int64 current_question_index
     && int64 level_score && int64 total_correct
  then (Ok true,
        Database.update_quiz_progress db now user_id team (LevelInt current_level)
          current_question_index level_score total_correct)
  else (Raise 500, db).

Record complete_level_response := CompleteLevelResponse {
  level_completed : string;
  next_level : string;
  completed_score : float }.

(** [score] is a float of the query string.  For a NaN [complete_level]
    raises [IntegrityError] (see there) before anything is written, and
    [except Exception] answers with a 500: the progress is not updated. *)
Definition mark_level_complete (db : Database.t) (now : Z) (user_id team level : string)
    (score : float) : http complete_level_response * Database.t :=
  if PrimFloat.is_nan score then (Raise 500, db)
  else
    let db := Database.complete_level db now user_id team (LevelText level) score in
    let next_level := Py.get level_progression level level in
    let db := Database.update_quiz_progress db now user_id team (LevelText next_level) 0 0 0 in
    (Ok (CompleteLevelResponse level next_level score), db).

(** *** Quiz generation *)

(** A question as sent to the front end: no [correctAnswerIndex]. *)
Record quiz_display_item := QuizDisplayItem {
  d_id : string;
  d_level : string;
  d_team : string;
  d_question : string;
  d_options : list string;
  d_explanation : string }.

Record quiz := Quiz {
  quiz_level : string;
  quiz_team : string;
  questions : list quiz_display_item;
  total_questions : Z;
  total_available : Z }.

Definition display (q : bank_question) : quiz_display_item :=
  QuizDisplayItem (id q) (level q) (team q) (question q) (options q)
                  (default "" (explanation q)).

(** [picks] drives [random.sample]. *)
Definition generate_quiz (db : Database.t) (now : Z)
    (questions_json : option (list bank_question)) (picks : list nat)
    (user_id team level : string) : http quiz * Database.t :=
  let level := Py.capitalize level in
  if negb (existsb (String.eqb level) ["Easy"; "Medium"; "Hard"]) then (Raise 400, db)
  else
    let db :=
      match Database.get_quiz_progress db user_id team with
      | Some _ => db
      | None => (Database.create_quiz_progress db now user_id team).2
      end in
    match load_questions questions_json with
    | Raise _ => (Raise 404, db)
    | Ok all_questions_list =>
        let team_level_questions :=
          List.filter (λ q, String.eqb (Api.team q) team && String.eqb (Api.level q) level)
                      all_questions_list in
        match team_level_questions with
        | [] => (Raise 404, db)
        | _ =>
            let num_questions := Nat.min 10 (length team_level_questions) in
            let selected_questions := Py.sample team_level_questions num_questions picks in
            let quiz_display := List.map display selected_questions in
            (Ok (Quiz level team quiz_display
                      (Z.of_nat (length quiz_display))
                      (Z.of_nat (length team_level_questions))), db)
        end
    end.

Definition reset_question_pool (db : Database.t) (user_id team : string)
  : http unit * Database.t :=
  (Ok tt, Database.reset_asked_questions db user_id team).

(** *** Predictions *)

Record PredictionSubmitRequest := PredictionSubmit {
  ps_user_id : string;
  ps_team1 : string;
  ps_team2 : string;
  ps_sport : string;
  ps_user_prediction : string }.

Record prediction_result := PredictionResult {
  user_prediction : string;
  system_outcome : string;
  is_correct : bool;
  result_points_earned : Z;
  result_explanation : string;
  result_confidence : Z }.

(** [rand] is the engine's random draw and [f] the store's fault, if any.
    The answer of [save_prediction] is not looked at. *)
Definition submit_prediction (db : Database.t) (now : Z) (rand : float)
    (f : Database.fault) (request : PredictionSubmitRequest)
  : http prediction_result * Database.t :=
  match PredictionEngine.generate_prediction
          (ps_team1 request) (ps_team2 request) (ps_sport request) rand with
  | Raise _ => (Raise 500, db)
  | Ok system_prediction =>
      let system_outcome := PredictionEngine.predicted_winner system_prediction in
      let '(is_correct, points) :=
        PredictionEngine.evaluate_prediction
          (ps_user_prediction request) system_outcome (ps_sport request) in
      let '(_, db) :=
        Database.save_prediction db now (ps_user_id request) (ps_team1 request)
          (ps_team2 request) (ps_user_prediction request) system_outcome points
          (PredictionEngine.explanation system_prediction) (Some (ps_sport request)) f in
      (Ok (PredictionResult (ps_user_prediction request) system_outcome is_correct points
             (PredictionEngine.explanation system_prediction)
             (PredictionEngine.confidence system_prediction)), db)
  end.

(** *** Leaderboard *)

Record leaderboard_response := LeaderboardResponse {
  leaderboard : list Database.leaderboard_entry;
  total_users : Z }.

(** [limit] is an integer of the query string, of any size; one that
    [sqlite3] cannot bind makes [db.get_leaderboard] raise [OverflowError],
    which [except Exception] answers with a 500. *)
Definition get_leaderboard (db : Database.t) (limit : Z) : http leaderboard_response :=
  if int64 limit
  then Ok (LeaderboardResponse (Database.get_leaderboard db limit)
             (Z.of_nat (length (Database.get_leaderboard db 1000))))
  else Raise 500.

End Api.

(** ** Histories of the store *)

(** A history is the sequence of the mutating calls made on the store,
    each with the time it ran at.  The handlers of [main.py], the agent and
    the reward tracker reach the store through these methods only.  A call
    of a history is one that returned: one whose arguments could not be
    bound or stored raised and wrote nothing, and is not part of it. *)
Module History.

(** What a call of [update_user_points] pays for: [add_quiz_points] and the
    reward tracker's quiz path award quiz points, the reward tracker's
    prediction path awards prediction points. *)
Inductive award_kind := QuizAward | PredictionAward.

Inductive call :=
  | create_user (user_id username favorite_team : string)
  | update_user_points (purpose : award_kind) (user_id : string) (points : Z)
  | add_badge (user_id badge : string)
  | add_quiz_points (user_id : string) (points : Z)
  | create_quiz_progress (user_id team : string)
  | update_quiz_progress (user_id team : string) (current_level : level_value)
      (current_question_index level_score total_correct : Z)
  | complete_level (user_id team : string) (level : level_value) (score : float)
  | add_quiz_attempt (user_id team difficulty : string) (score : float)
      (questions answers : option string)
  | add_prediction (user_id team1 team2 predicted_winner predicted_score explanation : string)
  | add_chat_message (user_id message response : string) (tool_used : option string)
  | record_asked_question (user_id team question_id : string)
  | reset_asked_questions (user_id team : string)
  | save_prediction (user_id team1 team2 user_prediction system_outcome : string)
      (points : Z) (explanation : string) (sport : option string) (f : Database.fault).

Definition step (db : Database.t) (now : Z) (c : call) : Database.t :=
  match c with
  | create_user u n f => (Database.create_user db now u n f).2
  | update_user_points _ u p => Database.update_user_points db now u p
  | add_badge u b => Database.add_badge db u b
  | add_quiz_points u p => Database.add_quiz_points db now u p
  | create_quiz_progress u t => (Database.create_quiz_progress db now u t).2
  | update_quiz_progress u t l i s c => Database.update_quiz_progress db now u t l i s c
  | complete_level u t l s => Database.complete_level db now u t l s
  | add_quiz_attempt u t d s q a => Database.add_quiz_attempt db now u t d s q a
  | add_prediction u t1 t2 w s e => (Database.add_prediction db now u t1 t2 w s e).2
  | add_chat_message u m r t => Database.add_chat_message db now u m r t
  | record_asked_question u t q => Database.record_asked_question db now u t q
  | reset_asked_questions u t => Database.reset_asked_questions db u t
  | save_prediction u t1 t2 up so p e sp f =>
      (Database.save_prediction db now u t1 t2 up so p e sp f).2
  end.

Fixpoint run (db : Database.t) (h : list (Z * call)) : Database.t :=
  match h with
  | [] => db
  | (now, c) :: h' => run (step db now c) h'
  end.

(** The points a call awards to [user_id] as an award of kind [k]: what
    the caller asked the store to add.  A [save_prediction] that raised
    awards nothing. *)
Definition awarded (k : award_kind) (user_id : string) (c : call) : Z :=
  match c, k with
  | add_quiz_points u p, QuizAward => if String.eqb u user_id then p else 0
  | update_user_points QuizAward u p, QuizAward => if String.eqb u user_id then p else 0
  | update_user_points PredictionAward u p, PredictionAward =>
      if String.eqb u user_id then p else 0
  | save_prediction u _ _ _ _ p _ _ Database.NoFault, PredictionAward =>
      if String.eqb u user_id then p else 0
  | _, _ => 0
  end.

(** The sum of the awards of kind [k] to [user_id] over a history. *)
Fixpoint awards (k : award_kind) (user_id : string) (h : list (Z * call)) : Z :=
  match h with
  | [] => 0
  | (_, c) :: h' => awarded k user_id c + awards k user_id h'
  end.

(** What follows the first [create_user] for [user_id]. *)
Fixpoint since_creation (user_id : string) (h : list (Z * call)) : list (Z * call) :=
  match h with
  | [] => []
  | (_, create_user u _ _) :: h' =>
      if String.eqb u user_id then h' else since_creation user_id h'
  | _ :: h' => since_creation user_id h'
  end.

End History.

(** The level stored for a (user, team) pair, if the pair has a row. *)
Definition stored_level (db : Database.t) (user_id team : string) : option level_value :=
  Database.current_level <$> Database.get_quiz_progress db user_id team.

(** The rows of [quiz_progress] for a (user, team) pair. *)
Definition progress_rows (db : Database.t) (user_id team : string) : list QuizProgress.row :=
  select_where (Database.progress_is user_id team) (rows (Database.quiz_progress db)).

(** The three named levels and the progression the specification gives
    them: Easy, Medium, Hard, with Hard looping on itself. *)
Inductive named_level := Easy | Medium | Hard.

Definition level_name (l : named_level) : string :=
  match l with Easy => "Easy" | Medium => "Medium" | Hard => "Hard" end.

Definition successor (l : named_level) : named_level :=
  match l with Easy => Medium | Medium => Hard | Hard => Hard end.

Definition named (v : level_value) : option named_level :=
  match v with
  | LevelText s =>
      if String.eqb s "Easy" then Some Easy
      else if String.eqb s "Medium" then Some Medium
      else if String.eqb s "Hard" then Some Hard
      else None
  | LevelInt _ => None
  end.

(** A change of the stored level from [before] to [after] follows the
    progression when the level stays where it is or moves to its successor. *)
Definition follows_progression (before after : level_value) : bool :=
  level_eqb before after
  || match named before, named after with
     | Some a, Some b => String.eqb (level_name (successor a)) (level_name b)
     | _, _ => false
     end.

(** ** Definitions used by the statements *)

(** The team data [generate_prediction] can read: the default and the
    values of [TEAM_RANKINGS]. *)
Definition known_team_data : list PredictionEngine.team_data :=
  PredictionEngine.unknown_team :: PredictionEngine.TEAM_RANKINGS_items.*2.

(** The win probability of the first team, as [generate_prediction]
    computes it from the data of the two teams. *)
Definition t1_win_prob (d1 d2 : PredictionEngine.team_data) : float :=
  let t1_score := PredictionEngine.team_score d1 in
  let t2_score := PredictionEngine.team_score d2 in
  let total := (t1_score + t2_score)%float in
  if (0 <? total)%float then (t1_score / total)%float else 0.5%float.

(** Both confidence values convert to an integer. *)
Definition confidence_defined (d1 d2 : PredictionEngine.team_data) : bool :=
  bool_decide (is_Some (Py.int_of_float (t1_win_prob d1 d2 * 100)%float))
  && bool_decide (is_Some (Py.int_of_float ((1 - t1_win_prob d1 d2) * 100)%float)).

(** ** Sample data *)

Module Sample.

Definition db_asked : Database.t :=
  History.run Database.init_db
    [(1, History.record_asked_question "alice" "Lakers" "q1");
     (2, History.record_asked_question "alice" "Lakers" "q2");
     (3, History.record_asked_question "bob" "Lakers" "q7");
     (4, History.record_asked_question "alice" "Celtics" "q3")].

(** Three users; bob earns 40 quiz points and 30 prediction points. *)
Definition history_three_users : list (Z * History.call) :=
  [(1, History.create_user "alice" "Alice" "Lakers");
   (2, History.create_user "bob" "Bob" "Arsenal");
   (3, History.create_user "carol" "Carol" "General");
   (4, History.add_quiz_points "alice" 40);
   (5, History.add_quiz_points "bob" 40);
   (6, History.save_prediction "bob" "Arsenal" "Chelsea" "Arsenal" "Arsenal" 30
         "Arsenal should win." (Some "soccer") Database.NoFault);
   (7, History.add_quiz_points "carol" 40)].

Definition db_three_users : Database.t :=
  History.run Database.init_db history_three_users.

(** A prediction is saved for "bob" before any row for "bob" exists. *)
Definition history_award_first : list (Z * History.call) :=
  [(1, History.save_prediction "bob" "Arsenal" "Chelsea" "Arsenal" "Arsenal" 30
         "Arsenal should win." (Some "soccer") Database.NoFault);
   (2, History.create_user "bob" "Bob" "Arsenal")].

(** A question bank: five Easy questions and one Medium question on the
    Lakers. *)
Definition lakers_bank : list Api.bank_question :=
  [Api.BankQuestion "q1" "Easy" "Lakers" "Which city are the Lakers based in?"
     ["Los Angeles"; "Boston"; "Chicago"; "Miami"] (Some 0) (Some "They moved in 1960.");
   Api.BankQuestion "q2" "Easy" "Lakers" "What are the team colours?"
     ["Green and white"; "Purple and gold"; "Red and black"; "Blue and orange"]
     (Some 1) None;
   Api.BankQuestion "q3" "Easy" "Lakers" "Which league do the Lakers play in?"
     ["NFL"; "MLB"; "NBA"; "NHL"] (Some 2) None;
   Api.BankQuestion "q4" "Easy" "Lakers" "Where did the franchise start?"
     ["Seattle"; "Denver"; "Phoenix"; "Minneapolis"] (Some 3) None;
   Api.BankQuestion "q5" "Easy" "Lakers" "Which arena is their home?"
     ["Crypto.com Arena"; "TD Garden"; "United Center"; "Chase Center"] (Some 0) None;
   Api.BankQuestion "q6" "Medium" "Lakers" "How many titles had they won by 2020?"
     ["15"; "16"; "17"; "18"] (Some 2) None].

Definition as_submitted (q : Api.bank_question) : Api.submitted_question :=
  Api.SubmittedQuestion (Some (Api.question q)) (Some (Api.options q)) (Some (Api.id q))
                        (Some (default "" (Api.explanation q))).

(** Alice answers the five Easy questions; the fourth answer is wrong. *)
Definition alice_request : Api.QuizSubmissionRequest :=
  Api.QuizSubmission "alice" "Lakers" "Easy"
    (list_to_map [("0", "Los Angeles"); ("1", " purple and GOLD "); ("2", "NBA");
                  ("3", "Seattle"); ("4", "crypto.com arena")])
    (as_submitted <$> take 5 lakers_bank).

(** A store where alice has a row and 25 points. *)
Definition db_alice : Database.t :=
  History.run Database.init_db
    [(1, History.create_user "alice" "Alice" "Lakers");
     (2, History.add_quiz_points "alice" 25)].

(** The only Easy question on the Lakers is recorded as asked to alice. *)
Definition one_question_bank : list Api.bank_question := take 1 lakers_bank.

Definition db_alice_asked_q1 : Database.t :=
  History.run Database.init_db
    [(1, History.create_user "alice" "Alice" "Lakers");
     (2, History.record_asked_question "alice" "Lakers" "q1")].

(** Alice has initialised her Lakers quiz. *)
Definition db_progress : Database.t :=
  (Api.init_quiz_progress db_alice 3 "alice" "Lakers").2.

(** Alice completes the Medium level, then submits an Easy quiz. *)
Definition db_after_medium : Database.t :=
  (Api.mark_level_complete db_progress 4 "alice" "Lakers" "Medium" 70).2.

Definition db_after_easy : Database.t :=
  (Api.submit_quiz db_after_medium 5 (Some lakers_bank) alice_request).2.

End Sample.

(** ** More Python built-ins *)

(** The exceptions raised below that [exn] does not name. *)
Inductive exception :=
  | Std (e : exn)
  | OverflowError
  | TypeError.

Module Builtins.

(** [sub in s] on strings. *)
Fixpoint contains (sub s : string) : bool :=
  String.prefix sub s
  || match s with
     | String _ s' => contains sub s'
     | EmptyString => false
     end.

(** [s.replace(old, new)] for a non-empty [old]: the occurrences of [old]
    are replaced from left to right and do not overlap.  [skip] counts the
    characters of the occurrence just found that are still to be dropped. *)
Fixpoint replace_from (old new : string) (skip : nat) (s : string) : string :=
  match s with
  | EmptyString => EmptyString
  | String c s' =>
      match skip with
      | S k => replace_from old new k s'
      | O =>
          if String.prefix old s
          then new +:+ replace_from old new (String.length old - 1) s'
          else String c (replace_from old new 0 s')
      end
  end.

Definition replace (old new s : string) : string := replace_from old new 0 s.

Definition is_digit (c : ascii) : bool :=
  let n := nat_of_ascii c in ((48 <=? n) && (n <=? 57))%nat.

(** The value of a run of decimal digits in which single underscores may
    separate digits; [count] is the number of digits read so far. *)
Fixpoint digits (acc : Z) (count : nat) (after_digit : bool) (s : string)
  : option (Z * nat) :=
  match s with
  | EmptyString => if after_digit then Some (acc, count) else None
  | String c s' =>
      if is_digit c
      then digits (10 * acc + Z.of_nat (nat_of_ascii c - 48)) (S count) true s'
      else if Ascii.eqb c "_" && after_digit then digits acc count false s'
      else None
  end.

(** [int(s)] on a string, on ASCII: surrounding whitespace, an optional
    sign, decimal digits.  CPython refuses a literal of more than 4300
    digits. *)
Definition int_of_str (s : string) : result exception Z :=
  let s := Py.strip s in
  let '(negative, body) :=
    match s with
    | String "+" s' => (false, s')
    | String "-" s' => (true, s')
    | _ => (false, s)
    end in
  match digits 0 0 false body with
  | Some (z, count) =>
      if (4300 <? count)%nat then Raise (Std ValueError)
      else Ok (if negative then - z else z)
  | None => Raise (Std ValueError)
  end.

(** [round(x)] on a float: the nearest integer, a tie going to the even
    one; [OverflowError] on an infinity and [ValueError] on a NaN. *)
Definition round (x : float) : result exception Z :=
  match Prim2SF x with
  | SpecFloat.S754_zero _ => Ok 0
  | SpecFloat.S754_finite s m e =>
      let mag :=
        if 0 <=? e then Z.pos m * 2 ^ e
        else
          let d := 2 ^ (- e) in
          let q := Z.pos m / d in
          let r := Z.pos m `mod` d in
          if 2 * r <? d then q
          else if d <? 2 * r then q + 1
          else if Z.even q then q else q + 1 in
      Ok (if s then - mag else mag)
  | SpecFloat.S754_infinity _ => Raise OverflowError
  | SpecFloat.S754_nan => Raise (Std ValueError)
  end.

(** The truth value of a float: everything but zero. *)
Definition truthy (x : float) : bool := negb (x =? 0)%float.

(** A [for] loop that appends [f x] for each [x], left by the first
    exception. *)
Fixpoint for_each {E A B} (f : A → result E B) (l : list A) : result E (list B) :=
  match l with
  | [] => Ok []
  | x :: l' =>
      y ← f x;
      ys ← for_each f l';
      mret (y :: ys)
  end.

End Builtins.

(** ** Levels that the store keeps as written *)

(** A text without a digit spells no number. *)
Definition digit_free (s : string) : bool :=
  forallb (λ c, negb (Builtins.is_digit c)) (list_ascii_of_string s).

(** The levels that are bound and that the [INTEGER] column holds as they
    are written: an integer of the 64 bits, a text without a digit. *)
Definition kept_as_written (level : level_value) : bool :=
  match level with
  | LevelInt n => int64 n
  | LevelText s => digit_free s
  end.

(** ** The reading methods of the store *)

(** [ORDER BY created_at DESC].  As for the leaderboard, the order of rows
    with equal keys is the one of a merge sort. *)
Definition newest_first {R} (created_at : R → Z) : relation R :=
  λ a b, created_at b ≤ created_at a.

#[global] Instance newest_first_dec {R} (created_at : R → Z) :
  RelDecision (newest_first created_at) :=
  λ a b, Z_le_dec (created_at b) (created_at a).

#[global] Instance newest_first_total {R} (created_at : R → Z) :
  Total (newest_first created_at).
Proof. intros a b. unfold newest_first. lia. Qed.

#[global] Instance newest_first_transitive {R} (created_at : R → Z) :
  Transitive (newest_first created_at).
Proof. intros a b c. unfold newest_first. lia. Qed.

Definition order_by_created_at_desc {R} (created_at : R → Z) (l : list R) : list R :=
  merge_sort (newest_first created_at) l.

Module Queries.

Record quiz_history_entry := QuizHistoryEntry {
  qh_id : Z;
  qh_team : string;
  qh_level : Z;
  qh_score : float;
  qh_accuracy : Z;
  qh_correct : Z;
  qh_total : Z;
  qh_created_at : Z }.

(** [int(difficulty_str.replace("level_", "")) if "level_" in difficulty_str else 1] *)
Definition level_of (difficulty_str : string) : result exception Z :=
  if Builtins.contains "level_" difficulty_str
  then Builtins.int_of_str (Builtins.replace "level_" "" difficulty_str)
  else Ok 1.

(** The body of the loop of [get_user_quiz_history]. *)
Definition quiz_history_entry_of (row : QuizHistory.row)
  : result exception quiz_history_entry :=
  let score := QuizHistory.score row in
  level ← level_of (QuizHistory.difficulty row);
  accuracy ← (if Builtins.truthy score then Builtins.round score else Ok 0);
  correct ← (if Builtins.truthy score
             then Builtins.round (score / Py.float_of_int 10)%float else Ok 0);
  mret (QuizHistoryEntry (QuizHistory.id row) (QuizHistory.team row) level score
          accuracy correct 5 (QuizHistory.created_at row)).

Definition get_user_quiz_history (db : Database.t) (user_id : string)
  : result exception (list quiz_history_entry) :=
  let rows :=
    order_by_created_at_desc QuizHistory.created_at
      (select_where (λ r, String.eqb (QuizHistory.user_id r) user_id)
                    (rows (Database.quiz_history db))) in
  Builtins.for_each quiz_history_entry_of rows.

Record prediction_entry := PredictionEntry {
  p_id : Z;
  p_team1 : string;
  p_team2 : string;
  p_user_prediction : string;
  p_system_outcome : option string;
  p_points_earned : Z;
  p_explanation : string;
  p_created_at : Z;
  p_is_correct : bool }.

Definition prediction_entry_of (row : Predictions.row) : prediction_entry :=
  PredictionEntry (Predictions.id row) (Predictions.team1 row) (Predictions.team2 row)
    (Predictions.predicted_winner row) (Predictions.actual_outcome row)
    (Predictions.points_earned row) (Predictions.explanation row)
    (Predictions.created_at row) (Database.prediction_is_correct row).

(** The class defines [get_user_predictions] twice; the second definition,
    with [limit] defaulting to 50, is the one the class keeps.  As for the
    leaderboard, [limit] is one that is bound. *)
Definition get_user_predictions (db : Database.t) (user_id : string) (limit : Z)
  : list prediction_entry :=
  List.map prediction_entry_of
    (Database.sql_limit limit
       (order_by_created_at_desc Predictions.created_at
          (select_where (λ r, String.eqb (Predictions.user_id r) user_id)
                        (rows (Database.predictions db))))).

Definition get_user_predictions_default_limit : Z := 50.

(** [{"user": message, "assistant": response}], oldest first, for a
    [limit] that is bound. *)
Definition get_user_chat_history (db : Database.t) (user_id : string) (limit : Z)
  : list (string * string) :=
  List.map (λ r, (ChatHistory.message r, ChatHistory.response r))
    (reverse
       (Database.sql_limit limit
          (order_by_created_at_desc ChatHistory.created_at
             (select_where (λ r, String.eqb (ChatHistory.user_id r) user_id)
                           (rows (Database.chat_history db)))))).

End Queries.

(** ** More request handlers of [backend/app/main.py] *)

Module Handlers.

Record user_profile := UserProfile {
  user : Users.row;
  quiz_count : Z;
  prediction_count : Z }.

(** [GET /api/user/{user_id}]: the 404 passes through [except
    HTTPException: raise]; any other exception becomes a 500. *)
Definition get_user (db : Database.t) (user_id : string) : Api.http user_profile :=
  match Database.get_user db user_id with
  | None => Raise 404
  | Some user =>
      match Queries.get_user_quiz_history db user_id with
      | Raise _ => Raise 500
      | Ok quiz_history =>
          let predictions :=
            Queries.get_user_predictions db user_id
              Queries.get_user_predictions_default_limit in
          Ok (UserProfile user (Z.of_nat (length quiz_history))
                          (Z.of_nat (length predictions)))
      end
  end.

(** [GET /api/user/{user_id}/history/quizzes] *)
Definition get_quiz_history (db : Database.t) (user_id : string)
  : Api.http (list Queries.quiz_history_entry) :=
  match Queries.get_user_quiz_history db user_id with
  | Raise _ => Raise 500
  | Ok history => Ok history
  end.

Record prediction_history := PredictionHistory {
  predictions : list Queries.prediction_entry;
  total : Z }.

(** [GET /api/predictions/history/{user_id}] *)
Definition get_prediction_history (db : Database.t) (user_id : string)
  : Api.http prediction_history :=
  let predictions :=
    Queries.get_user_predictions db user_id Queries.get_user_predictions_default_limit in
  Ok (PredictionHistory predictions (Z.of_nat (length predictions))).

(** [GET /api/user/{user_id}/history/chat].  [limit] is an integer of the
    query string, of any size; one that [sqlite3] cannot bind makes
    [get_user_chat_history] raise [OverflowError], answered with a 500. *)
Definition get_chat_history (db : Database.t) (user_id : string) (limit : Z)
  : Api.http (list (string * string)) :=
  if int64 limit then Ok (Queries.get_user_chat_history db user_id limit)
  else Raise 500.

(** *** The teams on file *)

Record team_availability := TeamAvailability {
  name : string;
  levels : list string;
  has_easy : bool;
  has_medium : bool;
  has_hard : bool }.

(** The [if ... elif ... elif] on the level of a question. *)
Definition note_level (level : string) (t : team_availability) : team_availability :=
  if String.eqb level "Easy" && negb (has_easy t)
  then TeamAvailability (name t) (levels t ++ ["Easy"]) true (has_medium t) (has_hard t)
  else if String.eqb level "Medium" && negb (has_medium t)
  then TeamAvailability (name t) (levels t ++ ["Medium"]) (has_easy t) true (has_hard t)
  else if String.eqb level "Hard" && negb (has_hard t)
  then TeamAvailability (name t) (levels t ++ ["Hard"]) (has_easy t) (has_medium t) true
  else t.

(** The body of the loop over the bank.  Every entry of the bank carries
    its team and level, so the defaults "Unknown" are not used. *)
Definition add_question (teams_map : gmap string team_availability)
    (q : Api.bank_question) : gmap string team_availability :=
  let team := Api.team q in
  let entry := default (TeamAvailability team [] false false false) (teams_map !! team) in
  <[team := note_level (Api.level q) entry]> teams_map.

(** [key=lambda x: x["name"]]: strings are ordered byte by byte. *)
Definition by_name : relation team_availability :=
  λ a b, String.leb (name a) (name b) = true.

#[global] Instance by_name_dec : RelDecision by_name :=
  λ a b, decide (String.leb (name a) (name b) = true).

Record teams_response := TeamsResponse {
  teams : list team_availability;
  total_teams : Z }.

(** [GET /api/teams/available].  The 404 for a missing file is raised
    inside [try] and turned into a 500 by [except Exception].  The values of
    the dict have distinct names, so sorting them by name gives one list
    whatever order they are taken in. *)
Definition get_available_teams (questions_json : option (list Api.bank_question))
  : Api.http teams_response :=
  match Api.load_questions questions_json with
  | Raise _ => Raise 500
  | Ok all_questions =>
      let teams_map := fold_left add_question all_questions ∅ in
      let teams_list := merge_sort by_name (map_to_list teams_map).*2 in
      Ok (TeamsResponse teams_list (Z.of_nat (length teams_list)))
  end.

End Handlers.

(** ** The reward tracker: [backend/app/tools/reward_tracker.py] *)

Module RewardConfig.
Definition PREDICTION_CORRECT : Z := 100.
Definition PREDICTION_CLOSE : Z := 25.
Definition FIRST_PREDICTION : Z := 10.
End RewardConfig.

Module FanRewardTrackerTool.

Record reward := Reward {
  points_awarded : Z;
  badges_earned : list string;
  total_user_points : Z }.

(** [user["total_points"]] on the [None] of an absent user raises
    [TypeError]; by then the points and the badge have been written. *)
Definition add_prediction_points (db : Database.t) (now : Z) (user_id : string)
    (is_correct is_close : bool) : result exception reward * Database.t :=
  let '(points, badges_earned) :=
    if is_correct then (RewardConfig.PREDICTION_CORRECT, ["prediction_pro"])
    else if is_close then (RewardConfig.PREDICTION_CLOSE, [])
    else (RewardConfig.FIRST_PREDICTION, []) in
  let db := Database.update_user_points db now user_id points in
  let db := fold_left (λ db badge, Database.add_badge db user_id badge) badges_earned db in
  match Database.get_user db user_id with
  | None => (Raise TypeError, db)
  | Some user =>
      let '(db, badges_earned) :=
        if 1000 <=? Users.total_points user
        then (Database.add_badge db user_id "points_collector",
              if existsb (String.eqb "points_collector") badges_earned
              then badges_earned
              else (badges_earned ++ ["points_collector"])%list)
        else (db, badges_earned) in
      (Ok (Reward points badges_earned (Users.total_points user + points)), db)
  end.

(** The loop over the top ten returns at the first entry of the user. *)
Definition check_and_award_leaderboard_badge (db : Database.t) (user_id : string)
  : option string * Database.t :=
  let leaderboard := Database.get_leaderboard db 10 in
  if existsb (λ entry, String.eqb (Database.user_id entry) user_id) leaderboard
  then (Some "leaderboard_top_10", Database.add_badge db user_id "leaderboard_top_10")
  else (None, db).

End FanRewardTrackerTool.

(** ** The agent's keyword routing: [backend/app/agent/agent.py] *)

Module ActionType.
Definition CHAT : string := "chat".
Definition QUIZ : string := "quiz".
Definition PREDICTION : string := "prediction".
Definition STATS : string := "stats".
End ActionType.

Module Agent.

(** [any(word in message_lower for word in words)] *)
Definition any_word_in (words : list string) (message_lower : string) : bool :=
  existsb (λ word, Builtins.contains word message_lower) words.

Definition _fallback_action_decision (message : string) : string * string :=
  let message_lower := Py.lower message in
  if any_word_in ["quiz"; "trivia"; "question"; "test"] message_lower
  then (ActionType.QUIZ, "{}")
  else if any_word_in ["predict"; "prediction"; "score"; "win"; "outcome"; "vs"]
                      message_lower
  then (ActionType.PREDICTION, "{}")
  else if any_word_in ["stats"; "leaderboard"; "points"; "badges"; "rank"; "score"]
                      message_lower
  then (ActionType.STATS, "{}")
  else (ActionType.CHAT, "{}").

End Agent.

(** ** Definitions used by the statements on the teams on file *)

(** The bank holds a question of the team at the level. *)
Definition on_file (bank : list Api.bank_question) (team level : string) : bool :=
  existsb (λ q, String.eqb (Api.team q) team && String.eqb (Api.level q) level) bank.

(** What the loop of [get_available_teams] holds for [team] once it has
    seen the questions [seen]. *)
Definition describes (seen : list Api.bank_question) (team : string)
    (t : Handlers.team_availability) : Prop :=
  Handlers.name t = team
  ∧ Handlers.has_easy t = on_file seen team "Easy"
  ∧ Handlers.has_medium t = on_file seen team "Medium"
  ∧ Handlers.has_hard t = on_file seen team "Hard"
  ∧ NoDup (Handlers.levels t)
  ∧ ∀ l, l ∈ Handlers.levels t
         ↔ (l = "Easy" ∧ Handlers.has_easy t = true)
           ∨ (l = "Medium" ∧ Handlers.has_medium t = true)
           ∨ (l = "Hard" ∧ Handlers.has_hard t = true).

(** ** More sample data *)

Module Scenario.

(** Alice holds the badge "perfect_quiz". *)
Definition db_alice_badge : Database.t :=
  Database.add_badge Sample.db_alice "alice" "perfect_quiz".

(** A submission of three questions that are not in the bank, with no
    answer given to any of them. *)
Definition made_up_request : Api.QuizSubmissionRequest :=
  Api.QuizSubmission "alice" "Lakers" "Hard" ∅
    [Api.SubmittedQuestion (Some "Who?") (Some ["a"; "b"]) (Some "x1") None;
     Api.SubmittedQuestion (Some "What?") None (Some "x2") None;
     Api.SubmittedQuestion None None None None].

(** A bank whose only question points before the start of its options. *)
Definition bad_index_bank : list Api.bank_question :=
  [Api.BankQuestion "q1" "Easy" "Lakers" "Which city are the Lakers based in?"
     ["Los Angeles"; "Boston"] (Some (-3)) None].


(** Alice submits that one question, answering "Boston". *)
Definition one_question_request : Api.QuizSubmissionRequest :=
  Api.QuizSubmission "alice" "Lakers" "Easy" {["0" := "Boston"]}
    [Api.SubmittedQuestion (Some "Which city are the Lakers based in?")
       (Some ["Los Angeles"; "Boston"]) (Some "q1") None].



(** Alice's Lakers questions recorded as "q2", then "q10"; bob's "q7". *)
Definition db_asked_out_of_order : Database.t :=
  History.run Database.init_db
    [(1, History.record_asked_question "alice" "Lakers" "q2");
     (2, History.record_asked_question "alice" "Lakers" "q10");
     (3, History.record_asked_question "bob" "Lakers" "q7")].

End Scenario.


(** * Properties *)

(** ** Statements on tables *)

Section Tables.
Context {R : Type}.
Implicit Types (p q : R → bool) (l : list R).

Lemma select_where_app p l1 l2 :
  select_where p (l1 ++ l2) = (select_where p l1 ++ select_where p l2)%list.
Proof. apply List.filter_app. Qed.

Lemma select_where_nil_iff p l : select_where p l = [] ↔ existsb p l = false.
Proof.
  induction l as [|r l IH]; simpl; [done|].
  destruct (p r); simpl; [split; discriminate | exact IH].
Qed.

Lemma select_update_where p q (f : R → R) l :
  (∀ r, p (f r) = p r) →
  select_where p (update_where q f l)
  = List.map (λ r, if q r then f r else r) (select_where p l).
Proof.
  intros Hkey. induction l as [|r l IH]; simpl; [done|].
  assert (p (if q r then f r else r) = p r) as -> by (destruct (q r); auto).
  destruct (p r); simpl; by rewrite IH.
Qed.

Lemma fetchone_map {S} (g : R → S) l : fetchone (List.map g l) = g <$> fetchone l.
Proof. by destruct l. Qed.

Lemma select_delete_same p l : select_where p (delete_where p l) = [].
Proof.
  induction l as [|r l IH]; simpl; [done|].
  destruct (p r) eqn:E; simpl; [done|]. by rewrite E.
Qed.

Lemma select_delete_other p q l :
  (∀ r, p r = true → q r = false) →
  select_where p (delete_where q l) = select_where p l.
Proof.
  intros Hpq. induction l as [|r l IH]; simpl; [done|].
  destruct (p r) eqn:E.
  - rewrite (Hpq r E). simpl. by rewrite E, IH.
  - destruct (q r); simpl; [done|]. by rewrite E.
Qed.

End Tables.

(** ** Prediction evaluation *)

(** C5.  Correctness is exact string equality of the user's prediction and
    the system outcome.  A correct call earns 50 points for "Draw" in
    soccer, 30 for any other soccer outcome and 25 in every other sport; an
    incorrect one earns 0 with [is_correct] false. *)
Theorem evaluate_prediction_by_equality (user_prediction system_outcome sport : string) :
  PredictionEngine.evaluate_prediction user_prediction system_outcome sport
  = let is_correct := String.eqb user_prediction system_outcome in
    (is_correct,
     if is_correct then
       if String.eqb sport "soccer"
       then if String.eqb user_prediction "Draw" then 50 else 30
       else 25
     else 0).
Proof.
  unfold PredictionEngine.evaluate_prediction. cbv zeta.
  destruct (String.eqb sport "soccer"); [|done].
  destruct (String.eqb user_prediction "Draw") eqn:Hdraw; [|done].
  apply String.eqb_eq in Hdraw as ->.
  by rewrite (String.eqb_sym system_outcome "Draw").
Qed.

(** ** Resetting the asked questions *)

Lemma asked_is_pair u t user_id team r :
  (u, t) ≠ (user_id, team) →
  Database.asked_is u t r = true → Database.asked_is user_id team r = false.
Proof.
  unfold Database.asked_is. intros Hne [Hu Ht]%andb_prop.
  apply String.eqb_eq in Hu, Ht.
  destruct (String.eqb_spec (AskedQuestions.user_id r) user_id) as [Hu'|]; [|done].
  destruct (String.eqb_spec (AskedQuestions.team r) team) as [Ht'|]; [|done].
  congruence.
Qed.

(** C10.  After [reset_asked_questions] for a (user, team) pair the pair has
    no asked-question row left, the rows of every other pair are the ones
    it had, and the tables of users (points, badges), progress, completed
    levels, predictions, quiz history and chat are the ones before. *)
Theorem reset_asked_questions_frame (db : Database.t) (user_id team : string) :
  let db' := Database.reset_asked_questions db user_id team in
  select_where (Database.asked_is user_id team) (rows (Database.asked_questions db')) = []
  ∧ Database.get_asked_questions db' user_id team = []
  ∧ (∀ u t, (u, t) ≠ (user_id, team) →
       select_where (Database.asked_is u t) (rows (Database.asked_questions db'))
       = select_where (Database.asked_is u t) (rows (Database.asked_questions db))
       ∧ Database.get_asked_questions db' u t = Database.get_asked_questions db u t)
  ∧ last_id (Database.asked_questions db') = last_id (Database.asked_questions db)
  ∧ Database.users db' = Database.users db
  ∧ Database.quiz_progress db' = Database.quiz_progress db
  ∧ Database.completed_levels db' = Database.completed_levels db
  ∧ Database.predictions db' = Database.predictions db
  ∧ Database.quiz_history db' = Database.quiz_history db
  ∧ Database.chat_history db' = Database.chat_history db
  ∧ Api.reset_question_pool db user_id team = (Ok tt, db').
Proof.
  cbv zeta.
  unfold Database.get_asked_questions, Database.asked_rows,
    Database.reset_asked_questions. simpl.
  rewrite select_delete_same. repeat split; try done.
  - apply select_delete_other. intros r. by apply asked_is_pair.
  - do 2 f_equal. apply select_delete_other. intros r. by apply asked_is_pair.
Qed.

(** ** Initialising quiz progress *)

Lemma save_prediction_cases db now user_id team1 team2 user_prediction system_outcome
    points explanation sport f :
  Database.save_prediction db now user_id team1 team2 user_prediction system_outcome
    points explanation sport f
  = match f with
    | Database.NoFault =>
        let tb := insert_row (λ i, Predictions.Row i user_id team1 team2 user_prediction
                                     (default "" sport) explanation (Some system_outcome)
                                     points now)
                             (Database.predictions db) in
        (Database.Saved (last_id tb) points,
         Database.set_users
           (update_where (Database.user_is user_id) (Database.credit points)
                         (Database.users db))
           (Database.set_predictions tb db))
    | Database.Fault _ e => (Database.NotSaved e, db)
    end.
Proof. destruct f as [|[] e]; reflexivity. Qed.

(** Only [create_quiz_progress] and [update_quiz_progress] write to the
    progress table. *)
Lemma step_quiz_progress db now c :
  match c with
  | History.create_quiz_progress _ _ | History.update_quiz_progress _ _ _ _ _ _ => True
  | _ => Database.quiz_progress (History.step db now c) = Database.quiz_progress db
  end.
Proof.
  destruct c; simpl; try done.
  - unfold Database.create_user. by destruct (existsb _ _).
  - unfold Database.add_badge. destruct (fetchone _); [|done]. by destruct (existsb _ _).
  - unfold Database.record_asked_question. by destruct (existsb _ _).
  - rewrite save_prediction_cases. by destruct f.
Qed.

Lemma create_quiz_progress_rows db now user_id team u t :
  (length (progress_rows db u t) ≤ 1)%nat →
  (length (progress_rows (Database.create_quiz_progress db now user_id team).2 u t) ≤ 1)%nat.
Proof.
  unfold progress_rows, Database.create_quiz_progress. intros Hle.
  destruct (existsb _ _) eqn:Hex; simpl; [done|].
  rewrite select_where_app. simpl.
  unfold Database.progress_is at 2. simpl.
  destruct (String.eqb_spec user_id u) as [->|]; simpl; [|by rewrite app_nil_r].
  destruct (String.eqb_spec team t) as [->|]; simpl; [|by rewrite app_nil_r].
  apply select_where_nil_iff in Hex. by rewrite Hex.
Qed.

Lemma update_quiz_progress_rows db now user_id team lvl i s c u t :
  length (progress_rows (Database.update_quiz_progress db now user_id team lvl i s c) u t)
  = length (progress_rows db u t).
Proof.
  unfold progress_rows, Database.update_quiz_progress. simpl.
  rewrite select_update_where by done. apply length_map.
Qed.

(** The constraint [UNIQUE(user_id, team)] holds along every history. *)
Lemma progress_unique_run h db u t :
  (length (progress_rows db u t) ≤ 1)%nat →
  (length (progress_rows (History.run db h) u t) ≤ 1)%nat.
Proof.
  revert db. induction h as [|[now c] h IH]; intros db Hle; simpl; [done|].
  apply IH.
  pose proof (step_quiz_progress db now c) as Hstep.
  destruct c; try (unfold progress_rows in *; by rewrite Hstep).
  - by apply create_quiz_progress_rows.
  - simpl. by rewrite update_quiz_progress_rows.
Qed.

Lemma create_quiz_progress_exists db now user_id team :
  existsb (Database.progress_is user_id team)
          (rows (Database.quiz_progress (Database.create_quiz_progress db now user_id team).2))
  = true.
Proof.
  unfold Database.create_quiz_progress.
  destruct (existsb _ (rows (Database.quiz_progress db))) eqn:Hex; simpl; [done|].
  rewrite existsb_app. simpl. unfold Database.progress_is at 2. simpl.
  rewrite !String.eqb_refl. apply orb_true_r.
Qed.

(** C7.  In every state the store can reach, initialising the progress of
    a (user, team) pair twice leaves exactly one progress row for the pair;
    the second call changes nothing in the store, whatever its time, and
    reports success, in the store method and in the handler. *)
Theorem init_progress_idempotent (h : list (Z * History.call)) (now1 now2 : Z)
    (user_id team : string) :
  let db1 := (Api.init_quiz_progress (History.run Database.init_db h) now1 user_id team).2 in
  Api.init_quiz_progress db1 now2 user_id team = (Ok true, db1)
  ∧ Database.create_quiz_progress db1 now2 user_id team
    = (Database.ProgressResult true true, db1)
  ∧ length (progress_rows db1 user_id team) = 1%nat.
Proof.
  cbv zeta. unfold Api.init_quiz_progress.
  set (db0 := History.run Database.init_db h).
  destruct (Database.create_quiz_progress db0 now1 user_id team) as [r1 db1] eqn:H1.
  assert (db1 = (Database.create_quiz_progress db0 now1 user_id team).2) as Hdb
    by (by rewrite H1).
  simpl.
  assert (Database.create_quiz_progress db1 now2 user_id team
          = (Database.ProgressResult true true, db1)) as H2.
  { unfold Database.create_quiz_progress at 1.
    rewrite Hdb at 1. by rewrite create_quiz_progress_exists. }
  rewrite H2. split_and!; try done.
  assert (length (progress_rows db1 user_id team) ≤ 1)%nat as Hle.
  { rewrite Hdb. apply create_quiz_progress_rows.
    apply progress_unique_run. simpl. lia. }
  assert (progress_rows db1 user_id team ≠ []) as Hne.
  { unfold progress_rows. rewrite select_where_nil_iff, Hdb.
    by rewrite create_quiz_progress_exists. }
  destruct (progress_rows db1 user_id team); simpl in *; [done | lia].
Qed.

(** ** The leaderboard *)

Lemma StronglySorted_imap {A B} (R : relation A) (S : relation B) (f : nat → A → B) l :
  (∀ i j a b, R a b → S (f i a) (f j b)) →
  StronglySorted R l → StronglySorted S (imap f l).
Proof.
  revert f. induction l as [|x l IH]; intros f Hf Hs; [constructor|].
  rewrite imap_cons. apply StronglySorted_cons in Hs as [Hx Hl].
  apply StronglySorted_cons. split.
  - apply Forall_forall. intros y [i [a [-> Ha]]]%elem_of_lookup_imap_1.
    apply Hf. rewrite Forall_forall in Hx. apply Hx.
    by apply list_elem_of_lookup_2 in Ha.
  - apply IH; [|done]. intros i j a b. apply Hf.
Qed.

(** The ranking does not depend on how the engine orders rows with equal
    points: any [order_by] that returns its input sorted will do. *)
Section Ranking.
Variable order_by : list Users.row → list Users.row.
Hypothesis order_by_sorted : ∀ l, StronglySorted Database.points_desc (order_by l).
Hypothesis order_by_perm : ∀ l, order_by l ≡ₚ l.

Lemma ranked_prefix (us : list Users.row) (limit : Z) :
  0 ≤ limit →
  let lb := imap Database.leaderboard_entry_of (Database.sql_limit limit (order_by us)) in
  Z.of_nat (length lb) ≤ limit
  ∧ length lb = Nat.min (Z.to_nat limit) (length us)
  ∧ StronglySorted (λ a b, Database.points b ≤ Database.points a) lb
  ∧ (∀ i e, lb !! i = Some e → Database.rank e = Z.of_nat i + 1).
Proof.
  intros Hlimit. cbv zeta. unfold Database.sql_limit.
  destruct (Z.ltb_spec limit 0) as [|_]; [lia|].
  rewrite length_imap, length_take, (Permutation_length (order_by_perm us)).
  split_and!; [lia | done | |].
  - apply (StronglySorted_imap Database.points_desc); [by intros i j a b|].
    pose proof (order_by_sorted us) as Hs.
    rewrite <- (take_drop (Z.to_nat limit) (order_by us)) in Hs.
    by apply StronglySorted_app_1_l in Hs.
  - intros i e. rewrite list_lookup_imap.
    destruct (take _ _ !! i); simpl; [|done]. by intros [= <-].
Qed.

End Ranking.

(** C9, amended.  For every limit [N] with [0 <= N < 2^63], the limits
    that are not negative and that [sqlite3] can bind, the leaderboard has
    at most [N] entries (exactly [min N (number of users)]), in descending
    order of points, the entry at position [i] (from 0) carrying rank
    [i + 1]; it is the image of the first rows of the users table sorted by
    points. *)
Theorem get_leaderboard_ranked (db : Database.t) (limit : Z) :
  0 ≤ limit < 2 ^ 63 →
  let lb := Database.get_leaderboard db limit in
  Z.of_nat (length lb) ≤ limit
  ∧ length lb = Nat.min (Z.to_nat limit) (length (Database.users db))
  ∧ StronglySorted (λ a b, Database.points b ≤ Database.points a) lb
  ∧ (∀ i e, lb !! i = Some e → Database.rank e = Z.of_nat i + 1)
  ∧ ∃ sorted, sorted ≡ₚ Database.users db
      ∧ StronglySorted Database.points_desc sorted
      ∧ lb = imap Database.leaderboard_entry_of (take (Z.to_nat limit) sorted).
Proof.
  intros [Hlimit _]. cbv zeta.
  pose proof (ranked_prefix Database.order_by_total_points_desc
                (λ l, StronglySorted_merge_sort Database.points_desc l)
                (λ l, merge_sort_Permutation Database.points_desc l)
                (Database.users db) limit Hlimit) as (H1 & H2 & H3 & H4).
  split_and!; try done.
  exists (Database.order_by_total_points_desc (Database.users db)). split_and!.
  - apply merge_sort_Permutation.
  - apply (StronglySorted_merge_sort Database.points_desc).
  - unfold Database.get_leaderboard, Database.sql_limit.
    by destruct (Z.ltb_spec limit 0) as [|_]; [lia|].
Qed.

(** ** The generated outcome *)

Lemma known_team_data_get team :
  Py.get PredictionEngine.TEAM_RANKINGS team PredictionEngine.unknown_team ∈ known_team_data.
Proof.
  unfold Py.get, known_team_data.
  destruct (PredictionEngine.TEAM_RANKINGS !! team) as [d|] eqn:E; simpl; [|left].
  right. apply elem_of_list_to_map_2 in E.
  by apply (list_elem_of_fmap_2 snd) in E.
Qed.

Lemma confidence_defined_known d1 d2 :
  d1 ∈ known_team_data → d2 ∈ known_team_data → confidence_defined d1 d2 = true.
Proof.
  intros H1%list_elem_of_In H2%list_elem_of_In.
  assert (forallb (λ a, forallb (confidence_defined a) known_team_data) known_team_data
          = true) as Hall by (vm_compute; reflexivity).
  rewrite forallb_forall in Hall. specialize (Hall d1 H1).
  rewrite forallb_forall in Hall. by apply Hall.
Qed.

Lemma key_players_known team d :
  PredictionEngine.TEAM_RANKINGS !! team = Some d →
  PredictionEngine.key_players d ≠ [].
Proof.
  intros E%elem_of_list_to_map_2. apply (list_elem_of_fmap_2 snd) in E. simpl in E.
  apply list_elem_of_In in E.
  assert (forallb (λ a, negb (bool_decide (PredictionEngine.key_players a = [])))
                  (PredictionEngine.TEAM_RANKINGS_items.*2) = true) as Hall
    by (vm_compute; reflexivity).
  rewrite forallb_forall in Hall. specialize (Hall d E).
  apply negb_true_iff, bool_decide_eq_false in Hall. exact Hall.
Qed.

Lemma first_cons {A} (x : A) l : PredictionEngine.first (x :: l) = Ok x.
Proof.
  unfold PredictionEngine.first, Py.index.
  destruct (Z.ltb_spec 0 (Z.of_nat (length (x :: l)))) as [_|Hlen]; [done|].
  simpl in Hlen. lia.
Qed.

(** [generate_prediction] returns for all inputs, and its winner is the
    first team exactly when the draw falls below the win probability. *)
Lemma generate_prediction_winner team1 team2 sport rand :
  ∃ p, PredictionEngine.generate_prediction team1 team2 sport rand = Ok p
       ∧ PredictionEngine.predicted_winner p
         = if (rand <? t1_win_prob
                 (Py.get PredictionEngine.TEAM_RANKINGS team1 PredictionEngine.unknown_team)
                 (Py.get PredictionEngine.TEAM_RANKINGS team2 PredictionEngine.unknown_team)
              )%float
           then team1 else team2.
Proof.
  pose proof (confidence_defined_known _ _ (known_team_data_get team1)
                (known_team_data_get team2)) as Hc.
  unfold confidence_defined in Hc.
  apply andb_prop in Hc as [[c1 Hc1]%bool_decide_eq_true [c2 Hc2]%bool_decide_eq_true].
  unfold PredictionEngine.generate_prediction. cbv zeta.
  fold (t1_win_prob
          (Py.get PredictionEngine.TEAM_RANKINGS team1 PredictionEngine.unknown_team)
          (Py.get PredictionEngine.TEAM_RANKINGS team2 PredictionEngine.unknown_team)).
  set (prob := t1_win_prob _ _) in *.
  set (winner := if (rand <? prob)%float then team1 else team2).
  assert (∃ c, PredictionEngine.int
                 (if (rand <? prob)%float then prob * 100 else (1 - prob) * 100)%float
               = Ok c) as [c ->].
  { unfold PredictionEngine.int.
    destruct (rand <? prob)%float; [rewrite Hc1 | rewrite Hc2]; by eexists. }
  assert (∃ k, PredictionEngine.first
                 (from_option PredictionEngine.key_players ["Key Player"]
                              (PredictionEngine.TEAM_RANKINGS !! winner))
               = Ok k) as [k Hk].
  { destruct (PredictionEngine.TEAM_RANKINGS !! winner) as [d|] eqn:E; simpl.
    - apply key_players_known in E.
      destruct (PredictionEngine.key_players d) as [|x l]; [done|].
      exists x. apply first_cons.
    - exists "Key Player". apply first_cons. }
  unfold mbind, result_bind at 1. unfold mbind. rewrite Hk.
  eexists. split; reflexivity.
Qed.

Lemma evaluate_draw_against_team system_outcome sport :
  system_outcome ≠ "Draw" →
  PredictionEngine.evaluate_prediction "Draw" system_outcome sport = (false, 0).
Proof.
  intros Hne. unfold PredictionEngine.evaluate_prediction.
  assert (String.eqb system_outcome "Draw" = false) as Hs by by apply String.eqb_neq.
  assert (String.eqb "Draw" system_outcome = false) as Hd
    by (apply String.eqb_neq; congruence).
  rewrite Hs, Hd. by destruct (String.eqb sport "soccer").
Qed.

(** C8, amended.  For every pair of teams, sport and random draw,
    [generate_prediction] returns, and its winner is one of the two team
    names it was given.  When neither team is named "Draw" the winner is
    not "Draw", and a user prediction of "Draw" sent to [submit_prediction]
    is answered as incorrect with 0 points, whatever the store does. *)
Theorem predicted_winner_is_a_given_team (team1 team2 sport : string) (rand : float) :
  ∃ p, PredictionEngine.generate_prediction team1 team2 sport rand = Ok p
    ∧ (PredictionEngine.predicted_winner p = team1
       ∨ PredictionEngine.predicted_winner p = team2)
    ∧ (team1 ≠ "Draw" → team2 ≠ "Draw" →
       PredictionEngine.predicted_winner p ≠ "Draw"
       ∧ ∀ db now f user_id, ∃ db',
           Api.submit_prediction db now rand f
             (Api.PredictionSubmit user_id team1 team2 sport "Draw")
           = (Ok (Api.PredictionResult "Draw" (PredictionEngine.predicted_winner p)
                    false 0 (PredictionEngine.explanation p)
                    (PredictionEngine.confidence p)), db')).
Proof.
  destruct (generate_prediction_winner team1 team2 sport rand) as (p & Hp & Hw).
  exists p. split; [done|].
  assert (PredictionEngine.predicted_winner p = team1
          ∨ PredictionEngine.predicted_winner p = team2) as Hor.
  { rewrite Hw. destruct (_ <? _)%float; auto. }
  split; [done|]. intros H1 H2.
  assert (PredictionEngine.predicted_winner p ≠ "Draw") as Hnd
    by (destruct Hor as [-> | ->]; done).
  split; [done|]. intros db now f user_id.
  unfold Api.submit_prediction.
  cbn [Api.ps_user_id Api.ps_team1 Api.ps_team2 Api.ps_sport Api.ps_user_prediction].
  rewrite Hp, (evaluate_draw_against_team _ sport Hnd).
  destruct (Database.save_prediction _ _ _ _ _ _ _ _ _ _ _) as [r db'].
  by exists db'.
Qed.

(** With teams that are not named "Draw" the draw call loses. *)
Lemma predicted_winner_is_a_given_team_witness :
  ∃ r db', Api.submit_prediction Database.init_db 0 0.25 Database.NoFault
             (Api.PredictionSubmit "alice" "Arsenal" "Chelsea" "soccer" "Draw")
           = (Ok r, db')
    ∧ Api.is_correct r = false ∧ Api.result_points_earned r = 0.
Proof.
  destruct (predicted_winner_is_a_given_team "Arsenal" "Chelsea" "soccer" 0.25)
    as (p & _ & _ & Hdraw).
  assert ("Arsenal" ≠ "Draw") as Ha by (intros [=]).
  assert ("Chelsea" ≠ "Draw") as Hb by (intros [=]).
  destruct (Hdraw Ha Hb) as [_ Hsubmit].
  destruct (Hsubmit Database.init_db 0 Database.NoFault "alice") as [db' ->].
  eexists _, db'. split_and!; reflexivity.
Defined.

(** C8 as stated fails when a team is itself named "Draw": the generated
    outcome is "Draw", and the user's "Draw" is scored as a correct soccer
    draw worth 50 points. *)
Lemma team_named_Draw_counterexample :
  (Api.submit_prediction Database.init_db 0 0 Database.NoFault
     (Api.PredictionSubmit "alice" "Draw" "Arsenal" "soccer" "Draw")).1
  = Ok (Api.PredictionResult "Draw" "Draw" true 50
          "Draw should win with 35% confidence. Key player Key Player expected to perform well."
          35).
Proof. vm_compute. reflexivity. Qed.

(** ** The point ledger *)

Lemma fetchone_select_Some {R} (p : R → bool) l r :
  fetchone (select_where p l) = Some r → p r = true.
Proof.
  unfold fetchone, select_where. intros H.
  assert (In r (List.filter p l)) as Hin
    by (destruct (List.filter p l); simplify_eq/=; by left).
  by apply filter_In in Hin as [_ ?].
Qed.

Lemma fetchone_select_None {R} (p : R → bool) l :
  fetchone (select_where p l) = None ↔ existsb p l = false.
Proof.
  rewrite <- select_where_nil_iff. unfold fetchone.
  destruct (select_where p l); simpl; split; (done || discriminate).
Qed.

Lemma fetchone_app_Some {R} (l1 l2 : list R) r :
  fetchone l1 = Some r → fetchone (l1 ++ l2) = Some r.
Proof. by destruct l1. Qed.

Lemma user_is_other user_id u0 (r : Users.row) :
  Database.user_is user_id r = true → String.eqb u0 user_id = false →
  Database.user_is u0 r = false.
Proof.
  unfold Database.user_is. intros ->%String.eqb_eq Hne.
  by rewrite String.eqb_sym.
Qed.

(** The row of [user_id] after the users table is rewritten by an
    [UPDATE ... WHERE user_id = u0] that keeps the key. *)
Lemma get_user_update db us' user_id u0 (g : Users.row → Users.row) u :
  (∀ r, Users.user_id (g r) = Users.user_id r) →
  Database.get_user db user_id = Some u →
  Database.get_user
    (Database.set_users (update_where (Database.user_is u0) g (Database.users db)) us')
    user_id
  = Some (if String.eqb u0 user_id then g u else u).
Proof.
  unfold Database.get_user. intros Hkey Hu. simpl.
  rewrite select_update_where
    by (intros r; unfold Database.user_is; by rewrite Hkey).
  rewrite fetchone_map, Hu. simpl. f_equal.
  apply fetchone_select_Some in Hu.
  destruct (String.eqb u0 user_id) eqn:E.
  - apply String.eqb_eq in E as ->. by rewrite Hu.
  - by rewrite (user_is_other _ _ _ Hu E).
Qed.

Lemma get_user_update_None db us' user_id u0 (g : Users.row → Users.row) :
  (∀ r, Users.user_id (g r) = Users.user_id r) →
  Database.get_user db user_id = None →
  Database.get_user
    (Database.set_users (update_where (Database.user_is u0) g (Database.users db)) us')
    user_id
  = None.
Proof.
  unfold Database.get_user. intros Hkey Hu. simpl.
  rewrite select_update_where
    by (intros r; unfold Database.user_is; by rewrite Hkey).
  rewrite fetchone_map, Hu. done.
Qed.

(** A call on a store where [user_id] has a row: the row stays, and its
    balance moves by exactly what the call awards to [user_id]. *)
Lemma step_existing_user db now c user_id u :
  Database.get_user db user_id = Some u →
  ∃ u', Database.get_user (History.step db now c) user_id = Some u'
    ∧ Users.total_points u'
      = Users.total_points u + History.awarded History.QuizAward user_id c
        + History.awarded History.PredictionAward user_id c.
Proof.
  intros Hu.
  destruct c; simpl;
    try (exists u; split; [exact Hu | lia]).
  - (* create_user *)
    unfold Database.create_user. destruct (existsb _ _); simpl.
    + exists u. split; [done | lia].
    + exists u. split; [|lia]. unfold Database.get_user in *. simpl.
      rewrite select_where_app. by apply fetchone_app_Some.
  - (* update_user_points *)
    unfold Database.update_user_points.
    rewrite (get_user_update db db user_id user_id0 _ u) by done.
    eexists. split; [done|].
    destruct purpose, (String.eqb user_id0 user_id); simpl; lia.
  - (* add_badge *)
    unfold Database.add_badge. destruct (fetchone _) as [row|]; [|exists u; split; [done|lia]].
    destruct (existsb _ _); [exists u; split; [done|lia]|].
    rewrite (get_user_update db db user_id user_id0 _ u) by done.
    eexists. split; [done|]. destruct (String.eqb user_id0 user_id); simpl; lia.
  - (* add_quiz_points *)
    unfold Database.add_quiz_points, Database.update_user_points.
    rewrite (get_user_update db db user_id user_id0 _ u) by done.
    eexists. split; [done|].
    destruct (String.eqb user_id0 user_id); simpl; lia.
  - (* create_quiz_progress *)
    unfold Database.create_quiz_progress. destruct (existsb _ _); simpl;
      exists u; (split; [done | lia]).
  - (* record_asked_question *)
    unfold Database.record_asked_question. destruct (existsb _ _); simpl;
      exists u; (split; [done | lia]).
  - (* save_prediction *)
    rewrite save_prediction_cases. destruct f as [|s e]; simpl.
    + rewrite (get_user_update db _ user_id user_id0 _ u) by done.
      eexists. split; [done|].
      destruct (String.eqb user_id0 user_id); simpl; lia.
    + exists u. split; [done | lia].
Qed.

(** A call on a store where [user_id] has no row: only [create_user] for
    that id gives it one, with a balance of 0. *)
Lemma step_absent_user db now c user_id :
  Database.get_user db user_id = None →
  match c with
  | History.create_user u0 _ _ =>
      if String.eqb u0 user_id
      then ∃ u', Database.get_user (History.step db now c) user_id = Some u'
                 ∧ Users.total_points u' = 0
      else Database.get_user (History.step db now c) user_id = None
  | _ => Database.get_user (History.step db now c) user_id = None
  end.
Proof.
  intros Hu.
  destruct c; simpl; try exact Hu.
  - (* create_user *)
    unfold Database.create_user.
    destruct (String.eqb_spec user_id0 user_id) as [->|Hne].
    + apply fetchone_select_None in Hu as Hex. rewrite Hex. simpl.
      eexists. unfold Database.get_user in *. simpl.
      rewrite select_where_app. apply select_where_nil_iff in Hex. rewrite Hex. simpl.
      unfold Database.user_is at 1. simpl. rewrite String.eqb_refl. simpl. done.
    + destruct (existsb _ _); simpl; [done|].
      unfold Database.get_user in *. simpl. rewrite select_where_app. simpl.
      unfold Database.user_is at 2. simpl.
      apply String.eqb_neq in Hne. rewrite Hne. by rewrite app_nil_r.
  - by apply get_user_update_None.
  - unfold Database.add_badge. destruct (fetchone _); [|done].
    destruct (existsb _ _); [done|]. by apply get_user_update_None.
  - by apply get_user_update_None.
  - unfold Database.create_quiz_progress. by destruct (existsb _ _).
  - unfold Database.record_asked_question. by destruct (existsb _ _).
  - rewrite save_prediction_cases. destruct f; simpl; [|done].
    by apply get_user_update_None.
Qed.

Lemma run_existing_user h db user_id u :
  Database.get_user db user_id = Some u →
  ∃ u', Database.get_user (History.run db h) user_id = Some u'
    ∧ Users.total_points u'
      = Users.total_points u + History.awards History.QuizAward user_id h
        + History.awards History.PredictionAward user_id h.
Proof.
  revert db u. induction h as [|[now c] h IH]; intros db u Hu; simpl.
  - exists u. split; [done | lia].
  - destruct (step_existing_user db now c user_id u Hu) as (u1 & Hu1 & Hp1).
    destruct (IH _ _ Hu1) as (u' & Hu' & Hp'). exists u'. split; [done | lia].
Qed.

Lemma run_absent_user h db user_id u' :
  Database.get_user db user_id = None →
  Database.get_user (History.run db h) user_id = Some u' →
  Users.total_points u'
  = History.awards History.QuizAward user_id (History.since_creation user_id h)
    + History.awards History.PredictionAward user_id (History.since_creation user_id h).
Proof.
  revert db. induction h as [|[now c] h IH]; intros db Hu Hu'; simpl in *.
  - congruence.
  - pose proof (step_absent_user db now c user_id Hu) as Hstep.
    destruct c; try (by apply (IH _ Hstep)).
    destruct (String.eqb user_id0 user_id).
    + destruct Hstep as (u1 & Hu1 & Hp1).
      destruct (run_existing_user h _ user_id u1 Hu1) as (u2 & Hu2 & Hp2).
      simplify_eq. lia.
    + by apply (IH _ Hstep).
Qed.

(** The ledger of a user who has a row.  In every state the store reaches
    from its creation, the balance of a user who has a row is the sum of the quiz awards and of
    the prediction awards made to that user id since the row was created.
    From such a state on, each store call moves the balance by exactly the
    amount it awards to that user; a call that awards nothing leaves the
    balance as it is. *)
Theorem total_points_is_the_ledger (h : list (Z * History.call)) (user_id : string)
    (u : Users.row) :
  Database.get_user (History.run Database.init_db h) user_id = Some u →
  Users.total_points u
  = History.awards History.QuizAward user_id (History.since_creation user_id h)
    + History.awards History.PredictionAward user_id (History.since_creation user_id h)
  ∧ ∀ now c, ∃ u',
      Database.get_user (History.step (History.run Database.init_db h) now c) user_id
      = Some u'
      ∧ Users.total_points u'
        = Users.total_points u + History.awarded History.QuizAward user_id c
          + History.awarded History.PredictionAward user_id c.
Proof.
  intros Hu. split.
  - by apply (run_absent_user h Database.init_db).
  - intros now c. by apply step_existing_user.
Qed.

(** Bob's 70 points are his quiz award of 40 and his prediction award of 30. *)
Lemma total_points_is_the_ledger_witness :
  70 = History.awards History.QuizAward "bob"
         (History.since_creation "bob" Sample.history_three_users)
       + History.awards History.PredictionAward "bob"
           (History.since_creation "bob" Sample.history_three_users).
Proof.
  exact (proj1 (total_points_is_the_ledger Sample.history_three_users "bob"
                  (Users.Row "bob" "Bob" "Arsenal" 70 [] 2 5) eq_refl)).
Defined.

(** C1 on the code.  An award made to a user id that has no row is lost:
    the prediction is saved with 30 points for "bob", the [UPDATE] of the
    balance finds no row, and the row created afterwards starts from 0, so
    that bob's balance is 0 while the awards made to him sum to 30.  The
    same happens through the handler: bob's correct soccer call is answered
    with 30 points earned.  Nothing stops the award: [predictions] declares
    [FOREIGN KEY (user_id) REFERENCES users(user_id)], which SQLite does
    not enforce unless asked to, and [init_db] does not ask. *)
Theorem award_before_creation_is_lost :
  let db := History.run Database.init_db Sample.history_award_first in
  let submitted :=
    Api.submit_prediction Database.init_db 1 0 Database.NoFault
      (Api.PredictionSubmit "bob" "Arsenal" "Chelsea" "soccer" "Arsenal") in
  let db' := (Database.create_user submitted.2 2 "bob" "Bob" "Arsenal").2 in
  Users.total_points <$> Database.get_user db "bob" = Some 0
  ∧ History.awards History.QuizAward "bob" Sample.history_award_first
    + History.awards History.PredictionAward "bob" Sample.history_award_first = 30
  ∧ Database.stats_total_points (Database.get_prediction_stats db "bob") = 30
  ∧ match submitted.1 with
    | Ok r => Api.is_correct r = true ∧ Api.result_points_earned r = 30
    | Raise _ => False
    end
  ∧ Users.total_points <$> Database.get_user db' "bob" = Some 0
  ∧ Database.stats_total_points (Database.get_prediction_stats db' "bob") = 30.
Proof. vm_compute. done. Qed.

(** ** Saving a prediction *)

(** For a user who has a row, [save_prediction] with no
    failing statement appends the prediction row and adds the awarded
    points to the user's balance; when any of its statements or the commit
    raises, it reports the error and the store is exactly what it was. *)
Theorem save_prediction_all_or_nothing (db : Database.t) (now : Z)
    (user_id team1 team2 user_prediction system_outcome : string) (points : Z)
    (explanation : string) (sport : option string) (f : Database.fault) (u : Users.row) :
  Database.get_user db user_id = Some u →
  let out := Database.save_prediction db now user_id team1 team2 user_prediction
               system_outcome points explanation sport f in
  match f with
  | Database.NoFault =>
      let id := last_id (Database.predictions db) + 1 in
      out.1 = Database.Saved id points
      ∧ rows (Database.predictions out.2)
        = (rows (Database.predictions db)
           ++ [Predictions.Row id user_id team1 team2 user_prediction (default "" sport)
                 explanation (Some system_outcome) points now])%list
      ∧ ∃ u', Database.get_user out.2 user_id = Some u'
          ∧ Users.total_points u' = Users.total_points u + points
  | Database.Fault _ e => out = (Database.NotSaved e, db)
  end.
Proof.
  intros Hu. cbv zeta. rewrite save_prediction_cases.
  destruct f as [|s e]; [|done]. cbv zeta. split_and!; [done | done |].
  cbn [snd]. rewrite (get_user_update db _ user_id user_id _ u) by done.
  rewrite String.eqb_refl. by eexists.
Qed.

(** A failing [UPDATE] leaves bob's store as it was. *)
Lemma save_prediction_all_or_nothing_witness :
  Database.save_prediction Sample.db_three_users 9 "bob" "Arsenal" "Chelsea" "Draw"
    "Arsenal" 0 "Arsenal should win." (Some "soccer")
    (Database.Fault Database.UpdatePoints "database is locked")
  = (Database.NotSaved "database is locked", Sample.db_three_users).
Proof.
  exact (save_prediction_all_or_nothing Sample.db_three_users 9 "bob" "Arsenal" "Chelsea"
           "Draw" "Arsenal" 0 "Arsenal should win." (Some "soccer")
           (Database.Fault Database.UpdatePoints "database is locked")
           (Users.Row "bob" "Bob" "Arsenal" 70 [] 2 5) eq_refl).
Defined.

(** C4 on the code.  For a user id that has no row the record is persisted
    without the award: the call answers with success, the prediction row is
    there with its 30 points, and no balance in the store has moved.  The
    declared [FOREIGN KEY (user_id) REFERENCES users(user_id)], which would
    have made the insert fail and the call roll back, is not enforced. *)
Theorem prediction_saved_without_award :
  let out := Database.save_prediction Database.init_db 1 "bob" "Arsenal" "Chelsea"
               "Arsenal" "Arsenal" 30 "Arsenal should win." (Some "soccer")
               Database.NoFault in
  out.1 = Database.Saved 1 30
  ∧ List.map Predictions.points_earned (rows (Database.predictions out.2)) = [30]
  ∧ Database.users out.2 = []
  ∧ Database.get_user out.2 "bob" = None.
Proof. vm_compute. done. Qed.

(** ** Quiz submission and the stored level *)

Lemma stored_level_update db now user_id team lvl i s c :
  existsb (Database.progress_is user_id team) (rows (Database.quiz_progress db)) = true →
  stored_level (Database.update_quiz_progress db now user_id team lvl i s c) user_id team
  = Some lvl.
Proof.
  intros Hex. unfold stored_level, Database.get_quiz_progress, Database.update_quiz_progress.
  simpl. rewrite select_update_where by done. rewrite fetchone_map.
  destruct (fetchone (select_where _ _)) as [r|] eqn:E; simpl.
  - apply fetchone_select_Some in E. by rewrite E.
  - apply fetchone_select_None in E. congruence.
Qed.

Lemma get_quiz_progress_exists db user_id team :
  is_Some (Database.get_quiz_progress db user_id team)
  ↔ existsb (Database.progress_is user_id team) (rows (Database.quiz_progress db)) = true.
Proof.
  unfold Database.get_quiz_progress.
  destruct (fetchone (select_where _ _)) as [r|] eqn:E.
  - split; [intros _ | by eexists]. apply not_false_iff_true.
    intros Hf. apply fetchone_select_None in Hf. congruence.
  - apply fetchone_select_None in E. rewrite E. split; [intros [? ?]|]; done.
Qed.

(** The progress row is there once a handler has run its "initialize quiz
    progress if needed" step, and the step touches no other table. *)
Lemma progress_initialised db now user_id team :
  let db0 := match Database.get_quiz_progress db user_id team with
             | Some _ => db
             | None => (Database.create_quiz_progress db now user_id team).2
             end in
  existsb (Database.progress_is user_id team) (rows (Database.quiz_progress db0)) = true
  ∧ Database.users db0 = Database.users db.
Proof.
  cbv zeta. destruct (Database.get_quiz_progress db user_id team) as [p|] eqn:E.
  - split; [|done]. apply get_quiz_progress_exists. by rewrite E.
  - split; [apply create_quiz_progress_exists|].
    unfold Database.create_quiz_progress. by destruct (existsb _ _).
Qed.

(** What a successful [submit_quiz] has done. *)
Lemma submit_quiz_ok db now questions_json request resp db' :
  Api.submit_quiz db now questions_json request = (Ok resp, db') →
  let n := Z.of_nat (length (Api.qs_questions request)) in
  let level := Api.qs_level request in
  Api.total resp = n
  ∧ Api.points_earned resp = Api.correct resp * 10
  ∧ Api.score resp = Api.score_percentage (Api.correct resp) n
  ∧ Database.users db'
    = update_where (Database.user_is (Api.qs_user_id request))
        (Database.add_points (Api.correct resp * 10) now) (Database.users db)
  ∧ Api.total_points resp
    = from_option Users.total_points 0 (Database.get_user db' (Api.qs_user_id request))
  ∧ stored_level db' (Api.qs_user_id request) (Api.qs_team request)
    = Some (LevelText (Py.get Api.level_progression level level)).
Proof.
  unfold Api.submit_quiz. cbv zeta.
  pose proof (progress_initialised db now (Api.qs_user_id request) (Api.qs_team request))
    as [Hex Husers]. cbv zeta in Hex, Husers.
  set (db0 := match Database.get_quiz_progress db _ _ with Some _ => db | None => _ end) in *.
  destruct (_ ≫= _) as [[correct_count results]|e]; [|discriminate].
  intros [= <- <-]. simpl. split_and!; try done.
  - unfold Api.points_per_question. by rewrite Husers.
  - set (db1 := Database.complete_level _ _ _ _ _ _).
    exact (stored_level_update db1 _ _ _ _ _ _ _ Hex).
Qed.

(** The grading loop counts the results it marks correct. *)
Lemma grade_counts question_lookup answers idx questions c rs :
  Api.grade question_lookup answers idx questions = Ok (c, rs) →
  c = Z.of_nat (length (List.filter Api.r_is_correct rs))
  ∧ length rs = length questions.
Proof.
  revert idx c rs. induction questions as [|q rest IH]; intros idx c rs; simpl.
  - by intros [= <- <-].
  - destruct (Api.grade_question _ _ _ _) as [r|e]; simpl; [|discriminate].
    destruct (Api.grade _ _ (S idx) rest) as [[c' rs']|e] eqn:E; simpl; [|discriminate].
    intros [= <- <-]. destruct (IH _ _ _ E) as [-> Hlen]. simpl.
    split; [|by rewrite Hlen]. destruct (Api.r_is_correct r); simpl; lia.
Qed.

Lemma submit_quiz_graded db now questions_json request resp db' :
  Api.submit_quiz db now questions_json request = (Ok resp, db') →
  Api.correct resp = Z.of_nat (length (List.filter Api.r_is_correct (Api.results resp)))
  ∧ length (Api.results resp) = length (Api.qs_questions request).
Proof.
  unfold Api.submit_quiz. cbv zeta.
  destruct (_ ≫= _) as [[correct_count results]|e] eqn:E; [|discriminate].
  intros [= <- <-]. simpl.
  destruct questions_json as [all|]; simpl in E; [|discriminate].
  by apply grade_counts in E.
Qed.

Lemma level_progression_successor l :
  Py.get Api.level_progression (level_name l) (level_name l) = level_name (successor l).
Proof. by destruct l. Qed.

(** A quiz submission of 5 questions of which the grading
    marks exactly 4 correct is answered with [points_earned = 40] and
    [score = 80.0].  If the user has a row, the balance grows by 40 and the
    answer reports the new balance.  If the submitted level is "Easy", the
    level stored for the (user, team) pair is "Medium" afterwards. *)
Theorem four_correct_of_five (db : Database.t) (now : Z)
    (questions_json : option (list Api.bank_question))
    (request : Api.QuizSubmissionRequest) (resp : Api.quiz_response) (db' : Database.t) :
  Api.submit_quiz db now questions_json request = (Ok resp, db') →
  length (Api.qs_questions request) = 5%nat →
  length (List.filter Api.r_is_correct (Api.results resp)) = 4%nat →
  Api.points_earned resp = 40
  ∧ Api.score resp = 80%float
  ∧ Api.correct resp = 4 ∧ Api.total resp = 5
  ∧ (∀ u, Database.get_user db (Api.qs_user_id request) = Some u →
       ∃ u', Database.get_user db' (Api.qs_user_id request) = Some u'
         ∧ Users.total_points u' = Users.total_points u + 40
         ∧ Api.total_points resp = Users.total_points u + 40)
  ∧ (Api.qs_level request = "Easy" →
       stored_level db' (Api.qs_user_id request) (Api.qs_team request)
       = Some (LevelText "Medium")).
Proof.
  intros Hsubmit Hfive Hfour.
  destruct (submit_quiz_graded _ _ _ _ _ _ Hsubmit) as [Hcorrect _].
  destruct (submit_quiz_ok _ _ _ _ _ _ Hsubmit)
    as (Htotal & Hpoints & Hscore & Husers & Hbalance & Hlevel).
  cbv zeta in *. rewrite Hfour in Hcorrect. rewrite Hfive in Htotal, Hscore.
  rewrite Hcorrect in Hpoints, Hscore, Husers.
  split_and!; try done.
  - intros u Hu.
    assert (Database.get_user db' (Api.qs_user_id request)
            = Some (Database.add_points 40 now u)) as Hu'.
    { pose proof (get_user_update db db (Api.qs_user_id request) (Api.qs_user_id request)
                    (Database.add_points 40 now) u (λ _, eq_refl) Hu) as Hupd.
      rewrite String.eqb_refl in Hupd.
      unfold Database.get_user in Hupd |- *. simpl in Hupd. by rewrite Husers. }
    exists (Database.add_points 40 now u). rewrite Hbalance, Hu'. done.
  - intros Heasy. rewrite Hlevel, Heasy. done.
Qed.

(** Alice, with 25 points, gets four of her five Easy answers right. *)
Lemma four_correct_of_five_witness :
  ∃ resp db',
    Api.submit_quiz Sample.db_alice 3 (Some Sample.lakers_bank) Sample.alice_request
    = (Ok resp, db')
    ∧ Api.points_earned resp = 40 ∧ Api.score resp = 80%float
    ∧ Api.total_points resp = 25 + 40
    ∧ stored_level db' "alice" "Lakers" = Some (LevelText "Medium").
Proof.
  destruct (Api.submit_quiz Sample.db_alice 3 (Some Sample.lakers_bank)
              Sample.alice_request) as [[resp|e] db'] eqn:Hsubmit;
    [|vm_compute in Hsubmit; discriminate].
  exists resp, db'. split; [reflexivity|].
  assert (length (List.filter Api.r_is_correct (Api.results resp)) = 4%nat) as Hfour
    by (vm_compute in Hsubmit; by injection Hsubmit as <- <-).
  destruct (four_correct_of_five _ _ _ _ _ _ Hsubmit eq_refl Hfour)
    as (Hpoints & Hscore & _ & _ & Hbalance & Hlevel).
  destruct (Hbalance (Users.Row "alice" "Alice" "Lakers" 25 [] 1 2) eq_refl)
    as (u' & _ & _ & Htotal).
  split_and!; [done | done | done | by apply Hlevel].
Defined.

(** C3 on the code.  For a user id that has no row the answer to four
    correct answers of five reports 40 points earned, but no balance is
    incremented: the answer's [total_points] is 0 and there is no row
    afterwards.  [submit_quiz] awards with an [UPDATE] keyed by the user id
    and does not create the user; the quiz tables declare a foreign key to
    [users] that is not enforced. *)
Theorem quiz_for_absent_user_credits_nobody :
  let out := Api.submit_quiz Database.init_db 3 (Some Sample.lakers_bank)
               Sample.alice_request in
  match out.1 with
  | Ok resp =>
      Api.correct resp = 4 ∧ Api.total resp = 5 ∧ Api.points_earned resp = 40
      ∧ Api.total_points resp = 0
  | Raise _ => False
  end
  ∧ Database.get_user out.2 "alice" = None
  ∧ Database.users out.2 = [].
Proof. vm_compute. done. Qed.

(** ** Level transitions *)

(** C6, amended.  Completing a level stores the successor, along Easy,
    Medium, Hard with Hard looping on itself, of the level named in the
    request, whatever level was stored: so does a successful quiz
    submission, so does [mark_level_complete] for a pair that has a
    progress row and a score that is a number, and so does the choice to
    continue except from Hard, where the stored level is left as it is.
    [update_progress] stores the level it is given, whatever it is, when
    its four integers fit SQLite's 64 bits.  A [mark_level_complete] whose
    score is a NaN and an [update_progress] with an integer outside the 64
    bits are answered with a 500 and change nothing. *)
Theorem completion_stores_successor_of_request (l : named_level) (db : Database.t)
    (now : Z) (user_id team : string) :
  (∀ questions_json answers questions resp db',
     Api.submit_quiz db now questions_json
       (Api.QuizSubmission user_id team (level_name l) answers questions) = (Ok resp, db') →
     stored_level db' user_id team = Some (LevelText (level_name (successor l))))
  ∧ (∀ score,
       PrimFloat.is_nan score = true →
       Api.mark_level_complete db now user_id team (level_name l) score = (Raise 500, db))
  ∧ (∀ current_level current_question_index level_score total_correct,
       int64 current_level && int64 current_question_index
       && int64 level_score && int64 total_correct = false →
       Api.update_progress db now user_id team current_level current_question_index
         level_score total_correct
       = (Raise 500, db))
  ∧ (is_Some (Database.get_quiz_progress db user_id team) →
     (∀ score,
        PrimFloat.is_nan score = false →
        let out := Api.mark_level_complete db now user_id team (level_name l) score in
        out.1 = Ok (Api.CompleteLevelResponse (level_name l) (level_name (successor l)) score)
        ∧ stored_level out.2 user_id team = Some (LevelText (level_name (successor l))))
     ∧ (∀ continue_to_next,
        stored_level
          (Api.handle_level_progression_choice db now user_id team (level_name l)
             continue_to_next).2 user_id team
        = match l, continue_to_next with
          | (Easy | Medium), true => Some (LevelText (level_name (successor l)))
          | _, _ => stored_level db user_id team
          end)
     ∧ (∀ current_level current_question_index level_score total_correct,
        int64 current_level && int64 current_question_index
        && int64 level_score && int64 total_correct = true →
        let out := Api.update_progress db now user_id team current_level
                     current_question_index level_score total_correct in
        out.1 = Ok true
        ∧ stored_level out.2 user_id team = Some (LevelInt current_level))).
Proof.
  split_and!.
  - intros questions_json answers questions resp db' Hsubmit.
    destruct (submit_quiz_ok _ _ _ _ _ _ Hsubmit) as (_ & _ & _ & _ & _ & Hlevel).
    simpl in Hlevel. by rewrite Hlevel, level_progression_successor.
  - intros score Hnan. unfold Api.mark_level_complete. by rewrite Hnan.
  - intros ? ? ? ? Hout. unfold Api.update_progress. by rewrite Hout.
  - intros Hex%get_quiz_progress_exists. split_and!.
    + intros score Hnum. cbv zeta. unfold Api.mark_level_complete. rewrite Hnum.
      cbn [fst snd]. rewrite level_progression_successor. split; [done|].
      set (db1 := Database.complete_level _ _ _ _ _ _).
      exact (stored_level_update db1 _ _ _ _ _ _ _ Hex).
    + intros [|]; destruct l; try done;
        unfold Api.handle_level_progression_choice;
        by apply stored_level_update.
    + intros ? ? ? ? Hin. cbv zeta. unfold Api.update_progress. rewrite Hin.
      split; [done|]. by apply stored_level_update.
Qed.

(** Completing Easy with a score of 80 for a pair that has a row stores
    Medium. *)
Lemma completion_stores_successor_of_request_witness :
  stored_level
    (Api.mark_level_complete Sample.db_progress 4 "alice" "Lakers" "Easy" 80).2
    "alice" "Lakers"
  = Some (LevelText "Medium").
Proof.
  assert (is_Some (Database.get_quiz_progress Sample.db_progress "alice" "Lakers")) as Hrow
    by (by eexists).
  exact (proj2 (proj1 (proj2 (proj2 (proj2 (completion_stores_successor_of_request
                         Easy Sample.db_progress 4 "alice" "Lakers"))) Hrow)
                  80%float eq_refl)).
Defined.

(** C6 as stated fails.  From the initial level (the integer 1) completing
    "Medium" stores "Hard", and from "Hard" a submitted Easy quiz stores
    "Medium": a move backward.  [update_progress] then stores any integer. *)
Lemma level_moves_backward_counterexample :
  stored_level Sample.db_progress "alice" "Lakers" = Some (LevelInt 1)
  ∧ stored_level Sample.db_after_medium "alice" "Lakers" = Some (LevelText "Hard")
  ∧ stored_level Sample.db_after_easy "alice" "Lakers" = Some (LevelText "Medium")
  ∧ follows_progression (LevelText "Hard") (LevelText "Medium") = false
  ∧ stored_level (Api.update_progress Sample.db_after_easy 6 "alice" "Lakers" 1 0 0 0).2
      "alice" "Lakers" = Some (LevelInt 1)
  ∧ follows_progression (LevelText "Medium") (LevelInt 1) = false.
Proof. vm_compute. done. Qed.

(** Three users, two of them tied at 40 points: ranks 1, 2 and 3. *)
Lemma get_leaderboard_ranked_witness :
  List.map (λ e, (Database.rank e, Database.points e))
           (Database.get_leaderboard Sample.db_three_users 3)
  = [(1, 70); (2, 40); (3, 40)]
  ∧ Z.of_nat (length (Database.get_leaderboard Sample.db_three_users 3)) ≤ 3.
Proof.
  split; [reflexivity|].
  apply (get_leaderboard_ranked Sample.db_three_users 3). lia.
Defined.

(** C9 as stated fails for a negative limit, which SQLite reads as no
    limit: with limit -1, which [sqlite3] binds, the three users are all
    returned. *)
Lemma negative_limit_counterexample :
  int64 (-1) = true
  ∧ length (Database.get_leaderboard Sample.db_three_users (-1)) = 3%nat
  ∧ ¬ (Z.of_nat (length (Database.get_leaderboard Sample.db_three_users (-1))) ≤ -1).
Proof. split_and!; [reflexivity | reflexivity | vm_compute; by intros H]. Qed.

(** Resetting alice's Lakers questions keeps bob's and her Celtics ones. *)
Lemma reset_asked_questions_frame_witness :
  Database.get_asked_questions
    (Database.reset_asked_questions Sample.db_asked "alice" "Lakers") "bob" "Lakers"
  = ["q7"]
  ∧ Database.get_asked_questions
      (Database.reset_asked_questions Sample.db_asked "alice" "Lakers") "alice" "Celtics"
    = ["q3"].
Proof.
  pose proof (reset_asked_questions_frame Sample.db_asked "alice" "Lakers")
    as (_ & _ & Hother & _).
  split.
  - destruct (Hother "bob" "Lakers") as [_ ->]; [intros [=] | reflexivity].
  - destruct (Hother "alice" "Celtics") as [_ ->]; [intros [=] | reflexivity].
Defined.

(** ** Quiz generation *)

(** [random.sample] draws without replacement: the sample is a
    sub-multiset of the population, of the size asked for. *)
Lemma sample_submseteq {A} (k : nat) (population : list A) picks :
  Py.sample population k picks ⊆+ population.
Proof.
  revert population picks. induction k as [|k IH]; intros population picks; simpl.
  - apply submseteq_nil_l.
  - destruct (population !! _) as [x|] eqn:E; [|apply submseteq_nil_l].
    trans (x :: delete (hd 0%nat picks `mod` length population)%nat population).
    + by apply submseteq_skip.
    + apply Permutation_submseteq. symmetry. by apply delete_Permutation.
Qed.

Lemma sample_length {A} (k : nat) (population : list A) picks :
  (k ≤ length population)%nat → length (Py.sample population k picks) = k.
Proof.
  revert population picks. induction k as [|k IH]; intros population picks Hk; simpl; [done|].
  assert (hd 0%nat picks `mod` length population < length population)%nat as Hj
    by (apply Nat.mod_upper_bound; lia).
  destruct (lookup_lt_is_Some_2 _ _ Hj) as [x E]. rewrite E. simpl. f_equal.
  apply IH. rewrite length_delete by eauto. lia.
Qed.

(** What [generate_quiz] answers for a valid level with questions on file:
    a sample of the whole (team, level) pool.  The store is only given the
    progress row; the asked-question records are not read. *)
Lemma generate_quiz_selects db now all_questions_list picks user_id team level :
  let level' := Py.capitalize level in
  let pool := List.filter (λ q, String.eqb (Api.team q) team
                                && String.eqb (Api.level q) level') all_questions_list in
  existsb (String.eqb level') ["Easy"; "Medium"; "Hard"] = true →
  pool ≠ [] →
  ∃ db',
    Api.generate_quiz db now (Some all_questions_list) picks user_id team level
    = (Ok (Api.Quiz level' team
             (List.map Api.display (Py.sample pool (Nat.min 10 (length pool)) picks))
             (Z.of_nat (Nat.min 10 (length pool))) (Z.of_nat (length pool))), db')
    ∧ Database.asked_questions db' = Database.asked_questions db.
Proof.
  cbv zeta. intros Hlevel Hpool. unfold Api.generate_quiz. cbv zeta.
  rewrite Hlevel. simpl negb. cbv iota. unfold Api.load_questions. cbv iota.
  destruct (List.filter _ all_questions_list) as [|q pool] eqn:E; [done|].
  eexists. split.
  - rewrite length_map, sample_length by lia. reflexivity.
  - destruct (Database.get_quiz_progress db user_id team); [done|].
    unfold Database.create_quiz_progress.
    destruct (existsb _ (rows (Database.quiz_progress db))); reflexivity.
Qed.

Lemma sample_singleton {A} (x : A) picks : Py.sample [x] 1 picks = [x].
Proof.
  change (Py.sample [x] 1 picks)
    with (match [x] !! (hd 0%nat picks `mod` 1)%nat with
          | Some y => y :: Py.sample (delete (hd 0%nat picks `mod` 1)%nat [x]) 0 (tl picks)
          | None => []
          end).
  by rewrite Nat.mod_1_r.
Qed.

(** C2 on the code.  "q1" is recorded as asked to alice for the Lakers and
    no reset has taken place, yet the quiz generated for alice, Lakers,
    Easy consists of "q1", whatever the random draws. *)
Theorem generate_quiz_repeats_asked_question (picks : list nat) :
  Database.get_asked_questions Sample.db_alice_asked_q1 "alice" "Lakers" = ["q1"]
  ∧ ∃ quiz db',
      Api.generate_quiz Sample.db_alice_asked_q1 3 (Some Sample.one_question_bank) picks
        "alice" "Lakers" "Easy"
      = (Ok quiz, db')
      ∧ List.map Api.d_id (Api.questions quiz) = ["q1"]
      ∧ Database.get_asked_questions db' "alice" "Lakers" = ["q1"].
Proof.
  split; [reflexivity|].
  destruct (generate_quiz_selects Sample.db_alice_asked_q1 3 Sample.one_question_bank
              picks "alice" "Lakers" "Easy") as (db' & Hquiz & Hasked); [done | done |].
  eexists _, db'. split; [exact Hquiz|].
  unfold Database.get_asked_questions, Database.asked_rows. rewrite Hasked.
  split; [|reflexivity].
  cbn [Api.questions]. 
  change (List.filter _ Sample.one_question_bank) with (take 1 Sample.lakers_bank).
  change (Nat.min 10 (length (take 1 Sample.lakers_bank))) with 1%nat.
  change (take 1 Sample.lakers_bank)
    with [Api.BankQuestion "q1" "Easy" "Lakers" "Which city are the Lakers based in?"
            ["Los Angeles"; "Boston"; "Chicago"; "Miami"] (Some 0)
            (Some "They moved in 1960.")].
  by rewrite sample_singleton.
Qed.

(** * Further properties of the store *)

(** ** Badges *)

Lemma existsb_eqb_In (b : string) (l : list string) :
  existsb (String.eqb b) l = true ↔ In b l.
Proof.
  rewrite existsb_exists. split.
  - intros (x & Hx & ->%String.eqb_eq). done.
  - intros Hb. exists b. by rewrite String.eqb_refl.
Qed.

Lemma get_user_is db user_id u :
  Database.get_user db user_id = Some u → Database.user_is user_id u = true.
Proof. apply fetchone_select_Some. Qed.

(** What [add_badge] does to the row of a user who has one. *)
Lemma add_badge_existing db user_id badge u :
  Database.get_user db user_id = Some u →
  Database.get_user (Database.add_badge db user_id badge) user_id
  = Some (if existsb (String.eqb badge) (Users.badges u) then u
          else Database.set_badges (Users.badges u ++ [badge]) u).
Proof.
  intros Hu. unfold Database.add_badge.
  assert (fetchone (select_where (Database.user_is user_id) (Database.users db)) = Some u)
    as -> by exact Hu.
  destruct (existsb _ _); [done|].
  rewrite (get_user_update db db user_id user_id _ u) by done.
  by rewrite String.eqb_refl.
Qed.

(** X1.  For a user who has a row, [add_badge] leaves the badge in the
    user's list, keeps every badge that was there, adds no duplicate,
    leaves the balance alone, and a second call with the same badge changes
    nothing. *)
Theorem add_badge_grants_once (db : Database.t) (user_id badge : string) (u : Users.row) :
  Database.get_user db user_id = Some u →
  let db' := Database.add_badge db user_id badge in
  ∃ u', Database.get_user db' user_id = Some u'
    ∧ In badge (Users.badges u')
    ∧ (∀ b, In b (Users.badges u) → In b (Users.badges u'))
    ∧ (NoDup (Users.badges u) → NoDup (Users.badges u'))
    ∧ Users.total_points u' = Users.total_points u
    ∧ Database.add_badge db' user_id badge = db'.
Proof.
  intros Hu. cbv zeta. eexists. split; [by apply add_badge_existing|].
  destruct (existsb (String.eqb badge) (Users.badges u)) eqn:Hb.
  - apply existsb_eqb_In in Hb as Hin. split_and!; try done.
    assert (Database.add_badge db user_id badge = db) as Hsame.
    { unfold Database.add_badge.
      assert (fetchone (select_where (Database.user_is user_id) (Database.users db))
              = Some u) as -> by exact Hu.
      by rewrite Hb. }
    by rewrite !Hsame.
  - simpl. split_and!; try done.
    + apply in_or_app. right. by left.
    + intros b Hin. apply in_or_app. by left.
    + intros Hnd. apply NoDup_app. split_and!; [done | | apply NoDup_singleton].
      intros x Hx ->%list_elem_of_singleton.
      apply list_elem_of_In, existsb_eqb_In in Hx. congruence.
    + pose proof (add_badge_existing db user_id badge u Hu) as Hu'. rewrite Hb in Hu'.
      unfold Database.add_badge at 1.
      assert (fetchone (select_where (Database.user_is user_id)
                (Database.users (Database.add_badge db user_id badge)))
              = Some (Database.set_badges (Users.badges u ++ [badge]) u)) as -> by exact Hu'.
      simpl. rewrite existsb_app. simpl. rewrite String.eqb_refl.
      by rewrite orb_true_r.
Qed.

Lemma add_badge_grants_once_witness :
  ∃ u', Database.get_user (Database.add_badge Sample.db_alice "alice" "perfect_quiz") "alice"
        = Some u'
    ∧ Users.badges u' = ["perfect_quiz"] ∧ Users.total_points u' = 25.
Proof.
  destruct (add_badge_grants_once Sample.db_alice "alice" "perfect_quiz"
              (Users.Row "alice" "Alice" "Lakers" 25 [] 1 2) eq_refl)
    as (u' & Hu' & _ & _ & _ & Hpoints & _).
  exists u'. split; [exact Hu'|]. split; [|exact Hpoints].
  vm_compute in Hu'. by injection Hu' as <-.
Defined.

(** A call never takes a badge away from a user who has a row. *)
Lemma step_keeps_badges db now c user_id u :
  Database.get_user db user_id = Some u →
  ∃ u', Database.get_user (History.step db now c) user_id = Some u'
    ∧ ∀ b, In b (Users.badges u) → In b (Users.badges u').
Proof.
  intros Hu.
  destruct c; simpl; try (exists u; split; [exact Hu | done]).
  - unfold Database.create_user. destruct (existsb _ _); simpl.
    + by exists u.
    + exists u. split; [|done]. unfold Database.get_user in *. simpl.
      rewrite select_where_app. by apply fetchone_app_Some.
  - unfold Database.update_user_points.
    rewrite (get_user_update db db user_id user_id0 _ u) by done.
    eexists. split; [done|]. by destruct (String.eqb user_id0 user_id).
  - destruct (String.eqb_spec user_id0 user_id) as [->|Hne].
    + rewrite (add_badge_existing db user_id badge u Hu). eexists. split; [done|].
      destruct (existsb _ _); [done|]. simpl. intros b Hb. apply in_or_app. by left.
    + unfold Database.add_badge. destruct (fetchone _) as [row|]; [|by exists u].
      destruct (existsb _ _); [by exists u|].
      rewrite (get_user_update db db user_id user_id0 _ u) by done.
      apply String.eqb_neq in Hne. rewrite Hne. by exists u.
  - unfold Database.add_quiz_points, Database.update_user_points.
    rewrite (get_user_update db db user_id user_id0 _ u) by done.
    eexists. split; [done|]. by destruct (String.eqb user_id0 user_id).
  - unfold Database.create_quiz_progress. destruct (existsb _ _); by exists u.
  - unfold Database.record_asked_question. destruct (existsb _ _); by exists u.
  - rewrite save_prediction_cases. destruct f as [|s e]; simpl; [|by exists u].
    rewrite (get_user_update db _ user_id user_id0 _ u) by done.
    eexists. split; [done|]. by destruct (String.eqb user_id0 user_id).
Qed.

(** X2.  A badge is never revoked: whatever calls are made on the store, a
    user who has a row keeps it, with every badge the user had. *)
Theorem badges_are_never_revoked (h : list (Z * History.call)) (db : Database.t)
    (user_id : string) (u : Users.row) :
  Database.get_user db user_id = Some u →
  ∃ u', Database.get_user (History.run db h) user_id = Some u'
    ∧ ∀ b, In b (Users.badges u) → In b (Users.badges u').
Proof.
  revert db u. induction h as [|[now c] h IH]; intros db u Hu; simpl.
  - by exists u.
  - destruct (step_keeps_badges db now c user_id u Hu) as (u1 & Hu1 & Hb1).
    destruct (IH _ _ Hu1) as (u' & Hu' & Hb'). exists u'. split; [done|]. auto.
Qed.

Lemma badges_are_never_revoked_witness :
  ∃ u', Database.get_user (History.run Scenario.db_alice_badge Sample.history_three_users)
          "alice" = Some u'
    ∧ In "perfect_quiz" (Users.badges u').
Proof.
  destruct (badges_are_never_revoked Sample.history_three_users Scenario.db_alice_badge
              "alice" (Users.Row "alice" "Alice" "Lakers" 25 ["perfect_quiz"] 1 2) eq_refl)
    as (u' & Hu' & Hkeep).
  exists u'. split; [exact Hu'|]. apply Hkeep. by left.
Defined.

(** ** Users *)

Lemma update_where_length {R} (p : R → bool) f l :
  length (update_where p f l) = length l.
Proof. apply length_map. Qed.

Lemma update_where_none {R} (p : R → bool) f l :
  existsb p l = false → update_where p f l = l.
Proof.
  induction l as [|r l IH]; simpl; [done|].
  intros [Hr Hl]%orb_false_elim. by rewrite Hr, IH.
Qed.

Lemma select_update_length {R} (p q : R → bool) (f : R → R) l :
  (∀ r, p (f r) = p r) →
  length (select_where p (update_where q f l)) = length (select_where p l).
Proof. intros Hkey. rewrite select_update_where by done. apply length_map. Qed.

(** The primary key of [users] holds along every history. *)
Lemma step_user_unique db now c user_id :
  (length (select_where (Database.user_is user_id) (Database.users db)) ≤ 1)%nat →
  (length (select_where (Database.user_is user_id)
             (Database.users (History.step db now c))) ≤ 1)%nat.
Proof.
  intros Hle. destruct c; simpl; try done.
  - unfold Database.create_user.
    destruct (existsb _ (Database.users db)) eqn:Hex; simpl; [done|].
    rewrite select_where_app. simpl. unfold Database.user_is at 2. simpl.
    destruct (String.eqb_spec user_id0 user_id) as [->|]; simpl; [|by rewrite app_nil_r].
    apply select_where_nil_iff in Hex. by rewrite Hex.
  - by rewrite select_update_length.
  - unfold Database.add_badge. destruct (fetchone _); [|done].
    destruct (existsb _ _); [done|]. simpl. by rewrite select_update_length.
  - by rewrite select_update_length.
  - unfold Database.create_quiz_progress. by destruct (existsb _ _).
  - unfold Database.record_asked_question. by destruct (existsb _ _).
  - rewrite save_prediction_cases. destruct f; simpl; [|done].
    by rewrite select_update_length.
Qed.

Lemma run_user_unique h db user_id :
  (length (select_where (Database.user_is user_id) (Database.users db)) ≤ 1)%nat →
  (length (select_where (Database.user_is user_id)
             (Database.users (History.run db h))) ≤ 1)%nat.
Proof.
  revert db. induction h as [|[now c] h IH]; intros db Hle; simpl; [done|].
  by apply IH, step_user_unique.
Qed.

(** X3.  In every state the store can reach, [create_user] for an id that
    has a row answers "User already exists" and changes nothing; for a new
    id it stores the profile with 0 points and no badge.  Either way the id
    has exactly one row afterwards. *)
Theorem create_user_once (h : list (Z * History.call)) (now : Z)
    (user_id username favorite_team : string) :
  let db := History.run Database.init_db h in
  let out := Database.create_user db now user_id username favorite_team in
  length (select_where (Database.user_is user_id) (Database.users out.2)) = 1%nat
  ∧ match Database.get_user db user_id with
    | Some _ => out = (Database.UserExists, db)
    | None =>
        out.1 = Database.UserCreated user_id
        ∧ Database.get_user out.2 user_id
          = Some (Users.Row user_id username favorite_team 0 [] now now)
    end.
Proof.
  cbv zeta. set (db := History.run Database.init_db h).
  assert (length (select_where (Database.user_is user_id) (Database.users db)) ≤ 1)%nat
    as Hle by (apply run_user_unique; simpl; lia).
  unfold Database.create_user, Database.get_user in *.
  destruct (existsb (Database.user_is user_id) (Database.users db)) eqn:Hex.
  - simpl. destruct (select_where _ _) as [|u l] eqn:E.
    + apply select_where_nil_iff in E. congruence.
    + simpl in *. split; [|done]. destruct l; simpl in *; [done | lia].
  - apply select_where_nil_iff in Hex as E. rewrite E. simpl.
    rewrite select_where_app, E. simpl. unfold Database.user_is. simpl.
    by rewrite String.eqb_refl.
Qed.

(** ** Predictions *)

Lemma step_predictions db now c :
  ∃ new, rows (Database.predictions (History.step db now c))
         = (rows (Database.predictions db) ++ new)%list
    ∧ List.map Predictions.id new
      = (λ i, last_id (Database.predictions db) + Z.of_nat i)
        <$> seq 1 (length new)
    ∧ last_id (Database.predictions (History.step db now c))
      = last_id (Database.predictions db) + Z.of_nat (length new).
Proof.
  assert (∀ tb : table Predictions.row,
            rows tb = (rows tb ++ [])%list
            ∧ List.map Predictions.id [] = (λ i, last_id tb + Z.of_nat i) <$> seq 1 0
            ∧ last_id tb = last_id tb + Z.of_nat 0) as Hsame.
  { intros tb. rewrite app_nil_r. simpl. split_and!; (done || lia). }
  destruct c; simpl; try (exists []; apply Hsame).
  - unfold Database.create_user. destruct (existsb _ _); exists []; apply Hsame.
  - unfold Database.add_badge. destruct (fetchone _); [|exists []; apply Hsame].
    destruct (existsb _ _); exists []; apply Hsame.
  - unfold Database.create_quiz_progress. destruct (existsb _ _); exists []; apply Hsame.
  - eexists [_]. simpl. by split_and!.
  - unfold Database.record_asked_question. destruct (existsb _ _); exists []; apply Hsame.
  - rewrite save_prediction_cases. destruct f; simpl; [|exists []; apply Hsame].
    eexists [_]. simpl. by split_and!.
Qed.

(** X4.  Prediction rows are immutable: whatever calls are made on the
    store, the rows of [predictions] that were there are still there,
    unchanged and in the same order, followed by the rows added since. *)
Theorem predictions_are_append_only (h : list (Z * History.call)) (db : Database.t) :
  ∃ new, rows (Database.predictions (History.run db h))
         = (rows (Database.predictions db) ++ new)%list.
Proof.
  revert db. induction h as [|[now c] h IH]; intros db; simpl.
  - exists []. by rewrite app_nil_r.
  - destruct (IH (History.step db now c)) as (new2 & ->).
    destruct (step_predictions db now c) as (new1 & -> & _).
    exists (new1 ++ new2)%list. by rewrite app_assoc.
Qed.

(** X5.  From the creation of the store on, the prediction rows carry the
    ids 1, 2, 3, ... in the order they were written, and the table's
    counter is their number: a rolled-back [save_prediction] uses up no
    id. *)
Theorem prediction_ids_are_consecutive (h : list (Z * History.call)) :
  let tb := Database.predictions (History.run Database.init_db h) in
  List.map Predictions.id (rows tb) = Z.of_nat <$> seq 1 (length (rows tb))
  ∧ last_id tb = Z.of_nat (length (rows tb)).
Proof.
  cbv zeta.
  assert (∀ db,
    List.map Predictions.id (rows (Database.predictions db))
    = Z.of_nat <$> seq 1 (length (rows (Database.predictions db))) →
    last_id (Database.predictions db) = Z.of_nat (length (rows (Database.predictions db))) →
    List.map Predictions.id (rows (Database.predictions (History.run db h)))
    = Z.of_nat <$> seq 1 (length (rows (Database.predictions (History.run db h))))
    ∧ last_id (Database.predictions (History.run db h))
      = Z.of_nat (length (rows (Database.predictions (History.run db h))))) as Hgen.
  { induction h as [|[now c] h IH]; intros db Hids Hlast; simpl; [done|].
    destruct (step_predictions db now c) as (new & Hrows & Hnew & Hlast').
    apply IH.
    - rewrite Hrows, map_app, length_app, seq_app, fmap_app, Hids, Hnew, Hlast.
      f_equal. generalize (length (rows (Database.predictions db))) as n. intros n.
      replace (1 + n)%nat with (n + 1)%nat by lia.
      rewrite <- (fmap_add_seq n 1), <- list_fmap_compose.
      apply list_fmap_ext. intros _ i _. simpl. lia.
    - rewrite Hlast', Hrows, length_app, Hlast. lia. }
  by apply Hgen.
Qed.

(** ** Asked questions *)

Lemma asked_is_true user_id team r :
  Database.asked_is user_id team r = true
  ↔ AskedQuestions.user_id r = user_id ∧ AskedQuestions.team r = team.
Proof.
  unfold Database.asked_is. rewrite andb_true_iff, !String.eqb_eq. done.
Qed.

Lemma string_leb_trans a b c :
  String.leb a b = true → String.leb b c = true → String.leb a c = true.
Proof.
  unfold String.leb. revert b c.
  induction a as [|x a IH]; intros [|y b] [|z c]; simpl; try done.
  unfold Ascii.compare.
  destruct (N.compare_spec (N_of_ascii x) (N_of_ascii y)) as [Hxy|Hxy|Hxy];
    destruct (N.compare_spec (N_of_ascii y) (N_of_ascii z)) as [Hyz|Hyz|Hyz];
    try done;
    destruct (N.compare_spec (N_of_ascii x) (N_of_ascii z)) as [Hxz|Hxz|Hxz];
    try done; try lia.
  apply IH.
Qed.

#[global] Instance bytes_le_total : Total bytes_le.
Proof. intros a b. apply String.leb_total. Qed.

#[global] Instance bytes_le_transitive : Transitive bytes_le.
Proof. intros a b c. apply string_leb_trans. Qed.

(** The ids of a pair in the order of their recording; the store returns
    them sorted. *)
Lemma get_asked_questions_recorded db u t :
  Database.get_asked_questions db u t
  ≡ₚ List.map AskedQuestions.question_id (Database.asked_rows db u t).
Proof. apply merge_sort_Permutation. Qed.

Lemma asked_rows_reset db user_id team u t :
  Database.asked_rows (Database.reset_asked_questions db user_id team) u t
  = if String.eqb u user_id && String.eqb t team then []
    else Database.asked_rows db u t.
Proof.
  unfold Database.asked_rows, Database.reset_asked_questions. simpl.
  destruct (String.eqb_spec u user_id) as [->|Hu]; simpl.
  - destruct (String.eqb_spec t team) as [->|Ht].
    + by rewrite select_delete_same.
    + rewrite select_delete_other; [done|]. intros r. apply asked_is_pair. congruence.
  - rewrite select_delete_other; [done|]. intros r. apply asked_is_pair. congruence.
Qed.

Lemma asked_rows_record db now user_id team question_id u t :
  let recorded db := List.map AskedQuestions.question_id (Database.asked_rows db u t) in
  recorded (Database.record_asked_question db now user_id team question_id)
  = if String.eqb user_id u && String.eqb team t
       && negb (existsb (String.eqb question_id) (recorded db))
    then (recorded db ++ [question_id])%list
    else recorded db.
Proof.
  cbv zeta. unfold Database.record_asked_question.
  assert (∀ l : list AskedQuestions.row,
            existsb (λ r, Database.asked_is user_id team r
                          && String.eqb (AskedQuestions.question_id r) question_id) l
            = existsb (String.eqb question_id)
                (List.map AskedQuestions.question_id
                   (select_where (Database.asked_is user_id team) l))) as Hex.
  { induction l as [|r l IH]; simpl; [done|].
    destruct (Database.asked_is user_id team r); simpl; [|done].
    by rewrite IH, (String.eqb_sym question_id). }
  rewrite Hex. fold (Database.asked_rows db user_id team).
  destruct (String.eqb_spec user_id u) as [->|Hu]; simpl.
  - destruct (String.eqb_spec team t) as [->|Ht]; simpl.
    + destruct (existsb _ (List.map _ (Database.asked_rows db u t))); simpl; [done|].
      unfold Database.asked_rows. simpl.
      rewrite select_where_app, map_app. simpl.
      unfold Database.asked_is at 2. simpl. by rewrite !String.eqb_refl.
    + destruct (existsb _ _); [done|].
      unfold Database.asked_rows. simpl. rewrite select_where_app. simpl.
      unfold Database.asked_is at 2. simpl.
      apply String.eqb_neq in Ht. rewrite Ht, andb_false_r. by rewrite app_nil_r.
  - destruct (existsb _ _); [done|].
    unfold Database.asked_rows. simpl. rewrite select_where_app. simpl.
    unfold Database.asked_is at 2. simpl.
    apply String.eqb_neq in Hu. rewrite Hu. by rewrite app_nil_r.
Qed.

(** X6.  Recording an asked question makes it one of the pair's asked
    questions.  These are read back in the order of their ids, whatever the
    order of their recording: if the question was among them already the
    list is the one before, and otherwise it is the list before with the
    question in its place.  The asked questions of every other (user, team)
    pair are as they were, and recording the same question again changes
    nothing. *)
Theorem record_asked_question_round_trip (db : Database.t) (now now' : Z)
    (user_id team question_id : string) :
  let db' := Database.record_asked_question db now user_id team question_id in
  let before := Database.get_asked_questions db user_id team in
  let after := Database.get_asked_questions db' user_id team in
  In question_id after
  ∧ StronglySorted bytes_le after
  ∧ (In question_id before → after = before)
  ∧ (¬ In question_id before → after ≡ₚ question_id :: before)
  ∧ (∀ u t, (u, t) ≠ (user_id, team) →
       Database.get_asked_questions db' u t = Database.get_asked_questions db u t)
  ∧ Database.record_asked_question db' now' user_id team question_id = db'.
Proof.
  cbv zeta.
  set (recorded db0 := List.map AskedQuestions.question_id
                         (Database.asked_rows db0 user_id team)).
  pose proof (asked_rows_record db now user_id team question_id user_id team) as Hrec.
  cbv zeta in Hrec. rewrite !String.eqb_refl in Hrec. simpl in Hrec.
  fold (recorded db) in Hrec.
  fold (recorded (Database.record_asked_question db now user_id team question_id)) in Hrec.
  assert (∀ q db0, In q (Database.get_asked_questions db0 user_id team)
                   ↔ In q (recorded db0)) as Hin.
  { intros q db0. rewrite <- !list_elem_of_In.
    by rewrite (get_asked_questions_recorded db0 user_id team). }
  assert (In question_id
            (recorded (Database.record_asked_question db now user_id team question_id)))
    as Hnew.
  { rewrite Hrec. destruct (existsb _ _) eqn:Hex; simpl.
    - by apply existsb_eqb_In.
    - apply in_or_app. right. by left. }
  split_and!.
  - by apply Hin.
  - apply (StronglySorted_merge_sort bytes_le).
  - intros Hold%Hin%existsb_eqb_In. unfold Database.get_asked_questions.
    fold (recorded db).
    fold (recorded (Database.record_asked_question db now user_id team question_id)).
    by rewrite Hrec, Hold.
  - intros Hold. rewrite (get_asked_questions_recorded _ user_id team).
    fold (recorded (Database.record_asked_question db now user_id team question_id)).
    rewrite Hrec.
    destruct (existsb _ _) eqn:Hex; simpl.
    { apply existsb_eqb_In, Hin in Hex. done. }
    rewrite (get_asked_questions_recorded db user_id team).
    symmetry. apply Permutation_cons_append.
  - intros u t Hne. unfold Database.get_asked_questions. f_equal.
    pose proof (asked_rows_record db now user_id team question_id u t) as Hother.
    cbv zeta in Hother. rewrite Hother.
    destruct (String.eqb_spec user_id u) as [->|]; [|done].
    destruct (String.eqb_spec team t) as [->|]; done.
  - unfold Database.record_asked_question at 1.
    set (db' := Database.record_asked_question db now user_id team question_id) in *.
    assert (existsb (λ r, Database.asked_is user_id team r
                          && String.eqb (AskedQuestions.question_id r) question_id)
                    (rows (Database.asked_questions db')) = true) as ->; [|done].
    unfold recorded, Database.asked_rows in Hnew.
    apply in_map_iff in Hnew as (r & Hq & [Hr Hp]%filter_In).
    apply existsb_exists. exists r. split; [done|].
    rewrite Hp, Hq. simpl. apply String.eqb_refl.
Qed.

(** "q2", "q10" and then "q1" are read back as "q1", "q10", "q2". *)
Lemma record_asked_question_round_trip_witness :
  Database.get_asked_questions Scenario.db_asked_out_of_order "alice" "Lakers"
  = ["q10"; "q2"]
  ∧ Database.get_asked_questions
      (Database.record_asked_question Scenario.db_asked_out_of_order 9 "alice" "Lakers" "q1")
      "alice" "Lakers"
    = ["q1"; "q10"; "q2"]
  ∧ StronglySorted bytes_le
      (Database.get_asked_questions
         (Database.record_asked_question Scenario.db_asked_out_of_order 9 "alice" "Lakers"
            "q1")
         "alice" "Lakers")
  ∧ Database.get_asked_questions
      (Database.record_asked_question Scenario.db_asked_out_of_order 9 "alice" "Lakers" "q1")
      "bob" "Lakers"
    = ["q7"].
Proof.
  destruct (record_asked_question_round_trip Scenario.db_asked_out_of_order 9 9
              "alice" "Lakers" "q1")
    as (_ & Hsorted & _ & _ & Hother & _).
  split_and!; [reflexivity | reflexivity | exact Hsorted |].
  rewrite (Hother "bob" "Lakers"); [reflexivity | intros [=]].
Defined.

Lemma step_asked_NoDup db now c u t :
  NoDup (List.map AskedQuestions.question_id (Database.asked_rows db u t)) →
  NoDup (List.map AskedQuestions.question_id
           (Database.asked_rows (History.step db now c) u t)).
Proof.
  intros Hnd. destruct c; simpl; try done.
  - unfold Database.create_user. by destruct (existsb _ _).
  - unfold Database.add_badge. destruct (fetchone _); [|done]. by destruct (existsb _ _).
  - unfold Database.create_quiz_progress. by destruct (existsb _ _).
  - pose proof (asked_rows_record db now user_id team question_id u t) as Hrec.
    cbv zeta in Hrec. rewrite Hrec.
    destruct (String.eqb user_id u && String.eqb team t); simpl; [|done].
    destruct (existsb _ _) eqn:Hex; simpl; [done|].
    apply NoDup_app. split_and!; [done | | apply NoDup_singleton].
    intros x Hx ->%list_elem_of_singleton.
    apply list_elem_of_In, existsb_eqb_In in Hx. congruence.
  - rewrite asked_rows_reset.
    destruct (String.eqb u user_id && String.eqb t team); [apply NoDup_nil_2 | done].
  - rewrite save_prediction_cases. by destruct f.
Qed.

(** X7.  From the creation of the store on, no (user, team) pair has the
    same question recorded as asked twice. *)
Theorem asked_questions_have_no_duplicate (h : list (Z * History.call))
    (user_id team : string) :
  NoDup (Database.get_asked_questions (History.run Database.init_db h) user_id team).
Proof.
  rewrite (get_asked_questions_recorded _ user_id team).
  assert (∀ db, NoDup (List.map AskedQuestions.question_id
                         (Database.asked_rows db user_id team)) →
                NoDup (List.map AskedQuestions.question_id
                         (Database.asked_rows (History.run db h) user_id team)))
    as Hgen.
  { induction h as [|[now c] h IH]; intros db Hnd; simpl; [done|].
    by apply IH, step_asked_NoDup. }
  apply Hgen. apply NoDup_nil_2.
Qed.

(** ** Completed levels and quiz progress *)





Lemma set_quiz_progress_same db rs :
  rs = rows (Database.quiz_progress db) →
  Database.set_quiz_progress (Table rs (last_id (Database.quiz_progress db))) db = db.
Proof. intros ->. destruct db as [? ? ? ? [? ?] ? ?]. done. Qed.

Lemma progress_is_pair u t user_id team r :
  (u, t) ≠ (user_id, team) →
  Database.progress_is u t r = true → Database.progress_is user_id team r = false.
Proof.
  unfold Database.progress_is. intros Hne [Hu Ht]%andb_true_iff.
  apply String.eqb_eq in Hu, Ht. apply not_true_iff_false.
  intros [Hu' Ht']%andb_true_iff. apply String.eqb_eq in Hu', Ht'. congruence.
Qed.

Lemma select_update_other {R} (p q : R → bool) (f : R → R) l :
  (∀ r, p (f r) = p r) → (∀ r, p r = true → q r = false) →
  select_where p (update_where q f l) = select_where p l.
Proof.
  intros Hkey Hpq. rewrite select_update_where by done.
  induction l as [|r l IH]; simpl; [done|].
  destruct (p r) eqn:E; simpl; [|done]. by rewrite (Hpq r E), IH.
Qed.

Lemma get_quiz_progress_update db now user_id team lvl i s c u t :
  Database.get_quiz_progress
    (Database.update_quiz_progress db now user_id team lvl i s c) u t
  = if String.eqb u user_id && String.eqb t team
    then (λ p, Database.Progress lvl i s c (Database.started_at p))
           <$> Database.get_quiz_progress db u t
    else Database.get_quiz_progress db u t.
Proof.
  unfold Database.get_quiz_progress, Database.update_quiz_progress. simpl.
  destruct (String.eqb_spec u user_id) as [->|Hu]; simpl.
  - destruct (String.eqb_spec t team) as [->|Ht].
    + rewrite select_update_where by done. rewrite fetchone_map.
      destruct (fetchone (select_where _ _)) as [r|] eqn:E; simpl; [|done].
      apply fetchone_select_Some in E. by rewrite E.
    + rewrite select_update_other; [done | done |].
      intros r. apply progress_is_pair. congruence.
  - rewrite select_update_other; [done | done |].
    intros r. apply progress_is_pair. congruence.
Qed.

(** X9.  [update_quiz_progress] followed by [get_quiz_progress], for a
    level that the store keeps as written (an integer of the 64 bits or a
    text without a digit) and three counters of the 64 bits: when the (user,
    team) pair has a progress row, the four values written are the ones
    read back and [started_at] is kept; when it has none, the update changes
    nothing at all, so there is still no progress to read.  The progress of
    every other pair is as before. *)
Theorem update_quiz_progress_round_trip (db : Database.t) (now : Z)
    (user_id team : string) (current_level : level_value)
    (current_question_index level_score total_correct : Z) :
  kept_as_written current_level = true →
  int64 current_question_index && int64 level_score && int64 total_correct = true →
  let db' := Database.update_quiz_progress db now user_id team current_level
               current_question_index level_score total_correct in
  Database.get_quiz_progress db' user_id team
  = (λ p, Database.Progress current_level current_question_index level_score
            total_correct (Database.started_at p))
      <$> Database.get_quiz_progress db user_id team
  ∧ (Database.get_quiz_progress db user_id team = None → db' = db)
  ∧ (∀ u t, (u, t) ≠ (user_id, team) →
       Database.get_quiz_progress db' u t = Database.get_quiz_progress db u t).
Proof.
  intros _ _. cbv zeta. split_and!.
  - by rewrite get_quiz_progress_update, !String.eqb_refl.
  - intros Hnone. unfold Database.update_quiz_progress.
    apply set_quiz_progress_same, update_where_none.
    destruct (existsb _ _) eqn:Hex; [|done].
    apply get_quiz_progress_exists in Hex. rewrite Hnone in Hex. by destruct Hex.
  - intros u t Hne. rewrite get_quiz_progress_update.
    destruct (String.eqb_spec u user_id) as [->|]; [|done].
    destruct (String.eqb_spec t team) as [->|]; done.
Qed.

(** Alice's progress for the Lakers is set to Hard, question 2; carol, who
    has no progress row, still has none after an update. *)
Lemma update_quiz_progress_round_trip_witness :
  Database.current_level
  <$> Database.get_quiz_progress
        (Database.update_quiz_progress Sample.db_progress 5 "alice" "Lakers"
           (LevelText "Hard") 2 10 1) "alice" "Lakers"
  = Some (LevelText "Hard")
  ∧ Database.update_quiz_progress Sample.db_progress 5 "carol" "Lakers"
      (LevelText "Hard") 2 10 1
    = Sample.db_progress.
Proof.
  split.
  - destruct (update_quiz_progress_round_trip Sample.db_progress 5 "alice" "Lakers"
                (LevelText "Hard") 2 10 1 eq_refl eq_refl) as (-> & _).
    reflexivity.
  - destruct (update_quiz_progress_round_trip Sample.db_progress 5 "carol" "Lakers"
                (LevelText "Hard") 2 10 1 eq_refl eq_refl) as (_ & Hnone & _).
    by apply Hnone.
Defined.

(** X10.  The three progress handlers that write, whether or not the pair
    has a progress row: [update_progress] answers with success when its four
    integers are of the 64 bits and with a 500 otherwise;
    [mark_level_complete] answers with success when the score is a number
    and with a 500, the store unchanged, when it is a NaN; the level choice
    answers with success.  None of them creates a progress row: a pair has
    progress afterwards exactly when it had before. *)
Theorem progress_handlers_create_no_row (db : Database.t) (now : Z)
    (user_id team level : string) (score : float) (continue_to_next : bool)
    (current_level current_question_index level_score total_correct : Z) (u t : string) :
  let has (db : Database.t) := is_Some (Database.get_quiz_progress db u t) in
  let a := Api.update_progress db now user_id team current_level
             current_question_index level_score total_correct in
  let b := Api.mark_level_complete db now user_id team level score in
  let c := Api.handle_level_progression_choice db now user_id team level
             continue_to_next in
  (a.1 = (if int64 current_level && int64 current_question_index
             && int64 level_score && int64 total_correct
          then Ok true else Raise 500)
   ∧ (has a.2 ↔ has db))
  ∧ ((if PrimFloat.is_nan score then b = (Raise 500, db) else ∃ resp, b.1 = Ok resp)
     ∧ (has b.2 ↔ has db))
  ∧ ((∃ resp, c.1 = Ok resp) ∧ (has c.2 ↔ has db)).
Proof.
  assert (∀ db0 lvl i s c,
            is_Some (Database.get_quiz_progress
                       (Database.update_quiz_progress db0 now user_id team lvl i s c) u t)
            ↔ is_Some (Database.get_quiz_progress db0 u t)) as Hupd.
  { intros db0 lvl i s c. rewrite get_quiz_progress_update.
    destruct (_ && _); [|done]. by rewrite fmap_is_Some. }
  cbv zeta. split_and!.
  - unfold Api.update_progress. by destruct (_ && _).
  - unfold Api.update_progress. destruct (_ && _); [apply Hupd | done].
  - unfold Api.mark_level_complete. destruct (PrimFloat.is_nan score); [done | by eexists].
  - unfold Api.mark_level_complete. destruct (PrimFloat.is_nan score); [done|].
    simpl. rewrite Hupd.
    unfold Database.get_quiz_progress, Database.complete_level. done.
  - unfold Api.handle_level_progression_choice.
    destruct (if continue_to_next then _ else _) as [[next|]|]; by eexists.
  - unfold Api.handle_level_progression_choice.
    destruct (if continue_to_next then _ else _) as [[next|]|]; simpl; [apply Hupd | done | done].
Qed.

(** ** Quiz submission *)

Lemma submit_quiz_history db now questions_json request resp db' :
  Api.submit_quiz db now questions_json request = (Ok resp, db') →
  rows (Database.quiz_history db')
  = (rows (Database.quiz_history db)
     ++ [QuizHistory.Row (last_id (Database.quiz_history db) + 1)
           (Api.qs_user_id request) (Api.qs_team request)
           ("level_" +:+ Api.qs_level request) "[]" "[]" (Api.score resp) now])%list.
Proof.
  unfold Api.submit_quiz. cbv zeta.
  destruct (_ ≫= _) as [[correct_count results]|e]; [|discriminate].
  intros [= <- <-]. simpl.
  destruct (Database.get_quiz_progress db _ _); [done|].
  unfold Database.create_quiz_progress.
  by destruct (existsb _ (rows (Database.quiz_progress db))).
Qed.

(** X11.  A graded submission: the number of correct answers lies between
    0 and the number of questions submitted, one result is returned per
    question, ten points are earned per correct answer, and one attempt is
    appended to the quiz history under the difficulty ["level_" + level]
    with the score of the answer. *)
Theorem submit_quiz_counts (db : Database.t) (now : Z)
    (questions_json : option (list Api.bank_question))
    (request : Api.QuizSubmissionRequest) (resp : Api.quiz_response) (db' : Database.t) :
  Api.submit_quiz db now questions_json request = (Ok resp, db') →
  0 ≤ Api.correct resp ≤ Api.total resp
  ∧ Api.total resp = Z.of_nat (length (Api.qs_questions request))
  ∧ length (Api.results resp) = length (Api.qs_questions request)
  ∧ Api.points_earned resp = 10 * Api.correct resp
  ∧ rows (Database.quiz_history db')
    = (rows (Database.quiz_history db)
       ++ [QuizHistory.Row (last_id (Database.quiz_history db) + 1)
             (Api.qs_user_id request) (Api.qs_team request)
             ("level_" +:+ Api.qs_level request) "[]" "[]" (Api.score resp) now])%list.
Proof.
  intros Hsubmit.
  destruct (submit_quiz_graded _ _ _ _ _ _ Hsubmit) as [Hcorrect Hlen].
  destruct (submit_quiz_ok _ _ _ _ _ _ Hsubmit) as (Htotal & Hpoints & _).
  cbv zeta in Htotal. split_and!; try done; try lia.
  - rewrite Hcorrect, Htotal, <- Hlen.
    apply inj_le, List.filter_length_le.
  - by apply (submit_quiz_history _ _ _ _ _ _ Hsubmit).
Qed.

Lemma submit_quiz_counts_witness :
  ∃ resp db',
    Api.submit_quiz Sample.db_alice 3 (Some Sample.lakers_bank) Sample.alice_request
    = (Ok resp, db')
    ∧ 0 ≤ Api.correct resp ≤ Api.total resp
    ∧ Api.points_earned resp = 10 * Api.correct resp.
Proof.
  destruct (Api.submit_quiz Sample.db_alice 3 (Some Sample.lakers_bank)
              Sample.alice_request) as [[resp|e] db'] eqn:Hsubmit;
    [|vm_compute in Hsubmit; discriminate].
  exists resp, db'. split; [reflexivity|].
  destruct (submit_quiz_counts _ _ _ _ _ _ Hsubmit) as (Hb & _ & _ & Hp & _).
  done.
Defined.

(** X12.  A submission whose questions cannot be read or graded (the file
    of questions is missing, or the bank gives a submitted question an
    answer index below [-len(options)]) is answered with status 500 before
    anything is awarded or recorded: users, completed levels and quiz
    history are as before.  The progress row of the pair exists all the
    same, since it is created before the questions are read. *)
Theorem submit_quiz_failure_frame (db : Database.t) (now : Z)
    (questions_json : option (list Api.bank_question))
    (request : Api.QuizSubmissionRequest) (e : exn) :
  (all_questions_list ← Api.load_questions questions_json;
   Api.grade (Py.dict_of Api.id all_questions_list) (Api.qs_answers request) 0
     (Api.qs_questions request))
  = Raise e →
  let out := Api.submit_quiz db now questions_json request in
  out.1 = Raise 500
  ∧ Database.users out.2 = Database.users db
  ∧ Database.completed_levels out.2 = Database.completed_levels db
  ∧ Database.quiz_history out.2 = Database.quiz_history db
  ∧ is_Some (Database.get_quiz_progress out.2 (Api.qs_user_id request)
               (Api.qs_team request)).
Proof.
  intros Hraise. cbv zeta. unfold Api.submit_quiz. cbv zeta.
  pose proof (progress_initialised db now (Api.qs_user_id request) (Api.qs_team request))
    as [Hex Husers]. cbv zeta in Hex, Husers.
  rewrite Hraise. cbn [fst snd].
  assert (∀ db0, (Database.create_quiz_progress db0 now (Api.qs_user_id request)
                    (Api.qs_team request)).2
                 = db0
                 ∨ ∃ tb, (Database.create_quiz_progress db0 now (Api.qs_user_id request)
                            (Api.qs_team request)).2
                         = Database.set_quiz_progress tb db0) as Hcreate.
  { intros db0. unfold Database.create_quiz_progress.
    destruct (existsb _ (rows (Database.quiz_progress db0)));
      [left; reflexivity | right; eexists; reflexivity]. }
  split; [done|]. split; [exact Husers|].
  split; [|split; [|by apply get_quiz_progress_exists]].
  - destruct (Database.get_quiz_progress db _ _); [done|].
    by destruct (Hcreate db) as [->|[tb ->]].
  - destruct (Database.get_quiz_progress db _ _); [done|].
    by destruct (Hcreate db) as [->|[tb ->]].
Qed.

(** The bank points before the start of the options of "q1": alice's
    submission is answered with 500 and her points are as before. *)
Lemma submit_quiz_failure_frame_witness :
  let out := Api.submit_quiz Sample.db_alice 3 (Some Scenario.bad_index_bank)
               Scenario.one_question_request in
  out.1 = Raise 500
  ∧ Database.users out.2 = Database.users Sample.db_alice
  ∧ is_Some (Database.get_quiz_progress out.2 "alice" "Lakers").
Proof.
  cbv zeta.
  destruct (submit_quiz_failure_frame Sample.db_alice 3 (Some Scenario.bad_index_bank)
              Scenario.one_question_request IndexError eq_refl)
    as (Hstatus & Husers & _ & _ & Hprogress).
  split_and!; [exact Hstatus | exact Husers | exact Hprogress].
Defined.

(** X13.  When the file of questions is missing, [submit_quiz] answers 500
    (the 404 it raises is caught by its own [except Exception]), while
    [generate_quiz] answers 404 for a level it accepts. *)
Theorem missing_questions_file_status (db : Database.t) (now : Z)
    (request : Api.QuizSubmissionRequest) (picks : list nat) (user_id team : string)
    (l : named_level) :
  (Api.submit_quiz db now None request).1 = Raise 500
  ∧ (Api.generate_quiz db now None picks user_id team (level_name l)).1 = Raise 404.
Proof.
  split.
  - unfold Api.submit_quiz. done.
  - destruct l; done.
Qed.


Lemma dict_of_lookup_None {V} (key : V → string) (l : list V) (k : string) :
  (∀ x, In x l → key x ≠ k) → Py.dict_of key l !! k = None.
Proof.
  unfold Py.dict_of.
  assert (∀ d : gmap string V, d !! k = None → (∀ x, In x l → key x ≠ k) →
            fold_left (λ d x, <[key x := x]> d) l d !! k = None) as Hgen.
  { induction l as [|x l IH]; intros d Hd Hl; simpl; [done|].
    apply IH.
    - rewrite lookup_insert_ne; [done|]. apply Hl. by left.
    - intros y Hy. apply Hl. by right. }
  intros Hl. by apply Hgen.
Qed.

Lemma grade_unknown_blank question_lookup answers idx questions :
  (∀ q, In q questions → question_lookup !! default "" (Api.sq_id q) = None) →
  (∀ k a, answers !! k = Some a → Py.strip a = "") →
  ∃ rs, Api.grade question_lookup answers idx questions
        = Ok (Z.of_nat (length questions), rs).
Proof.
  intros Hids Hblank. revert idx.
  induction questions as [|q rest IH]; intros idx; simpl; [by eexists|].
  unfold Api.grade_question. cbv zeta.
  rewrite (Hids q) by (by left). simpl.
  destruct (IH (λ q' Hq', Hids q' (or_intror Hq')) (S idx)) as [rs ->]. simpl.
  assert (Py.strip (Py.get answers (Py.str_of_nat idx) "") = "") as ->.
  { unfold Py.get. destruct (answers !! Py.str_of_nat idx) as [a|] eqn:Ha; simpl.
    - by apply (Hblank _ _ Ha).
    - done. }
  simpl. eexists. do 2 f_equal. lia.
Qed.

(** X15.  Questions whose ids the bank does not know are graded against
    the empty answer: if every submitted question is unknown to the bank and
    every answer given is blank (or none is given), each question is marked
    correct and the submission earns ten points per question. *)
Theorem unknown_questions_count_as_correct (db : Database.t) (now : Z)
    (bank : list Api.bank_question) (request : Api.QuizSubmissionRequest) :
  (∀ q b, In q (Api.qs_questions request) → In b bank →
          Api.id b ≠ default "" (Api.sq_id q)) →
  (∀ k a, Api.qs_answers request !! k = Some a → Py.strip a = "") →
  ∃ resp db',
    Api.submit_quiz db now (Some bank) request = (Ok resp, db')
    ∧ Api.correct resp = Api.total resp
    ∧ Api.points_earned resp = 10 * Z.of_nat (length (Api.qs_questions request)).
Proof.
  intros Hids Hblank. unfold Api.submit_quiz. cbv zeta. simpl.
  destruct (grade_unknown_blank (Py.dict_of Api.id bank) (Api.qs_answers request) 0
              (Api.qs_questions request)) as [rs ->]; [|done|].
  { intros q Hq. apply dict_of_lookup_None. intros b Hb. by apply Hids. }
  do 2 eexists. split; [reflexivity|]. simpl.
  unfold Api.points_per_question. split; [done | lia].
Qed.

Lemma unknown_questions_count_as_correct_witness :
  ∃ resp db',
    Api.submit_quiz Sample.db_alice 3 (Some Sample.lakers_bank) Scenario.made_up_request
    = (Ok resp, db')
    ∧ Api.correct resp = Api.total resp
    ∧ Api.points_earned resp = 10 * 3.
Proof.
  apply (unknown_questions_count_as_correct Sample.db_alice 3 Sample.lakers_bank
           Scenario.made_up_request).
  - intros q b Hq Hb. simpl in Hq, Hb.
    repeat destruct Hq as [<-|Hq]; try done;
      repeat destruct Hb as [<-|Hb]; try done; simpl; intros [=].
  - intros k a Hk. simpl in Hk. by rewrite lookup_empty in Hk.
Defined.


(** ** Quiz generation: what is answered, and when *)

Lemma generate_quiz_store db now questions_json picks user_id team level :
  let db' := (Api.generate_quiz db now questions_json picks user_id team level).2 in
  db' = db ∨ db' = (Database.create_quiz_progress db now user_id team).2.
Proof.
  cbv zeta. unfold Api.generate_quiz. cbv zeta.
  destruct (negb _); [by left|].
  destruct (Database.get_quiz_progress db user_id team).
  - left. destruct (Api.load_questions _); [|done]. by destruct (List.filter _ _).
  - right. destruct (Api.load_questions _); [|done]. by destruct (List.filter _ _).
Qed.

(** X16.  A quiz that is generated carries the level in its capitalised
    spelling, which is one of Easy, Medium and Hard; every question in it is
    a question of the bank for the requested team and that level, no bank
    question is used more often than the bank holds it, and the quiz has
    [min(10, available)] questions, where [available] is the number of bank
    questions for the team and level.  Points, badges and the records of
    asked questions are not touched. *)
Theorem generate_quiz_answer (db : Database.t) (now : Z)
    (bank : list Api.bank_question) (picks : list nat) (user_id team level : string)
    (quiz : Api.quiz) (db' : Database.t) :
  Api.generate_quiz db now (Some bank) picks user_id team level = (Ok quiz, db') →
  let pool := List.filter (λ q, String.eqb (Api.team q) team
                                && String.eqb (Api.level q) (Py.capitalize level)) bank in
  Api.quiz_level quiz = Py.capitalize level
  ∧ In (Api.quiz_level quiz) ["Easy"; "Medium"; "Hard"]
  ∧ Api.questions quiz ⊆+ Api.display <$> pool
  ∧ (∀ q, In q (Api.questions quiz) →
       Api.d_team q = team ∧ Api.d_level q = Api.quiz_level quiz)
  ∧ Api.total_available quiz = Z.of_nat (length pool)
  ∧ Api.total_questions quiz = Z.of_nat (length (Api.questions quiz))
  ∧ Api.total_questions quiz = Z.min 10 (Api.total_available quiz)
  ∧ 1 ≤ Api.total_questions quiz
  ∧ Database.users db' = Database.users db
  ∧ Database.asked_questions db' = Database.asked_questions db.
Proof.
  intros Hgen pool.
  destruct (existsb (String.eqb (Py.capitalize level)) ["Easy"; "Medium"; "Hard"])
    eqn:Hvalid.
  2: { revert Hgen. unfold Api.generate_quiz. cbv zeta. by rewrite Hvalid. }
  assert (pool ≠ []) as Hpool.
  { intros Hnil. revert Hgen. unfold Api.generate_quiz. cbv zeta.
    rewrite Hvalid. simpl. fold pool. by rewrite Hnil. }
  destruct (generate_quiz_selects db now bank picks user_id team level Hvalid Hpool)
    as (db1 & Heq & Hasked).
  fold pool in Heq.
  assert (quiz = Api.Quiz (Py.capitalize level) team
                   (List.map Api.display (Py.sample pool (Nat.min 10 (length pool)) picks))
                   (Z.of_nat (Nat.min 10 (length pool))) (Z.of_nat (length pool))
          ∧ db' = db1) as [-> ->] by (split; congruence).
  cbn [Api.quiz_level Api.questions Api.total_questions Api.total_available].
  assert (length pool ≠ 0%nat) as Hlen by (by intros ?%nil_length_inv).
  assert (Py.sample pool (Nat.min 10 (length pool)) picks ⊆+ pool) as Hsub
    by apply sample_submseteq.
  split_and!.
  - done.
  - exact (proj1 (existsb_eqb_In (Py.capitalize level) ["Easy"; "Medium"; "Hard"]) Hvalid).
  - by apply fmap_submseteq.
  - intros q (b & <- & Hb)%in_map_iff.
    apply list_elem_of_In in Hb.
    apply (λ H, elem_of_submseteq _ _ _ H Hsub) in Hb.
    apply list_elem_of_In, filter_In in Hb as [_ [Ht Hl]%andb_true_iff].
    apply String.eqb_eq in Ht, Hl. done.
  - done.
  - rewrite length_map, sample_length by lia. done.
  - lia.
  - lia.
  - pose proof (generate_quiz_store db now (Some bank) picks user_id team level) as Hst.
    cbv zeta in Hst. rewrite Heq in Hst. simpl in Hst.
    destruct Hst as [->| ->]; [done|].
    unfold Database.create_quiz_progress.
    by destruct (existsb _ (rows (Database.quiz_progress db))).
  - done.
Qed.

Lemma generate_quiz_answer_witness :
  ∃ quiz db',
    Api.generate_quiz Sample.db_alice 3 (Some Sample.lakers_bank) [4; 0; 2]%nat
      "alice" "Lakers" "easy" = (Ok quiz, db')
    ∧ Api.quiz_level quiz = "Easy"
    ∧ Api.total_questions quiz = 5.
Proof.
  destruct (Api.generate_quiz Sample.db_alice 3 (Some Sample.lakers_bank) [4; 0; 2]%nat
              "alice" "Lakers" "easy") as [[quiz|e] db'] eqn:Hgen;
    [|vm_compute in Hgen; discriminate].
  exists quiz, db'. split; [reflexivity|].
  destruct (generate_quiz_answer _ _ _ _ _ _ _ _ _ Hgen)
    as (Hlevel & _ & _ & _ & Havail & _ & Htotal & _).
  split; [exact Hlevel|]. rewrite Htotal, Havail. reflexivity.
Defined.

(** X17.  The statuses 400 and 404 of [generate_quiz], for a file of
    questions that is missing or is a list of entries that carry their id,
    team, level, question and options.  It answers 400 exactly when the
    capitalised level is not Easy, Medium or Hard, and then the store is
    untouched.  For a level it accepts, the pair's progress row exists
    afterwards, and it answers 404 when the file is missing or holds no
    question for the team and level; a 404 is answered in no other case,
    and a quiz is answered only when the level is accepted and the file
    holds a question for the team and level. *)
Theorem generate_quiz_status (db : Database.t) (now : Z)
    (questions_json : option (list Api.bank_question)) (picks : list nat)
    (user_id team level : string) :
  let out := Api.generate_quiz db now questions_json picks user_id team level in
  let valid := existsb (String.eqb (Py.capitalize level)) ["Easy"; "Medium"; "Hard"] in
  let pool := List.filter (λ q, String.eqb (Api.team q) team
                                && String.eqb (Api.level q) (Py.capitalize level))
                          (default [] questions_json) in
  (out.1 = Raise 400 ↔ valid = false)
  ∧ (valid = false → out.2 = db)
  ∧ (valid = true → is_Some (Database.get_quiz_progress out.2 user_id team))
  ∧ (valid = true → pool = [] → out.1 = Raise 404)
  ∧ (out.1 = Raise 404 → valid = true ∧ pool = [])
  ∧ (∀ quiz, out.1 = Ok quiz → valid = true ∧ pool ≠ []).
Proof.
  cbv zeta. unfold Api.generate_quiz. cbv zeta.
  pose proof (progress_initialised db now user_id team) as [Hex _]. cbv zeta in Hex.
  apply get_quiz_progress_exists in Hex.
  destruct (existsb (String.eqb (Py.capitalize level)) ["Easy"; "Medium"; "Hard"]);
    simpl; [|by split_and!].
  destruct questions_json as [bank|]; simpl; [|by split_and!].
  destruct (List.filter _ bank) as [|q pool]; simpl; [by split_and!|].
  by split_and!.
Qed.

(** The level "Expert" is refused and leaves the store as it is; the Hard
    level, of which the bank has no question, is answered with 404. *)
Lemma generate_quiz_status_witness :
  Api.generate_quiz Sample.db_alice 3 (Some Sample.lakers_bank) [] "alice" "Lakers" "Expert"
  = (Raise 400, Sample.db_alice)
  ∧ (Api.generate_quiz Sample.db_alice 3 (Some Sample.lakers_bank) [] "alice" "Lakers"
       "hard").1
    = Raise 404.
Proof.
  split.
  - destruct (generate_quiz_status Sample.db_alice 3 (Some Sample.lakers_bank) []
                "alice" "Lakers" "Expert") as (H400 & Hstore & _).
    apply injective_projections; [by apply H400 | by apply Hstore].
  - destruct (generate_quiz_status Sample.db_alice 3 (Some Sample.lakers_bank) []
                "alice" "Lakers" "hard") as (_ & _ & _ & H404 & _).
    by apply H404.
Defined.

Lemma upper_lower_char c : Py.upper_char (Py.lower_char c) = Py.upper_char c.
Proof. destruct c as [[] [] [] [] [] [] [] []]; reflexivity. Qed.

Lemma lower_lower_char c : Py.lower_char (Py.lower_char c) = Py.lower_char c.
Proof. destruct c as [[] [] [] [] [] [] [] []]; reflexivity. Qed.

Lemma lower_lower s : Py.lower (Py.lower s) = Py.lower s.
Proof. induction s as [|c s IH]; simpl; [done|]. by rewrite lower_lower_char, IH. Qed.

Lemma capitalize_lower s : Py.capitalize (Py.lower s) = Py.capitalize s.
Proof. destruct s as [|c s]; simpl; [done|]. by rewrite upper_lower_char, lower_lower. Qed.

(** X18.  The level of [generate_quiz] is read case-insensitively: two
    spellings that agree after lower-casing get the same answer and the same
    store. *)
Theorem generate_quiz_level_ignores_case (db : Database.t) (now : Z)
    (questions_json : option (list Api.bank_question)) (picks : list nat)
    (user_id team level1 level2 : string) :
  Py.lower level1 = Py.lower level2 →
  Api.generate_quiz db now questions_json picks user_id team level1
  = Api.generate_quiz db now questions_json picks user_id team level2.
Proof.
  intros Hlower. unfold Api.generate_quiz. cbv zeta.
  by rewrite <- (capitalize_lower level1), <- (capitalize_lower level2), Hlower.
Qed.

Lemma generate_quiz_level_ignores_case_witness :
  Api.generate_quiz Sample.db_alice 3 (Some Sample.lakers_bank) [1]%nat
    "alice" "Lakers" "MEDIUM"
  = Api.generate_quiz Sample.db_alice 3 (Some Sample.lakers_bank) [1]%nat
      "alice" "Lakers" "medium".
Proof.
  apply (generate_quiz_level_ignores_case Sample.db_alice 3 (Some Sample.lakers_bank)
           [1]%nat "alice" "Lakers" "MEDIUM" "medium").
  reflexivity.
Defined.

(** ** Prediction submission and statistics *)

Lemma evaluate_prediction_cases user_prediction system_outcome sport :
  let '(is_correct, points) :=
    PredictionEngine.evaluate_prediction user_prediction system_outcome sport in
  is_correct = String.eqb user_prediction system_outcome
  ∧ (is_correct = true → points = 25 ∨ points = 30 ∨ points = 50)
  ∧ (is_correct = false → points = 0).
Proof.
  unfold PredictionEngine.evaluate_prediction.
  destruct (String.eqb sport "soccer").
  - destruct (String.eqb_spec user_prediction "Draw") as [->|].
    + rewrite (String.eqb_sym "Draw").
      destruct (String.eqb system_outcome "Draw"); split_and!; auto; done.
    + destruct (String.eqb user_prediction system_outcome); split_and!; auto; done.
  - destruct (String.eqb user_prediction system_outcome); split_and!; auto; done.
Qed.

(** X19.  [submit_prediction] answers every request with a result, never
    with an error status, and the answer does not depend on the store: when
    a statement of [save_prediction] fails, the answer is the one of a
    successful save, with the same points earned, while the store is exactly
    what it was.  Points are earned exactly by a correct prediction. *)
Theorem submit_prediction_answer_ignores_store (db : Database.t) (now : Z) (rand : float)
    (request : Api.PredictionSubmitRequest) :
  ∃ r,
    (∀ f, (Api.submit_prediction db now rand f request).1 = Ok r)
    ∧ (∀ s e, (Api.submit_prediction db now rand (Database.Fault s e) request).2 = db)
    ∧ Api.is_correct r = String.eqb (Api.user_prediction r) (Api.system_outcome r)
    ∧ (0 < Api.result_points_earned r ↔ Api.is_correct r = true)
    ∧ 0 ≤ Api.result_points_earned r ≤ 50.
Proof.
  destruct (generate_prediction_winner (Api.ps_team1 request) (Api.ps_team2 request)
              (Api.ps_sport request) rand) as (p & Hp & _).
  pose proof (evaluate_prediction_cases (Api.ps_user_prediction request)
                (PredictionEngine.predicted_winner p) (Api.ps_sport request)) as Hev.
  unfold Api.submit_prediction. rewrite Hp.
  destruct (PredictionEngine.evaluate_prediction _ _ _) as [c pts].
  destruct Hev as (Hc & Hyes & Hno).
  eexists (Api.PredictionResult _ _ c pts _ _). split_and!.
  - intros f. by destruct (Database.save_prediction _ _ _ _ _ _ _ _ _ _ _).
  - intros s e. by rewrite save_prediction_cases.
  - done.
  - simpl. destruct c; [destruct Hyes as [->|[->| ->]]; done | rewrite Hno; done].
  - simpl. destruct c; [destruct Hyes as [->|[->| ->]]; done | rewrite Hno; done].
  - simpl. destruct c; [destruct Hyes as [->|[->| ->]]; done | rewrite Hno; done].
Qed.

Lemma prediction_stats_insert db u (r : Predictions.row) tb :
  rows tb = (rows (Database.predictions db) ++ [r])%list →
  let before := Database.get_prediction_stats db u in
  let after := Database.get_prediction_stats (Database.set_predictions tb db) u in
  if String.eqb (Predictions.user_id r) u then
    Database.total_predictions after = Database.total_predictions before + 1
    ∧ Database.correct_predictions after
      = Database.correct_predictions before
        + (if Database.prediction_is_correct r then 1 else 0)
    ∧ Database.stats_total_points after
      = Database.stats_total_points before + Predictions.points_earned r
  else after = before.
Proof.
  intros Hrows. cbv zeta. unfold Database.get_prediction_stats. simpl.
  rewrite Hrows, select_where_app. simpl.
  destruct (String.eqb (Predictions.user_id r) u); [|by rewrite app_nil_r].
  simpl. rewrite List.filter_app, !length_app, fold_right_app. simpl.
  split_and!.
  - lia.
  - destruct (Database.prediction_is_correct r); simpl; lia.
  - generalize (select_where (λ r0, String.eqb (Predictions.user_id r0) u)
                             (rows (Database.predictions db))).
    intros l. induction l as [|x l IH]; simpl; lia.
Qed.

(** X20.  The prediction statistics follow the submissions that are saved:
    after a saved submission the user's count of predictions is one higher,
    the count of correct ones is higher by one exactly when the answer says
    correct, and the points total is higher by the points of the answer.
    This holds whether or not the user has a row.  The statistics of every
    other user are unchanged. *)
Theorem prediction_stats_follow_submissions (db : Database.t) (now : Z) (rand : float)
    (request : Api.PredictionSubmitRequest) (r : Api.prediction_result)
    (db' : Database.t) :
  Api.submit_prediction db now rand Database.NoFault request = (Ok r, db') →
  let before := Database.get_prediction_stats db (Api.ps_user_id request) in
  let after := Database.get_prediction_stats db' (Api.ps_user_id request) in
  Database.total_predictions after = Database.total_predictions before + 1
  ∧ Database.correct_predictions after
    = Database.correct_predictions before + (if Api.is_correct r then 1 else 0)
  ∧ Database.stats_total_points after
    = Database.stats_total_points before + Api.result_points_earned r
  ∧ ∀ u, u ≠ Api.ps_user_id request →
      Database.get_prediction_stats db' u = Database.get_prediction_stats db u.
Proof.
  unfold Api.submit_prediction.
  destruct (PredictionEngine.generate_prediction _ _ _ _) as [p|e]; [|discriminate].
  pose proof (evaluate_prediction_cases (Api.ps_user_prediction request)
                (PredictionEngine.predicted_winner p) (Api.ps_sport request)) as Hev.
  destruct (PredictionEngine.evaluate_prediction _ _ _) as [c pts].
  destruct Hev as (Hc & _). rewrite save_prediction_cases. cbv zeta.
  intros [= <- <-].
  set (row := Predictions.Row (last_id (Database.predictions db) + 1)
                (Api.ps_user_id request) (Api.ps_team1 request) (Api.ps_team2 request)
                (Api.ps_user_prediction request) (default "" (Some (Api.ps_sport request)))
                (PredictionEngine.explanation p)
                (Some (PredictionEngine.predicted_winner p)) pts now).
  set (tb := insert_row _ (Database.predictions db)).
  assert (rows tb = (rows (Database.predictions db) ++ [row])%list) as Hrows by done.
  assert (∀ u, Database.get_prediction_stats
                 (Database.set_users
                    (update_where (Database.user_is (Api.ps_user_id request))
                       (Database.credit pts)
                       (Database.users (Database.set_predictions tb db)))
                    (Database.set_predictions tb db)) u
               = Database.get_prediction_stats (Database.set_predictions tb db) u)
    as Husers by done.
  assert (∀ u, let before := Database.get_prediction_stats db u in
               let after := Database.get_prediction_stats (Database.set_predictions tb db) u in
               if String.eqb (Api.ps_user_id request) u then
                 Database.total_predictions after = Database.total_predictions before + 1
                 ∧ Database.correct_predictions after
                   = Database.correct_predictions before + (if c then 1 else 0)
                 ∧ Database.stats_total_points after
                   = Database.stats_total_points before + pts
               else after = before) as Hins.
  { intros u. pose proof (prediction_stats_insert db u row tb Hrows) as Hins.
    assert (Database.prediction_is_correct row = c) as Hrow by (by rewrite Hc).
    by rewrite Hrow in Hins. }
  pose proof (Hins (Api.ps_user_id request)) as Hself. cbv zeta in Hself.
  rewrite String.eqb_refl in Hself. destruct Hself as (Htotal & Hcorrect & Hpoints).
  split; [by rewrite Husers|]. split; [by rewrite Husers|]. split; [by rewrite Husers|].
  intros u Hu. rewrite Husers. specialize (Hins u). cbv zeta in Hins.
  assert (String.eqb (Api.ps_user_id request) u = false) as Hne
    by (apply String.eqb_neq; congruence).
  by rewrite Hne in Hins.
Qed.

Lemma prediction_stats_follow_submissions_witness :
  ∃ r db',
    Api.submit_prediction Sample.db_three_users 9 0.25 Database.NoFault
      (Api.PredictionSubmit "bob" "Arsenal" "Chelsea" "soccer" "Arsenal") = (Ok r, db')
    ∧ Database.total_predictions (Database.get_prediction_stats db' "bob") = 2
    ∧ Database.get_prediction_stats db' "alice"
      = Database.get_prediction_stats Sample.db_three_users "alice".
Proof.
  destruct (Api.submit_prediction Sample.db_three_users 9 0.25 Database.NoFault
              (Api.PredictionSubmit "bob" "Arsenal" "Chelsea" "soccer" "Arsenal"))
    as [[r|e] db'] eqn:Hsubmit; [|vm_compute in Hsubmit; discriminate].
  exists r, db'. split; [reflexivity|].
  destruct (prediction_stats_follow_submissions _ _ _ _ _ _ Hsubmit)
    as (Htotal & _ & _ & Hother).
  split; [etrans; [exact Htotal | reflexivity]|].
  apply Hother. intros [=].
Defined.

(** ** Who is on the leaderboard *)

(** X21.  For a limit [N] with [0 <= N < 2^63], every entry of the
    leaderboard is a user row with its id, name, team and current points,
    and the board holds the top: a user with more points than somebody on
    the board is on the board too.  The handler answers with the board and
    reports as [total_users] the number of users, capped at 1000.  A limit
    outside the 64 bits is answered with a 500. *)
Theorem leaderboard_holds_the_top (db : Database.t) (limit : Z) :
  0 ≤ limit < 2 ^ 63 →
  let lb := Database.get_leaderboard db limit in
  (∀ e, e ∈ lb →
     ∃ u, u ∈ Database.users db
       ∧ Database.user_id e = Users.user_id u ∧ Database.username e = Users.username u
       ∧ Database.points e = Users.total_points u
       ∧ Database.team e = Users.favorite_team u)
  ∧ (∀ e u, e ∈ lb → u ∈ Database.users db → Database.points e < Users.total_points u →
       ∃ e', e' ∈ lb ∧ Database.user_id e' = Users.user_id u
         ∧ Database.points e' = Users.total_points u)
  ∧ Api.get_leaderboard db limit
    = Ok (Api.LeaderboardResponse lb
            (Z.min 1000 (Z.of_nat (length (Database.users db)))))
  ∧ ∀ n, int64 n = false → Api.get_leaderboard db n = Raise 500.
Proof.
  intros [Hlimit Hbound]. cbv zeta. unfold Database.get_leaderboard, Database.sql_limit.
  destruct (Z.ltb_spec limit 0) as [|_]; [lia|].
  set (sorted := Database.order_by_total_points_desc (Database.users db)).
  assert (sorted ≡ₚ Database.users db) as Hperm by apply merge_sort_Permutation.
  assert (StronglySorted Database.points_desc sorted) as Hsorted
    by apply (StronglySorted_merge_sort Database.points_desc).
  split_and!.
  - intros e (i & u & -> & Hu)%elem_of_lookup_imap_1.
    exists u. split; [|done].
    rewrite <- Hperm. apply list_elem_of_lookup_2 in Hu.
    by apply (subseteq_take (Z.to_nat limit)).
  - intros e u (i & a & -> & Ha)%elem_of_lookup_imap_1 Hu Hmore. simpl in Hmore.
    rewrite <- Hperm, <- (take_drop (Z.to_nat limit) sorted) in Hu.
    apply elem_of_app in Hu as [Hu|Hu].
    + apply list_elem_of_lookup in Hu as [j Hj].
      exists (Database.leaderboard_entry_of j u). split; [|done].
      by apply elem_of_lookup_imap_2.
    + rewrite <- (take_drop (Z.to_nat limit) sorted) in Hsorted.
      apply list_elem_of_lookup_2 in Ha.
      pose proof (StronglySorted_app_1_elem_of _ _ _ _ _ Hsorted Ha Hu) as Hle.
      unfold Database.points_desc in Hle. lia.
  - unfold Api.get_leaderboard, Database.get_leaderboard, Database.sql_limit.
    assert (int64 limit = true) as ->.
    { unfold int64. apply andb_true_iff. split; [apply Z.leb_le | apply Z.ltb_lt]; lia. }
    destruct (Z.ltb_spec limit 0) as [|_]; [lia|]. simpl.
    do 2 f_equal. fold sorted.
    rewrite length_imap, length_take, (Permutation_length Hperm). lia.
  - intros n Hn. unfold Api.get_leaderboard. by rewrite Hn.
Qed.

(** Two of the three users fit on a board of two; carol's 40 points are
    not more than the 40 of alice. *)
Lemma leaderboard_holds_the_top_witness :
  ∃ total,
    Api.get_leaderboard Sample.db_three_users 2
    = Ok (Api.LeaderboardResponse (Database.get_leaderboard Sample.db_three_users 2) total)
    ∧ total = 3.
Proof.
  destruct (leaderboard_holds_the_top Sample.db_three_users 2) as (_ & _ & Hresp & _);
    [lia|].
  eexists. split; [exact Hresp | reflexivity].
Defined.

(** ** Predictions for teams without data *)

Lemma append_assoc_string (a b c : string) : (a +:+ b) +:+ c = a +:+ (b +:+ c).
Proof.
  induction a as [|x a IH]; [done|].
  change (String x ((a +:+ b) +:+ c) = String x (a +:+ (b +:+ c))). by rewrite IH.
Qed.

(** X22.  Two teams that are not in [TEAM_RANKINGS] get the default data,
    so the first team is given a win probability of exactly one half: it is
    the predicted winner exactly when the random draw is below 0.5, the
    confidence is 50 whoever wins, both strengths are reported as 50, and
    the explanation names no reason and the placeholder "Key Player". *)
Theorem generate_prediction_unknown_teams (team1 team2 sport : string) (rand : float) :
  PredictionEngine.TEAM_RANKINGS !! team1 = None →
  PredictionEngine.TEAM_RANKINGS !! team2 = None →
  let t1_wins := (rand <? 0.5)%float in
  let winner := if t1_wins then team1 else team2 in
  let loser := if t1_wins then team2 else team1 in
  PredictionEngine.generate_prediction team1 team2 sport rand
  = Ok (PredictionEngine.Prediction winner loser 50
          (winner +:+ " should win with 50% confidence. "
                  +:+ "Key player Key Player expected to perform well.")
          50 50).
Proof.
  intros H1 H2. cbv zeta. unfold PredictionEngine.generate_prediction. cbv zeta.
  unfold Py.get. rewrite H1, H2. cbn [default].
  assert ((if (0 <? PredictionEngine.team_score PredictionEngine.unknown_team
                    + PredictionEngine.team_score PredictionEngine.unknown_team)%float
           then (PredictionEngine.team_score PredictionEngine.unknown_team
                 / (PredictionEngine.team_score PredictionEngine.unknown_team
                    + PredictionEngine.team_score PredictionEngine.unknown_team))%float
           else 0.5%float) = 0.5%float) as -> by (vm_compute; reflexivity).
  assert (PredictionEngine.int (0.5 * 100)%float = Ok 50) as Ha by (vm_compute; reflexivity).
  assert (PredictionEngine.int ((1 - 0.5) * 100)%float = Ok 50) as Hb
    by (vm_compute; reflexivity).
  assert (PredictionEngine.first ["Key Player"] = Ok "Key Player") as Hk by apply first_cons.
  destruct (rand <? 0.5)%float.
  - rewrite Ha. unfold mbind at 1. unfold result_bind at 1. cbv beta iota.
    rewrite H1, H2. cbn [from_option]. rewrite Hk.
    unfold mbind, result_bind, mret, result_ret. cbv beta iota.
    change (50 + 10 <? 50) with false. change (5 + 1 <? 5) with false.
    change (50 <? 50) with false. cbv iota.
    change (Py.str_of_int 50) with "50".
    do 2 f_equal. rewrite !append_assoc_string. reflexivity.
  - rewrite Hb. unfold mbind at 1. unfold result_bind at 1. cbv beta iota.
    rewrite H1, H2. cbn [from_option]. rewrite Hk.
    unfold mbind, result_bind, mret, result_ret. cbv beta iota.
    change (50 + 10 <? 50) with false. change (5 + 1 <? 5) with false.
    change (50 <? 50) with false. cbv iota.
    change (Py.str_of_int 50) with "50".
    do 2 f_equal. rewrite !append_assoc_string. reflexivity.
Qed.

Lemma generate_prediction_unknown_teams_witness :
  PredictionEngine.predicted_winner
    <$> match PredictionEngine.generate_prediction "Springfield" "Shelbyville" "nba" 0.75 with
        | Ok p => Some p
        | Raise _ => None
        end
  = Some "Shelbyville".
Proof.
  rewrite (generate_prediction_unknown_teams "Springfield" "Shelbyville" "nba" 0.75)
    by reflexivity.
  reflexivity.
Defined.

(** ** Reading the quiz history *)

Lemma for_each_raises {E A B} (f : A → result E B) (l : list A) x e :
  In x l → f x = Raise e → ∃ e', Builtins.for_each f l = Raise e'.
Proof.
  intros Hin Hx. induction l as [|y l IH]; [done|]. simpl.
  destruct (f y) as [b|e0] eqn:Hy; simpl; [|by eexists].
  destruct Hin as [->|Hin]; [congruence|].
  destruct (IH Hin) as [e' ->]. by eexists.
Qed.


Lemma submit_quiz_keeps_user db now questions_json request resp db' :
  Api.submit_quiz db now questions_json request = (Ok resp, db') →
  is_Some (Database.get_user db' (Api.qs_user_id request))
  ↔ is_Some (Database.get_user db (Api.qs_user_id request)).
Proof.
  intros Hsubmit.
  destruct (submit_quiz_ok _ _ _ _ _ _ Hsubmit) as (_ & _ & _ & Husers & _).
  unfold Database.get_user. rewrite Husers.
  rewrite select_update_where by done. rewrite fetchone_map, fmap_is_Some. done.
Qed.

(** X23.  Once a user has submitted a quiz at the level Easy, Medium or
    Hard, the quiz history of that user can no longer be read: the attempt
    is stored under the difficulty ["level_" + level], and
    [get_user_quiz_history] raises on converting the level name to an
    integer.  The quiz-history handler answers 500, and so does the profile
    handler when the user has a row (it answers 404 when there is none). *)
Theorem quiz_history_unreadable_after_named_level (db : Database.t) (now : Z)
    (questions_json : option (list Api.bank_question))
    (request : Api.QuizSubmissionRequest) (resp : Api.quiz_response) (db' : Database.t)
    (l : named_level) :
  Api.submit_quiz db now questions_json request = (Ok resp, db') →
  Api.qs_level request = level_name l →
  (∃ e, Queries.get_user_quiz_history db' (Api.qs_user_id request) = Raise e)
  ∧ Handlers.get_quiz_history db' (Api.qs_user_id request) = Raise 500
  ∧ Handlers.get_user db' (Api.qs_user_id request)
    = match Database.get_user db (Api.qs_user_id request) with
      | Some _ => Raise 500
      | None => Raise 404
      end.
Proof.
  intros Hsubmit Hlevel.
  assert (∃ e, Queries.get_user_quiz_history db' (Api.qs_user_id request) = Raise e)
    as [e He].
  { unfold Queries.get_user_quiz_history.
    set (row := QuizHistory.Row (last_id (Database.quiz_history db) + 1)
                  (Api.qs_user_id request) (Api.qs_team request)
                  ("level_" +:+ Api.qs_level request) "[]" "[]" (Api.score resp) now).
    apply (for_each_raises _ _ row (Std ValueError)).
    - apply list_elem_of_In. unfold order_by_created_at_desc.
      rewrite merge_sort_Permutation. apply list_elem_of_In, filter_In. split.
      + rewrite (submit_quiz_history _ _ _ _ _ _ Hsubmit). apply in_or_app. right. by left.
      + simpl. apply String.eqb_refl.
    - unfold Queries.quiz_history_entry_of. simpl. rewrite Hlevel. by destruct l. }
  split; [by exists e|]. split.
  - unfold Handlers.get_quiz_history. by rewrite He.
  - unfold Handlers.get_user. rewrite He.
    pose proof (submit_quiz_keeps_user _ _ _ _ _ _ Hsubmit) as Hkeep.
    destruct (Database.get_user db' _) as [u'|], (Database.get_user db _) as [u|];
      try done.
    + destruct Hkeep as [Hk _]. by destruct Hk.
    + destruct Hkeep as [_ Hk]. by destruct Hk.
Qed.

Lemma quiz_history_unreadable_after_named_level_witness :
  Handlers.get_user (Api.submit_quiz Sample.db_alice 3 (Some Sample.lakers_bank)
                       Sample.alice_request).2 "alice"
  = Raise 500.
Proof.
  destruct (Api.submit_quiz Sample.db_alice 3 (Some Sample.lakers_bank)
              Sample.alice_request) as [[resp|e] db'] eqn:Hsubmit;
    [|vm_compute in Hsubmit; discriminate].
  destruct (quiz_history_unreadable_after_named_level _ _ _ _ _ _ Easy Hsubmit eq_refl)
    as (_ & _ & Hprofile).
  exact Hprofile.
Defined.







(** ** Reading the predictions *)

(** X25.  The prediction history and the profile list at most the 50
    newest predictions of a user: the [total] of the history handler and the
    [prediction_count] of the profile are the number of the user's
    predictions capped at 50, while [get_prediction_stats] counts them
    all. *)
Theorem prediction_history_is_capped (db : Database.t) (user_id : string) :
  let stats := Database.get_prediction_stats db user_id in
  (∃ h, Handlers.get_prediction_history db user_id = Ok h
     ∧ Handlers.total h = Z.of_nat (length (Handlers.predictions h))
     ∧ Handlers.total h = Z.min 50 (Database.total_predictions stats)
     ∧ StronglySorted (λ a b, Queries.p_created_at b ≤ Queries.p_created_at a)
                      (Handlers.predictions h))
  ∧ (∀ p, Handlers.get_user db user_id = Ok p →
       Handlers.prediction_count p = Z.min 50 (Database.total_predictions stats)).
Proof.
  cbv zeta.
  set (mine := select_where (λ r, String.eqb (Predictions.user_id r) user_id)
                            (rows (Database.predictions db))).
  set (sorted := order_by_created_at_desc Predictions.created_at mine).
  assert (sorted ≡ₚ mine) as Hperm by apply merge_sort_Permutation.
  assert (StronglySorted (newest_first Predictions.created_at) sorted) as Hsorted
    by apply (StronglySorted_merge_sort (newest_first Predictions.created_at)).
  assert (Z.of_nat (length (Queries.get_user_predictions db user_id
                              Queries.get_user_predictions_default_limit))
          = Z.min 50 (Database.total_predictions
                        (Database.get_prediction_stats db user_id))) as Hlen.
  { unfold Queries.get_user_predictions, Database.get_prediction_stats. simpl.
    fold mine. fold sorted. rewrite length_map. unfold Database.sql_limit. simpl.
    change (Z.to_nat Queries.get_user_predictions_default_limit) with 50%nat.
    rewrite length_take, (Permutation_length Hperm). lia. }
  split.
  - eexists. split; [reflexivity|]. simpl. split_and!; [done | exact Hlen |].
    unfold Queries.get_user_predictions. fold mine. fold sorted.
    unfold Database.sql_limit. simpl.
    change (Z.to_nat Queries.get_user_predictions_default_limit) with 50%nat.
    rewrite <- (take_drop 50 sorted) in Hsorted.
    apply StronglySorted_app_1_l in Hsorted.
    by apply (StronglySorted_fmap Queries.prediction_entry_of
                (newest_first Predictions.created_at)).
  - intros p. unfold Handlers.get_user.
    destruct (Database.get_user db user_id); [|discriminate].
    destruct (Queries.get_user_quiz_history db user_id); [|discriminate].
    intros [= <-]. simpl. exact Hlen.
Qed.

(** ** The reward tracker *)

Lemma set_users_same db : Database.set_users (Database.users db) db = db.
Proof. by destruct db. Qed.

Lemma get_user_None_absent db user_id :
  Database.get_user db user_id = None →
  existsb (Database.user_is user_id) (Database.users db) = false.
Proof. intros Hu. by apply fetchone_select_None. Qed.

Lemma add_badge_absent db user_id badge :
  Database.get_user db user_id = None → Database.add_badge db user_id badge = db.
Proof.
  intros Hu. unfold Database.add_badge.
  assert (fetchone (select_where (Database.user_is user_id) (Database.users db)) = None)
    as -> by exact Hu.
  done.
Qed.

(** X26.  [add_prediction_points] awards 100 points for a correct
    prediction, 25 for a close one and 10 otherwise.  For a user who has a
    row the balance grows by the award, and the [total_user_points] it
    reports is the new balance plus the award once more; "prediction_pro" is
    granted with every correct prediction and "points_collector" exactly
    when the new balance is at least 1000.  For a user id without a row it
    raises [TypeError] and the store is unchanged. *)
Theorem add_prediction_points_outcome (db : Database.t) (now : Z) (user_id : string)
    (is_correct is_close : bool) :
  let out := FanRewardTrackerTool.add_prediction_points db now user_id
               is_correct is_close in
  let points := if is_correct then 100 else if is_close then 25 else 10 in
  match Database.get_user db user_id with
  | None => out = (Raise TypeError, db)
  | Some u =>
      ∃ r u',
        out.1 = Ok r
        ∧ Database.get_user out.2 user_id = Some u'
        ∧ FanRewardTrackerTool.points_awarded r = points
        ∧ Users.total_points u' = Users.total_points u + points
        ∧ FanRewardTrackerTool.total_user_points r = Users.total_points u' + points
        ∧ (is_correct = true →
           In "prediction_pro" (FanRewardTrackerTool.badges_earned r)
           ∧ In "prediction_pro" (Users.badges u'))
        ∧ (In "points_collector" (FanRewardTrackerTool.badges_earned r)
           ↔ 1000 ≤ Users.total_points u')
        ∧ (1000 ≤ Users.total_points u' → In "points_collector" (Users.badges u'))
  end.
Proof.
  cbv zeta. unfold FanRewardTrackerTool.add_prediction_points.
  set (points := if is_correct then 100 else if is_close then 25 else 10).
  set (earned := if is_correct then ["prediction_pro"] else []).
  assert ((if is_correct
           then (RewardConfig.PREDICTION_CORRECT, ["prediction_pro"])
           else if is_close then (RewardConfig.PREDICTION_CLOSE, [])
                else (RewardConfig.FIRST_PREDICTION, []))
          = (points, earned)) as -> by (by destruct is_correct, is_close).
  destruct (Database.get_user db user_id) as [u|] eqn:Hu.
  - set (db1 := Database.update_user_points db now user_id points).
    assert (Database.get_user db1 user_id = Some (Database.add_points points now u))
      as Hu1.
    { unfold db1, Database.update_user_points.
      rewrite (get_user_update db db user_id user_id _ u) by done.
      by rewrite String.eqb_refl. }
    set (db2 := fold_left (λ db0 badge, Database.add_badge db0 user_id badge) earned db1).
    assert (∃ u2, Database.get_user db2 user_id = Some u2
                  ∧ Users.total_points u2 = Users.total_points u + points
                  ∧ (is_correct = true → In "prediction_pro" (Users.badges u2)))
      as (u2 & Hu2 & Hpoints2 & Hpro).
    { unfold db2, earned. destruct is_correct; simpl.
      - eexists. split; [by apply add_badge_existing|].
        destruct (existsb _ _) eqn:Hb; simpl.
        + split; [done|]. intros _. by apply existsb_eqb_In in Hb.
        + split; [done|]. intros _. apply in_or_app. right. by left.
      - eexists. split; [exact Hu1|]. done. }
    rewrite Hu2.
    assert (existsb (String.eqb "points_collector") earned = false) as Hnot
      by (unfold earned; by destruct is_correct).
    assert (¬ In "points_collector" earned) as Hnotin
      by (intros Hin%existsb_eqb_In; congruence).
    destruct (Z.leb_spec 1000 (Users.total_points u2)) as [Hrich|Hpoor].
    + pose proof (add_badge_existing db2 user_id "points_collector" u2 Hu2) as Hu3.
      rewrite Hnot.
      set (u3 := if existsb (String.eqb "points_collector") (Users.badges u2) then u2
                 else Database.set_badges (Users.badges u2 ++ ["points_collector"]) u2)
        in Hu3.
      assert (Users.total_points u3 = Users.total_points u2) as Hpoints3
        by (unfold u3; by destruct (existsb _ (Users.badges u2))).
      assert (∀ b, In b (Users.badges u2) → In b (Users.badges u3)) as Hkeep.
      { intros b Hb. unfold u3. destruct (existsb _ (Users.badges u2)); [done|].
        cbn [Database.set_badges Users.badges]. apply in_or_app. by left. }
      assert (In "points_collector" (Users.badges u3)) as Hcollector.
      { unfold u3. destruct (existsb _ (Users.badges u2)) eqn:Hb.
        - by apply existsb_eqb_In in Hb.
        - cbn [Database.set_badges Users.badges]. apply in_or_app. right. by left. }
      exists (FanRewardTrackerTool.Reward points (earned ++ ["points_collector"])
                (Users.total_points u2 + points)), u3.
      cbn [fst snd FanRewardTrackerTool.points_awarded FanRewardTrackerTool.badges_earned
           FanRewardTrackerTool.total_user_points].
      split; [reflexivity|]. split; [exact Hu3|]. split; [reflexivity|].
      split; [lia|]. split; [lia|]. split; [|split].
      * intros Hc. split; [|by apply Hkeep, Hpro].
        apply in_or_app. left. unfold earned. rewrite Hc. by left.
      * split; [lia|]. intros _. apply in_or_app. right. by left.
      * done.
    + exists (FanRewardTrackerTool.Reward points earned (Users.total_points u2 + points)), u2.
      cbn [fst snd FanRewardTrackerTool.points_awarded FanRewardTrackerTool.badges_earned
           FanRewardTrackerTool.total_user_points].
      split; [reflexivity|]. split; [exact Hu2|]. split; [reflexivity|].
      split; [lia|]. split; [lia|]. split; [|split].
      * intros Hc. split; [|by apply Hpro]. unfold earned. rewrite Hc. by left.
      * split; [done | lia].
      * lia.
  - assert (Database.update_user_points db now user_id points = db) as ->.
    { unfold Database.update_user_points.
      rewrite update_where_none by (by apply get_user_None_absent).
      apply set_users_same. }
    assert (fold_left (λ db0 badge, Database.add_badge db0 user_id badge) earned db = db)
      as ->.
    { unfold earned. destruct is_correct; simpl; [|done]. by apply add_badge_absent. }
    by rewrite Hu.
Qed.

Lemma existsb_imap_entry user_id (l : list Users.row) (k : nat) :
  existsb (λ entry, String.eqb (Database.user_id entry) user_id)
          (imap (λ i, Database.leaderboard_entry_of (k + i)) l)
  = existsb (Database.user_is user_id) l.
Proof.
  revert k. induction l as [|r l IH]; intros k; [done|].
  rewrite imap_cons. simpl. f_equal.
  rewrite <- (IH (S k)). f_equal. apply imap_ext. intros i x _. simpl.
  by replace (k + S i)%nat with (S k + i)%nat by lia.
Qed.

(** X27.  [check_and_award_leaderboard_badge] grants "leaderboard_top_10"
    exactly to a user listed among the first ten of the leaderboard: then the
    user has a row and the badge is in it afterwards; otherwise nothing is
    returned and the store is unchanged.  A user id without a row is never
    granted it, and with at most ten users every user who has a row is. *)
Theorem leaderboard_badge_award (db : Database.t) (user_id : string) :
  let out := FanRewardTrackerTool.check_and_award_leaderboard_badge db user_id in
  ((out.1 = Some "leaderboard_top_10"
    ∧ (∃ e, e ∈ Database.get_leaderboard db 10 ∧ Database.user_id e = user_id)
    ∧ (∃ u', Database.get_user out.2 user_id = Some u'
         ∧ In "leaderboard_top_10" (Users.badges u')))
   ∨ (out = (None, db)
      ∧ ¬ (∃ e, e ∈ Database.get_leaderboard db 10 ∧ Database.user_id e = user_id)))
  ∧ (Database.get_user db user_id = None → out = (None, db))
  ∧ (is_Some (Database.get_user db user_id) → (length (Database.users db) ≤ 10)%nat →
     out.1 = Some "leaderboard_top_10").
Proof.
  cbv zeta. unfold FanRewardTrackerTool.check_and_award_leaderboard_badge.
  set (sorted := Database.order_by_total_points_desc (Database.users db)).
  assert (sorted ≡ₚ Database.users db) as Hperm by apply merge_sort_Permutation.
  assert (existsb (λ entry, String.eqb (Database.user_id entry) user_id)
                  (Database.get_leaderboard db 10)
          = existsb (Database.user_is user_id) (take 10 sorted)) as Hboard
    by apply (existsb_imap_entry user_id (take 10 sorted) 0).
  assert (existsb (Database.user_is user_id) (take 10 sorted) = true →
          is_Some (Database.get_user db user_id)) as Hrow.
  { intros (r & Hr & Hid)%existsb_exists.
    destruct (Database.get_user db user_id) as [u|] eqn:Hu; [by eexists|].
    apply get_user_None_absent in Hu.
    assert (existsb (Database.user_is user_id) (Database.users db) = true) as Hex; [|congruence].
    apply existsb_exists. exists r. split; [|done].
    apply list_elem_of_In. rewrite <- Hperm.
    apply (subseteq_take 10). by apply list_elem_of_In. }
  assert (is_Some (Database.get_user db user_id) → (length (Database.users db) ≤ 10)%nat →
          existsb (Database.user_is user_id) (take 10 sorted) = true) as Hfew.
  { intros [u Hu] Hfew.
    rewrite take_ge by (rewrite (Permutation_length Hperm); lia).
    apply existsb_exists. exists u. split; [|by apply (get_user_is db)].
    apply list_elem_of_In. rewrite Hperm. apply list_elem_of_In.
    unfold Database.get_user in Hu.
    destruct (select_where _ _) as [|x l] eqn:E; [done|].
    simpl in Hu. injection Hu as ->.
    assert (In u (select_where (Database.user_is user_id) (Database.users db))) as Hin
      by (rewrite E; by left).
    by apply filter_In in Hin as [Hin _]. }
  assert (existsb (λ entry, String.eqb (Database.user_id entry) user_id)
                  (Database.get_leaderboard db 10) = true
          ↔ ∃ e, e ∈ Database.get_leaderboard db 10 ∧ Database.user_id e = user_id)
    as Hlisted.
  { rewrite existsb_exists. split.
    - intros (e & He & Hid%String.eqb_eq). exists e. split; [by apply list_elem_of_In | done].
    - intros (e & He & Hid). exists e. split; [by apply list_elem_of_In|].
      by apply String.eqb_eq. }
  rewrite Hboard in Hlisted |- *. clear Hboard.
  destruct (existsb (Database.user_is user_id) (take 10 sorted)).
  - destruct (Hrow eq_refl) as [u Hu]. split_and!.
    + left. split; [done|]. split; [by apply Hlisted|].
      cbn [snd]. rewrite (add_badge_existing db user_id "leaderboard_top_10" u Hu).
      eexists. split; [reflexivity|].
      destruct (existsb _ (Users.badges u)) eqn:Hb.
      * by apply existsb_eqb_In in Hb.
      * cbn [Database.set_badges Users.badges]. apply in_or_app. right. by left.
    + intros Hnone. congruence.
    + done.
  - split_and!.
    + right. split; [done|]. intros Hl. by apply Hlisted in Hl.
    + done.
    + intros Hsome Hlen. by specialize (Hfew Hsome Hlen).
Qed.

(** ** The agent's keyword routing *)

Lemma contains_prefix_of sub sub' s :
  (∀ t, String.prefix sub' t = true → String.prefix sub t = true) →
  Builtins.contains sub' s = true → Builtins.contains sub s = true.
Proof.
  intros Hpre. induction s as [|c s IH].
  - change (Builtins.contains sub' "") with (String.prefix sub' "" || false).
    change (Builtins.contains sub "") with (String.prefix sub "" || false).
    rewrite !orb_false_r. apply Hpre.
  - change (Builtins.contains sub' (String c s))
      with (String.prefix sub' (String c s) || Builtins.contains sub' s).
    change (Builtins.contains sub (String c s))
      with (String.prefix sub (String c s) || Builtins.contains sub s).
    intros [H|H]%orb_true_iff; apply orb_true_iff; [left; by apply Hpre | right; by apply IH].
Qed.

Lemma prefix_append a b t : String.prefix (a +:+ b) t = true → String.prefix a t = true.
Proof.
  revert t. induction a as [|c a IH]; intros t; [by destruct t|].
  change (String c a +:+ b) with (String c (a +:+ b)).
  destruct t as [|c' t]; [done|]. simpl.
  destruct (ascii_dec c c'); [apply IH | done].
Qed.

(** X28.  The keyword routing used when the model's answer cannot be used.
    The message is read case-insensitively; a quiz word wins over everything,
    and a prediction word over a statistics word.  The word "score" is in
    both the prediction and the statistics list, so a message that contains
    it is never routed to the statistics; the statistics are chosen exactly
    when the message has none of the quiz and prediction words and one of
    "stats", "leaderboard", "points", "badges" and "rank".  The parameters
    are always the empty JSON object. *)
Theorem fallback_action_precedence (message : string) :
  let decision := (Agent._fallback_action_decision message).1 in
  let has words := Agent.any_word_in words (Py.lower message) in
  let quiz_words := ["quiz"; "trivia"; "question"; "test"] in
  let prediction_words := ["predict"; "score"; "win"; "outcome"; "vs"] in
  let stats_words := ["stats"; "leaderboard"; "points"; "badges"; "rank"] in
  (decision = "quiz" ↔ has quiz_words = true)
  ∧ (decision = "prediction" ↔ has quiz_words = false ∧ has prediction_words = true)
  ∧ (decision = "stats"
     ↔ has quiz_words = false ∧ has prediction_words = false ∧ has stats_words = true)
  ∧ (decision = "chat"
     ↔ has quiz_words = false ∧ has prediction_words = false ∧ has stats_words = false)
  ∧ (has ["score"] = true → decision ≠ "stats")
  ∧ (Agent._fallback_action_decision message).2 = "{}".
Proof.
  cbv zeta. unfold Agent._fallback_action_decision. cbv zeta.
  set (m := Py.lower message).
  assert (Builtins.contains "prediction" m = true → Builtins.contains "predict" m = true)
    as Hpred.
  { apply contains_prefix_of. intros t. apply (prefix_append "predict" "ion"). }
  unfold Agent.any_word_in. simpl existsb. rewrite !orb_false_r.
  destruct (Builtins.contains "quiz" m), (Builtins.contains "trivia" m),
    (Builtins.contains "question" m), (Builtins.contains "test" m); simpl;
    try (split_and!; try done; try (split; [done | intros [? ?]; done]);
         try (split; [done | intros (? & ? & ?); done]); fail).
  destruct (Builtins.contains "predict" m) eqn:Hp; simpl.
  { split_and!; try done; try (split; [done | intros (? & ? & ?); done]). }
  destruct (Builtins.contains "prediction" m); [by specialize (Hpred eq_refl)|]. simpl.
  destruct (Builtins.contains "score" m), (Builtins.contains "win" m),
    (Builtins.contains "outcome" m), (Builtins.contains "vs" m); simpl;
    try (split_and!; try done; try (split; [done | intros [? ?]; done]);
         try (split; [done | intros (? & ? & ?); done]); fail).
  rewrite orb_false_r.
  destruct (Builtins.contains "stats" m || Builtins.contains "leaderboard" m
            || Builtins.contains "points" m || Builtins.contains "badges" m
            || Builtins.contains "rank" m) eqn:Hs.
  - assert (Builtins.contains "stats" m
            || (Builtins.contains "leaderboard" m
                || (Builtins.contains "points" m
                    || (Builtins.contains "badges" m || Builtins.contains "rank" m)))
            = true) as -> by (by rewrite !orb_assoc).
    split_and!; try done; try (split; [done | intros [? ?]; done]);
      try (split; [done | intros (? & ? & ?); done]).
  - assert (Builtins.contains "stats" m
            || (Builtins.contains "leaderboard" m
                || (Builtins.contains "points" m
                    || (Builtins.contains "badges" m || Builtins.contains "rank" m)))
            = false) as -> by (by rewrite !orb_assoc).
    split_and!; try done; try (split; [done | intros [? ?]; done]);
      try (split; [done | intros (? & ? & ?); done]).
Qed.

(** ** The teams on file *)

Lemma on_file_snoc seen q team level :
  on_file (seen ++ [q]) team level
  = on_file seen team level
    || (String.eqb (Api.team q) team && String.eqb (Api.level q) level).
Proof. unfold on_file. rewrite existsb_app. simpl. by rewrite orb_false_r. Qed.

Lemma on_file_filter bank team level :
  on_file bank team level = true
  ↔ List.filter (λ q, String.eqb (Api.team q) team && String.eqb (Api.level q) level) bank
    ≠ [].
Proof.
  unfold on_file. induction bank as [|q bank IH]; simpl; [done|].
  destruct (_ && _); simpl; [split; done | exact IH].
Qed.

Lemma note_level_describes seen q t :
  describes seen (Api.team q) t →
  describes (seen ++ [q]) (Api.team q) (Handlers.note_level (Api.level q) t).
Proof.
  unfold describes. rewrite !on_file_snoc, String.eqb_refl. simpl andb.
  destruct t as [n ls e m h]. simpl.
  intros (-> & -> & -> & -> & Hnd & Hls).
  set (fe := on_file seen (Api.team q) "Easy") in *.
  set (fm := on_file seen (Api.team q) "Medium") in *.
  set (fh := on_file seen (Api.team q) "Hard") in *.
  unfold Handlers.note_level. simpl.
  destruct (String.eqb_spec (Api.level q) "Easy") as [->|He].
  - change (String.eqb "Easy" "Medium") with false.
    change (String.eqb "Easy" "Hard") with false. simpl.
    destruct fe; simpl; rewrite ?orb_false_r.
    + split_and!; try done.
    + split_and!; try done.
      * apply NoDup_app. split_and!; [done | | apply NoDup_singleton].
        intros x Hx ->%list_elem_of_singleton. apply Hls in Hx. destruct Hx as [[? ?]|[[? ?]|[? ?]]]; congruence.
      * intros l. rewrite elem_of_app, list_elem_of_singleton, Hls. intuition congruence.
  - destruct (String.eqb_spec (Api.level q) "Medium") as [->|Hm].
    + change (String.eqb "Medium" "Hard") with false. simpl.
      destruct fm; simpl; rewrite ?orb_false_r.
      * split_and!; try done.
      * split_and!; try done.
        -- apply NoDup_app. split_and!; [done | | apply NoDup_singleton].
           intros x Hx ->%list_elem_of_singleton. apply Hls in Hx. destruct Hx as [[? ?]|[[? ?]|[? ?]]]; congruence.
        -- intros l. rewrite elem_of_app, list_elem_of_singleton, Hls. intuition congruence.
    + destruct (String.eqb_spec (Api.level q) "Hard") as [_|Hh]; simpl.
      * destruct fh; simpl; rewrite ?orb_false_r.
        -- split_and!; try done.
        -- split_and!; try done.
           ++ apply NoDup_app. split_and!; [done | | apply NoDup_singleton].
              intros x Hx ->%list_elem_of_singleton. apply Hls in Hx. destruct Hx as [[? ?]|[[? ?]|[? ?]]]; congruence.
           ++ intros l. rewrite elem_of_app, list_elem_of_singleton, Hls. intuition congruence.
      * rewrite !orb_false_r. split_and!; done.
Qed.

Lemma describes_fresh seen team :
  existsb (λ q, String.eqb (Api.team q) team) seen = false →
  describes seen team (Handlers.TeamAvailability team [] false false false).
Proof.
  intros Hnone.
  assert (∀ level, on_file seen team level = false) as Hoff.
  { intros level. unfold on_file. induction seen as [|q seen IH]; simpl; [done|].
    simpl in Hnone. apply orb_false_elim in Hnone as [-> Hnone]. simpl. by apply IH. }
  unfold describes. simpl. rewrite !Hoff. split_and!; try done; [constructor|].
  intros l. rewrite elem_of_nil. intuition congruence.
Qed.

Lemma describes_other seen q team t :
  Api.team q ≠ team → describes seen team t → describes (seen ++ [q]) team t.
Proof.
  intros Hne. unfold describes. rewrite !on_file_snoc.
  assert (String.eqb (Api.team q) team = false) as -> by (by apply String.eqb_neq).
  simpl. by rewrite !orb_false_r.
Qed.

(** The dict built by the loop of [get_available_teams]: one entry per team
    seen, describing the questions seen for that team. *)
Lemma teams_map_describes bank team :
  match fold_left Handlers.add_question bank ∅ !! team with
  | Some t => existsb (λ q, String.eqb (Api.team q) team) bank = true ∧ describes bank team t
  | None => existsb (λ q, String.eqb (Api.team q) team) bank = false
  end.
Proof.
  induction bank as [|q seen IH] using rev_ind; [simpl; by rewrite lookup_empty|].
  rewrite fold_left_app, existsb_app. simpl. rewrite orb_false_r.
  unfold Handlers.add_question at 1.
  destruct (String.eqb_spec (Api.team q) team) as [<-|Hne].
  - rewrite lookup_insert_eq, orb_true_r. split; [done|].
    apply note_level_describes.
    destruct (fold_left Handlers.add_question seen ∅ !! Api.team q) as [t|]; simpl.
    + by destruct IH.
    + by apply describes_fresh.
  - rewrite lookup_insert_ne by done. rewrite orb_false_r.
    destruct (fold_left Handlers.add_question seen ∅ !! team) as [t|]; [|done].
    destruct IH as [Hseen Hdesc]. split; [done|]. by apply describes_other.
Qed.

Lemma generate_quiz_Ok_iff db now bank picks user_id team (l : named_level) :
  (∃ quiz db', Api.generate_quiz db now (Some bank) picks user_id team (level_name l)
               = (Ok quiz, db'))
  ↔ on_file bank team (level_name l) = true.
Proof.
  rewrite on_file_filter. unfold Api.generate_quiz. cbv zeta.
  assert (Py.capitalize (level_name l) = level_name l) as -> by (by destruct l).
  assert (existsb (String.eqb (level_name l)) ["Easy"; "Medium"; "Hard"] = true) as ->
    by (by destruct l).
  simpl negb. cbv iota. unfold Api.load_questions. cbv iota.
  destruct (List.filter _ bank) as [|q pool]; split.
  - intros (quiz & db' & [=]).
  - done.
  - done.
  - intros _. by eexists _, _.
Qed.

#[global] Instance by_name_total : Total Handlers.by_name.
Proof. intros a b. apply String.leb_total. Qed.

#[global] Instance by_name_transitive : Transitive Handlers.by_name.
Proof. intros a b c. apply string_leb_trans. Qed.

(** X29.  [get_available_teams] on a bank: the answer lists exactly the
    teams that have a question in the bank, each once, sorted by name, and
    [total_teams] is their number.  The levels listed for a team are,
    without repetition, exactly those of Easy, Medium and Hard for which the
    bank has a question of the team, and its three flags say the same.  So
    a level is listed for a team exactly when [generate_quiz] answers a
    request for that team and level with a quiz.  A missing file is
    answered with 500. *)
Theorem available_teams_match_the_bank (bank : list Api.bank_question) :
  Handlers.get_available_teams None = Raise 500
  ∧ ∃ resp,
      Handlers.get_available_teams (Some bank) = Ok resp
      ∧ Handlers.total_teams resp = Z.of_nat (length (Handlers.teams resp))
      ∧ StronglySorted (λ a b, String.leb (Handlers.name a) (Handlers.name b) = true)
                       (Handlers.teams resp)
      ∧ NoDup (Handlers.name <$> Handlers.teams resp)
      ∧ (∀ team, team ∈ Handlers.name <$> Handlers.teams resp
                 ↔ ∃ q, q ∈ bank ∧ Api.team q = team)
      ∧ ∀ t, t ∈ Handlers.teams resp →
          NoDup (Handlers.levels t)
          ∧ Handlers.has_easy t = bool_decide ("Easy" ∈ Handlers.levels t)
          ∧ Handlers.has_medium t = bool_decide ("Medium" ∈ Handlers.levels t)
          ∧ Handlers.has_hard t = bool_decide ("Hard" ∈ Handlers.levels t)
          ∧ (∀ level, level ∈ Handlers.levels t → ∃ l, level = level_name l)
          ∧ ∀ l db now picks user_id,
              level_name l ∈ Handlers.levels t
              ↔ ∃ quiz db',
                  Api.generate_quiz db now (Some bank) picks user_id (Handlers.name t)
                    (level_name l) = (Ok quiz, db').
Proof.
  split; [done|].
  unfold Handlers.get_available_teams. simpl Api.load_questions. cbv iota zeta.
  set (teams_map := fold_left Handlers.add_question bank ∅).
  set (teams_list := merge_sort Handlers.by_name (map_to_list teams_map).*2).
  assert (teams_list ≡ₚ (map_to_list teams_map).*2) as Hperm
    by apply merge_sort_Permutation.
  assert (∀ t, t ∈ teams_list ↔ ∃ team, teams_map !! team = Some t) as Hin.
  { intros t. rewrite Hperm, list_elem_of_fmap. split.
    - intros ([team t'] & -> & Hkt). exists team. by apply elem_of_map_to_list.
    - intros [team Ht]. exists (team, t). split; [done|]. by apply elem_of_map_to_list. }
  assert (∀ team t, teams_map !! team = Some t → describes bank team t) as Hdesc.
  { intros team t Ht. pose proof (teams_map_describes bank team) as Hd.
    fold teams_map in Hd. rewrite Ht in Hd. by destruct Hd. }
  assert (Handlers.name <$> (map_to_list teams_map).*2 = (map_to_list teams_map).*1)
    as Hnames.
  { rewrite <- list_fmap_compose. apply list_fmap_ext. intros i [team t] Hit. simpl.
    apply list_elem_of_lookup_2, elem_of_map_to_list in Hit.
    by destruct (Hdesc team t Hit) as [-> _]. }
  eexists. split; [reflexivity|]. cbn [Handlers.teams Handlers.total_teams].
  split_and!.
  - done.
  - apply (StronglySorted_merge_sort Handlers.by_name).
  - rewrite Hperm, Hnames. apply NoDup_fst_map_to_list.
  - intros team. rewrite Hperm, Hnames.
    pose proof (teams_map_describes bank team) as Hd. fold teams_map in Hd.
    rewrite list_elem_of_fmap. split.
    + intros ([team' t] & -> & Ht%elem_of_map_to_list). simpl in *.
      rewrite Ht in Hd. destruct Hd as [(q & Hq & Hteam%String.eqb_eq)%existsb_exists _].
      exists q. split; [by apply list_elem_of_In | done].
    + intros (q & Hq & Hteam).
      destruct (teams_map !! team) as [t|] eqn:Ht.
      * exists (team, t). split; [done|]. by apply elem_of_map_to_list.
      * assert (existsb (λ q, String.eqb (Api.team q) team) bank = true) as Hyes;
          [|congruence].
        apply existsb_exists. exists q. split; [by apply list_elem_of_In|].
        by apply String.eqb_eq.
  - intros t [team Ht]%Hin.
    destruct (Hdesc team t Ht) as (Hname & He & Hm & Hh & Hnd & Hls).
    split; [done|].
    assert (∀ l, bool_decide (level_name l ∈ Handlers.levels t)
                 = on_file bank team (level_name l)) as Hflag.
    { intros l. destruct (on_file bank team (level_name l)) eqn:Hon.
      - apply bool_decide_eq_true. rewrite Hls, He, Hm, Hh.
        destruct l; simpl in *; intuition congruence.
      - apply bool_decide_eq_false. rewrite Hls, He, Hm, Hh.
        destruct l; simpl in *; intuition congruence. }
    split; [rewrite He; exact (eq_sym (Hflag Easy))|].
    split; [rewrite Hm; exact (eq_sym (Hflag Medium))|].
    split; [rewrite Hh; exact (eq_sym (Hflag Hard))|].
    split.
    + intros level [[-> _]|[[-> _]|[-> _]]]%Hls;
        [by exists Easy | by exists Medium | by exists Hard].
    + intros l db now picks user_id.
      rewrite generate_quiz_Ok_iff, Hname, <- Hflag. by rewrite bool_decide_eq_true.
Qed.

Lemma available_teams_match_the_bank_witness :
  ∃ resp,
    Handlers.get_available_teams (Some Sample.lakers_bank) = Ok resp
    ∧ Handlers.name <$> Handlers.teams resp = ["Lakers"]
    ∧ Handlers.levels <$> Handlers.teams resp = [["Easy"; "Medium"]].
Proof.
  destruct (available_teams_match_the_bank Sample.lakers_bank) as (_ & resp & Hget & _).
  exists resp. split; [exact Hget|].
  vm_compute in Hget. injection Hget as <-. split; reflexivity.
Defined.

(** ** The chat history *)

Lemma newest_row_first {R} (created_at : R → Z) (l : list R) (x : R) :
  (∀ r, r ∈ l → created_at r < created_at x) →
  ∃ tl, order_by_created_at_desc created_at (l ++ [x]) = x :: tl ∧ tl ≡ₚ l.
Proof.
  intros Hnewest. unfold order_by_created_at_desc.
  pose proof (merge_sort_Permutation (newest_first created_at) (l ++ [x])) as Hperm.
  pose proof (StronglySorted_merge_sort (newest_first created_at) (l ++ [x])) as Hsorted.
  destruct (merge_sort (newest_first created_at) (l ++ [x])) as [|h tl].
  { apply Permutation_nil_l in Hperm. by destruct l. }
  assert (h = x) as ->.
  { assert (h ∈ (l ++ [x])%list) as Hh by (rewrite <- Hperm; left).
    assert (x ∈ h :: tl) as Hx by (rewrite Hperm, elem_of_app, list_elem_of_singleton; by right).
    apply elem_of_app in Hh as [Hh|Hh%list_elem_of_singleton]; [|done].
    apply elem_of_cons in Hx as [Hx|Hx]; [done|].
    apply StronglySorted_cons in Hsorted as [Hall _].
    rewrite Forall_forall in Hall. specialize (Hall x Hx). specialize (Hnewest h Hh).
    unfold newest_first in Hall. lia. }
  exists tl. split; [done|].
  apply (Permutation_cons_inv (a := x)). rewrite Hperm.
  symmetry. apply Permutation_cons_append.
Qed.

(** X30.  A chat message stored at a time later than every stored message
    is the last entry of the user's chat history for every limit from 1 to
    [2^63 - 1] (the history is returned oldest first and the limit keeps
    the newest messages); the history has [min(limit, n + 1)] entries when
    the user had [n] messages, and the handler answers with it; the chat
    history of every other user is unchanged, for every limit of the 64
    bits.  A limit outside the 64 bits is answered with a 500. *)
Theorem chat_history_ends_with_the_new_message (db : Database.t) (now : Z)
    (user_id message response : string) (tool_used : option string) (limit : Z) :
  0 < limit < 2 ^ 63 →
  (∀ r, r ∈ rows (Database.chat_history db) → ChatHistory.created_at r < now) →
  let db' := Database.add_chat_message db now user_id message response tool_used in
  let mine := select_where (λ r, String.eqb (ChatHistory.user_id r) user_id)
                           (rows (Database.chat_history db)) in
  last (Queries.get_user_chat_history db' user_id limit) = Some (message, response)
  ∧ length (Queries.get_user_chat_history db' user_id limit)
    = Nat.min (Z.to_nat limit) (S (length mine))
  ∧ Handlers.get_chat_history db' user_id limit
    = Ok (Queries.get_user_chat_history db' user_id limit)
  ∧ (∀ u n, u ≠ user_id → int64 n = true →
       Queries.get_user_chat_history db' u n = Queries.get_user_chat_history db u n)
  ∧ ∀ u n, int64 n = false → Handlers.get_chat_history db' u n = Raise 500.
Proof.
  intros [Hlimit Hbound] Hnewest. cbv zeta.
  set (mine := select_where (λ r, String.eqb (ChatHistory.user_id r) user_id)
                            (rows (Database.chat_history db))).
  set (new := ChatHistory.Row (last_id (Database.chat_history db) + 1) user_id message
                response tool_used now).
  assert (∀ u, select_where (λ r, String.eqb (ChatHistory.user_id r) u)
                 (rows (Database.chat_history
                          (Database.add_chat_message db now user_id message response
                             tool_used)))
               = (select_where (λ r, String.eqb (ChatHistory.user_id r) u)
                    (rows (Database.chat_history db))
                  ++ if String.eqb user_id u then [new] else [])%list) as Hrows.
  { intros u. unfold Database.add_chat_message. simpl. by rewrite select_where_app. }
  destruct (newest_row_first ChatHistory.created_at mine new) as (tl & Hsorted & Htl).
  { intros r Hr. apply Hnewest. apply list_elem_of_In in Hr.
    apply list_elem_of_In. by apply filter_In in Hr as [Hr _]. }
  assert (Queries.get_user_chat_history
            (Database.add_chat_message db now user_id message response tool_used)
            user_id limit
          = (List.map (λ r, (ChatHistory.message r, ChatHistory.response r))
               (reverse (take (Z.to_nat limit - 1) tl)) ++ [(message, response)])%list)
    as Hhistory.
  { unfold Queries.get_user_chat_history. rewrite Hrows, String.eqb_refl.
    fold mine. rewrite Hsorted. unfold Database.sql_limit.
    destruct (Z.ltb_spec limit 0) as [|_]; [lia|].
    replace (Z.to_nat limit) with (S (Z.to_nat limit - 1)) at 1 by lia.
    rewrite firstn_cons, reverse_cons, map_app. done. }
  split_and!.
  - rewrite Hhistory. apply last_snoc.
  - rewrite Hhistory, length_app, length_map, length_reverse, length_take.
    rewrite (Permutation_length Htl). simpl. lia.
  - unfold Handlers.get_chat_history.
    assert (int64 limit = true) as ->; [|done].
    unfold int64. apply andb_true_iff. split; [apply Z.leb_le | apply Z.ltb_lt]; lia.
  - intros u n Hu _. unfold Queries.get_user_chat_history. rewrite Hrows.
    assert (String.eqb user_id u = false) as -> by (apply String.eqb_neq; congruence).
    by rewrite app_nil_r.
  - intros u n Hn. unfold Handlers.get_chat_history. by rewrite Hn.
Qed.

Lemma chat_history_ends_with_the_new_message_witness :
  Queries.get_user_chat_history
    (Database.add_chat_message
       (Database.add_chat_message Database.init_db 1 "alice" "hi" "hello" None)
       2 "alice" "who won?" "the Lakers" (Some "chat"))
    "alice" 3
  = [("hi", "hello"); ("who won?", "the Lakers")].
Proof.
  pose proof (chat_history_ends_with_the_new_message
                (Database.add_chat_message Database.init_db 1 "alice" "hi" "hello" None)
                2 "alice" "who won?" "the Lakers" (Some "chat") 3) as Hthm.
  destruct Hthm as (Hlast & _).
  - lia.
  - intros r Hr. simpl in Hr. apply list_elem_of_singleton in Hr as ->. simpl. lia.
  - reflexivity.
Defined.
